(** * Generate-PPTX: placeholder resolution and table expansion

    A shallow embedding of [generate_pptx.py]: the text placeholder resolver
    ([process_text_placeholders]), the table placeholder expansion
    ([process_table_placeholder], [create_table], [set_table_font_size]) and
    the render loop ([generate_ppt]), over a small model of the python-pptx
    document objects the script manipulates (presentation, slide, shape,
    table, cell, paragraph, run). *)

From Stdlib Require Import ZArith Ascii Lia Bool DecimalString.
From Stdlib Require String PrimFloat.
From stdpp Require Import base list strings.

(** ** Python strings

    A Python [str] is modelled as a Rocq [string]; one [ascii] stands for one
    character.  The functions below are the [str] methods the script calls,
    with Python's conventions written out: [find] answers [-1] when there is
    no occurrence, slices clamp their bounds and count negative bounds from
    the end, [replace] substitutes non-overlapping occurrences from the left
    and, for an empty pattern, inserts the replacement around every
    character. *)
Module PyStr.

#[local] Open Scope Z_scope.

(** [sub in s] *)
Fixpoint contains (sub s : string) : bool :=
  String.prefix sub s ||
  match s with
  | EmptyString => false
  | String _ s' => contains sub s'
  end.

(** Position of the first occurrence of [sub] in [s], if any. *)
Fixpoint index_of (sub s : string) : option nat :=
  if String.prefix sub s then Some 0%nat
  else match s with
       | EmptyString => None
       | String _ s' => S <$> index_of sub s'
       end.

Fixpoint drop_chars (n : nat) (s : string) : string :=
  match n, s with
  | S k, String _ s' => drop_chars k s'
  | _, _ => s
  end.

Fixpoint take_chars (n : nat) (s : string) : string :=
  match n, s with
  | S k, String c s' => String c (take_chars k s')
  | _, _ => EmptyString
  end.

(** [s.find(sub, start)] for a non-negative [start] *)
Definition find (s sub : string) (start : nat) : Z :=
  if decide (String.length s < start)%nat then -1
  else match index_of sub (drop_chars start s) with
       | Some i => Z.of_nat (start + i)
       | None => -1
       end.

(** A slice bound as Python resolves it against a string of length [len]. *)
Definition slice_bound (len : nat) (i : Z) : nat :=
  Z.to_nat (Z.min (Z.of_nat len) (Z.max 0 (if i <? 0 then i + Z.of_nat len else i))).

(** [s[a:b]] *)
Definition slice (s : string) (a b : Z) : string :=
  let lo := slice_bound (String.length s) a in
  let hi := slice_bound (String.length s) b in
  take_chars (hi - lo) (drop_chars lo s).

(** The scan of [replace] for a non-empty pattern: [skip] counts the
    characters of the occurrence just replaced that are still to be passed
    over. *)
Fixpoint replace_scan (old new : string) (skip : nat) (s : string) : string :=
  match s with
  | EmptyString => EmptyString
  | String c s' =>
      match skip with
      | S k => replace_scan old new k s'
      | O =>
          if String.prefix old s
          then new +:+ replace_scan old new (String.length old - 1) s'
          else String c (replace_scan old new 0 s')
      end
  end.

(** [new] after every character of [s]. *)
Fixpoint follow_each (new s : string) : string :=
  match s with
  | EmptyString => EmptyString
  | String c s' => String c (new +:+ follow_each new s')
  end.

(** [s.replace(old, new)] *)
Definition replace (s old new : string) : string :=
  match old with
  | EmptyString => new +:+ follow_each new s
  | String _ _ => replace_scan old new 0 s
  end.

(** Characters [str.isspace] accepts, among the first 256 code points. *)
Definition is_space (c : ascii) : bool :=
  let n := nat_of_ascii c in
  ((9 <=? n) && (n <=? 13) || (28 <=? n) && (n <=? 32) || (n =? 133) || (n =? 160))%nat.

Fixpoint lstrip (s : string) : string :=
  match s with
  | EmptyString => EmptyString
  | String c s' => if is_space c then lstrip s' else s
  end.

Fixpoint rstrip (s : string) : string :=
  match s with
  | EmptyString => EmptyString
  | String c s' =>
      match rstrip s' with
      | EmptyString => if is_space c then EmptyString else String c EmptyString
      | r => String c r
      end
  end.

(** [s.strip()] *)
Definition strip (s : string) : string := rstrip (lstrip s).

(** [s.split(sep)] for a one-character separator; never the empty list. *)
Fixpoint split (sep : ascii) (s : string) : list string :=
  match s with
  | EmptyString => [EmptyString]
  | String c s' =>
      if decide (c = sep) then EmptyString :: split sep s'
      else match split sep s' with
           | h :: t => String c h :: t
           | [] => [String c EmptyString]
           end
  end.

(** [sep.join(parts)] *)
Definition join (sep : string) (parts : list string) : string :=
  String.concat sep parts.

(** [str(n)] for an [int] *)
Definition of_int (n : Z) : string := NilZero.string_of_int (Z.to_int n).

End PyStr.

(** ** Values of the content blob

    What [json.loads] returns: [None], [bool], [int], [float], [str], [list]
    and [dict].  A [dict] keeps its keys in insertion order, which the text
    resolver depends on ([content.items()]), so it is an association list. *)
#[warnings="-register-all"]
Inductive json : Type :=
| JNull
| JBool (b : bool)
| JInt (n : Z)
| JFloat (f : PrimFloat.float)
| JStr (s : string)
| JList (items : list json)
| JDict (entries : list (string * json)).

Abbreviation dict := (list (string * json)).

(** [d.get(key)] *)
Fixpoint dict_get (key : string) (d : dict) : option json :=
  match d with
  | [] => None
  | (k, v) :: d' => if decide (k = key) then Some v else dict_get key d'
  end.

(** [d[key] = value]: an existing key keeps its position, a new one goes
    last. *)
Fixpoint dict_set (key : string) (value : json) (d : dict) : dict :=
  match d with
  | [] => [(key, value)]
  | (k, v) :: d' =>
      if decide (k = key) then (k, value) :: d' else (k, v) :: dict_set key value d'
  end.

(** [list(d.keys())] *)
Definition dict_keys (d : dict) : list string := d.*1.

(** ** The document objects (python-pptx)

    Lengths and font sizes are in EMU; a font attribute that is not set is
    [None].  A paragraph holds its runs and its own default font; line breaks
    inside a paragraph are kept as characters of the run text. *)
Record Font : Type := { size : option Z; bold : option bool }.

Record Run : Type := { run_text : string; run_font : Font }.

Record Paragraph : Type := { para_font : Font; runs : list Run }.

Record TextFrame : Type := { paragraphs : list Paragraph }.

Record Cell : Type := { cell_frame : TextFrame }.

Record Row : Type := { cells : list Cell }.

Record Table : Type := { rows : list Row; style_id : option string }.

(** The graphic frame that carries a table ([table._graphic_frame]). *)
Record GraphicFrame : Type :=
  { left : Z; top : Z; width : Z; height : Z; table : Table }.

(** A shape of a slide: one with a text frame ([has_text_frame]), a graphic
    frame holding a table ([has_table]), or any other shape (picture,
    connector, chart, group). *)
Inductive Shape : Type :=
| TextShape (text_frame : TextFrame)
| TableShape (frame : GraphicFrame)
| OtherShape.

Record Slide : Type := { shapes : list Shape }.

Record Presentation : Type := { slides : list Slide }.

(** [Pt(points)] *)
Definition Pt (points : Z) : Z := (points * 12700)%Z.

Definition no_font : Font := {| size := None; bold := None |}.

(** ** Outcomes

    A call returns, raises, or (in the two loops that the embedding runs on
    fuel) is cut off. *)
Inductive exn : Type :=
| IndexError | AttributeError | TypeError | ZeroDivisionError
| ValueError | RecursionError | JSONDecodeError.

Inductive outcome (A : Type) : Type :=
| Done (a : A)
| Raised (e : exn)
| OutOfFuel.
Arguments Done {A} a.
Arguments Raised {A} e.
Arguments OutOfFuel {A}.

#[global] Instance outcome_ret : MRet outcome := fun A a => Done a.
#[global] Instance outcome_bind : MBind outcome := fun A B f m =>
  match m with
  | Done a => f a
  | Raised e => Raised e
  | OutOfFuel => OutOfFuel
  end.

(** [for x in xs: body], threading the state. *)
Fixpoint for_each {A S : Type} (body : A -> S -> outcome S) (xs : list A) (s : S)
  : outcome S :=
  match xs with
  | [] => Done s
  | x :: xs' => s' ← body x s; for_each body xs' s'
  end.

(** [enumerate(xs, start)] *)
Definition enumerate {A : Type} (start : nat) (xs : list A) : list (nat * A) :=
  zip (seq start (length xs)) xs.

(** [[f(x) for x in xs]] for an [f] that may raise. *)
Fixpoint map_outcome {A B : Type} (f : A -> outcome B) (xs : list A) : outcome (list B) :=
  match xs with
  | [] => Done []
  | x :: xs' => y ← f x; ys ← map_outcome f xs'; Done (y :: ys)
  end.

(** ** Reading and writing text (python-pptx) *)

Definition newline : ascii := "010"%char.

(** The characters the library does not store in a run as they are: the
    control characters other than tab and line feed,
    [[\x00-\x08\x0B-\x1F]]. *)
Definition is_control (c : ascii) : bool :=
  let n := nat_of_ascii c in
  ((n <=? 8) || (11 <=? n) && (n <=? 31))%nat.

Definition hex_digit (n : nat) : ascii :=
  match n with
  | 0 => "0" | 1 => "1" | 2 => "2" | 3 => "3" | 4 => "4" | 5 => "5" | 6 => "6" | 7 => "7"
  | 8 => "8" | 9 => "9" | 10 => "A" | 11 => "B" | 12 => "C" | 13 => "D" | 14 => "E"
  | _ => "F"
  end%char.

(** ["%04X" % n] for [n] below 65536 *)
Definition hex4 (n : nat) : string :=
  String (hex_digit (n / 4096))
    (String (hex_digit (n / 256 mod 16))
       (String (hex_digit (n / 16 mod 16)) (String (hex_digit (n mod 16)) EmptyString))).

(** What the text setter of a run stores ([CT_RegularTextRun._escape]):
    every control character as [_xHHHH_]. *)
Fixpoint escape (s : string) : string :=
  match s with
  | EmptyString => EmptyString
  | String c s' =>
      if is_control c then "_x" +:+ hex4 (nat_of_ascii c) +:+ "_" +:+ escape s'
      else String c (escape s')
  end.

(** A text without control characters: what the library stores as it is, in
    a run or, line by line, in a cell. *)
Fixpoint plain (s : string) : bool :=
  match s with
  | EmptyString => true
  | String c s' => negb (is_control c) && plain s'
  end.

(** [paragraph.text] *)
Definition paragraph_text (p : Paragraph) : string :=
  PyStr.join "" (run_text <$> runs p).

(** [text_frame.text] *)
Definition frame_text (tf : TextFrame) : string :=
  PyStr.join (String newline EmptyString) (paragraph_text <$> paragraphs tf).

(** [cell.text] *)
Definition cell_text (c : Cell) : string := frame_text (cell_frame c).

(** The paragraph the library adds for one line of text: no properties of
    its own, and a run only when there is text to hold, which the run stores
    escaped.  The line is taken to hold no vertical tab, which the library
    would turn into a line break between two runs; the properties below that
    read a written cell back are stated for [plain] text. *)
Definition new_paragraph (line : string) : Paragraph :=
  {| para_font := no_font;
     runs := match line with
             | EmptyString => []
             | _ => [{| run_text := escape line; run_font := no_font |}]
             end |}.

(** [text_frame.text = text]: the old paragraphs are dropped and one new
    paragraph is added per line. *)
Definition set_frame_text (text : string) : TextFrame :=
  {| paragraphs := new_paragraph <$> PyStr.split newline text |}.

(** [table.cell(r, c)] *)
Definition table_cell (t : Table) (r c : nat) : outcome Cell :=
  match rows t !! r with
  | Some row =>
      match cells row !! c with
      | Some cell => Done cell
      | None => Raised IndexError
      end
  | None => Raised IndexError
  end.

(** The cell after [cell.text = text]. *)
Definition text_cell (text : string) : Cell := {| cell_frame := set_frame_text text |}.

(** [table.cell(r, c).text = text] *)
Definition set_cell_text (r c : nat) (text : string) (t : Table) : outcome Table :=
  _ ← table_cell t r c;
  Done {| rows := alter (fun row => {| cells := <[c := text_cell text]> (cells row) |})
                    r (rows t);
          style_id := style_id t |}.

(** [for cell in iter_cells(table): for paragraph in ...: for run in ...],
    with [f] as the loop body. *)
Definition paragraph_each_run (f : Run -> Run) (p : Paragraph) : Paragraph :=
  {| para_font := para_font p; runs := f <$> runs p |}.

Definition cell_each_run (f : Run -> Run) (c : Cell) : Cell :=
  {| cell_frame := {| paragraphs := paragraph_each_run f <$> paragraphs (cell_frame c) |} |}.

Definition table_each_run (f : Run -> Run) (t : Table) : Table :=
  {| rows := (fun row => {| cells := cell_each_run f <$> cells row |}) <$> rows t;
     style_id := style_id t |}.

(** [iter_cells] *)
Definition iter_cells (t : Table) : list Cell := row ← rows t; cells row.

(** Every run of every cell of a table. *)
Definition table_runs (t : Table) : list Run :=
  cell ← iter_cells t; paragraph ← paragraphs (cell_frame cell); runs paragraph.

(** [run.font.size = Pt(font_size)] *)
Definition with_size (font_size : Z) (run : Run) : Run :=
  {| run_text := run_text run;
     run_font := {| size := Some (Pt font_size); bold := bold (run_font run) |} |}.

(** [set_table_font_size], for a size the library accepts, 1 to 4000 pt
    (the script passes 11); for any other the assignment raises as soon as
    there is a run. *)
Definition set_table_font_size (t : Table) (font_size : Z) : Table :=
  table_each_run (with_size font_size) t.

(** The cell of a table just added: one empty paragraph. *)
Definition empty_cell : Cell :=
  {| cell_frame := {| paragraphs := [new_paragraph ""] |} |}.

Definition default_table_style : string := "{5C22544A-7EE6-4342-B048-85BDC9FD1C3A}".

(** [slide.shapes.add_table(rows, cols, left, top, width, height)]: the
    library divides the height by [rows] and the width by [cols] to size the
    grid. *)
Definition add_table (n_rows n_cols : nat) (l t w h : Z) : outcome GraphicFrame :=
  if decide (n_rows = 0 ∨ n_cols = 0)%nat then Raised ZeroDivisionError
  else Done {| left := l; top := t; width := w; height := h;
               table := {| rows := replicate n_rows {| cells := replicate n_cols empty_cell |};
                           style_id := Some default_table_style |} |}.

(** ** The script *)

(** The placeholder name an anchor cell encodes: [cell.text[8:-2].strip()]. *)
Definition placeholder_name_of (anchor : Cell) : string :=
  PyStr.strip (PyStr.slice (cell_text anchor) 8 (-2)%Z).

(** Whether [sp.getparent().remove(sp)] took the visited shape out of the
    slide's shape tree. *)
Inductive tree_change : Type := InPlace | Removed.

(** One record of the batch; only its [jeschro_content] field is read.
    [None]: the record has no such key; otherwise the value the service sent
    under it, which may be [null] or any other JSON value. *)
Record record : Type := { jeschro_content : option json }.

Section Script.

(** [repr] of the values whose text the script never looks into ([float],
    [list], [dict]). *)
Variable py_repr : json -> string.

(** [json.loads] on a [str]: the decoded value, or the exception raised
    ([JSONDecodeError] for text that is not JSON; [ValueError] for an integer
    literal beyond the digit limit and [RecursionError] for nesting too deep
    are raised as well). *)
Variable json_loads : string -> json + exn.

(** The module constant of the same name, read from the environment. *)
Variable PPTX_TABLE_STYLE_ID : option string.

(** [str(value)] *)
Definition py_str (value : json) : string :=
  match value with
  | JStr s => s
  | JInt n => PyStr.of_int n
  | JBool true => "True"
  | JBool false => "False"
  | JNull => "None"
  | JFloat _ | JList _ | JDict _ => py_repr value
  end.

(** [create_table]: the new frame, which [add_table] has put last in the
    slide's shapes. *)
Definition create_table (n_rows n_cols : nat) (l t w h : Z)
    (font_size : option Z) (font_bold : option bool) : outcome GraphicFrame :=
  new_shape ← add_table n_rows n_cols l t w h;
  let new_table := table new_shape in
  let new_table := {| rows := rows new_table; style_id := PPTX_TABLE_STYLE_ID |} in
  (* Apply font size and bold formatting to all cells *)
  let new_table :=
    table_each_run (fun run =>
      {| run_text := run_text run;
         run_font := {| size := font_size; bold := font_bold |} |}) new_table in
  Done {| left := left new_shape; top := top new_shape; width := width new_shape;
          height := height new_shape; table := new_table |}.

(** [item.get(header, "")]; only a [dict] has [get]. *)
Definition item_get (item : json) (header : string) : outcome json :=
  match item with
  | JDict entries => Done (default (JStr "") (dict_get header entries))
  | _ => Raised AttributeError
  end.

(** [process_table_placeholder(table, content, slide)], where [table] is the
    table of [frame], the shape at position [i] of the slide.  The new table
    is carried as a value while it is filled and styled, and stands last in
    the slide's shapes, where [add_table] put it. *)
Definition process_table_placeholder (i : nat) (frame : GraphicFrame) (content : dict)
    (slide : Slide) : outcome (Slide * tree_change) :=
  anchor ← table_cell (table frame) 0 0;
  let placeholder_name := placeholder_name_of anchor in
  (* Get the array from the JSON content *)
  let value := default (JList []) (dict_get placeholder_name content) in
  match value with
  | JList ((first :: _) as items) =>
      (* Determine headers and table dimensions *)
      match first with
      | JDict entries =>
          let headers := dict_keys entries in
          let n_rows := (length items + 1)%nat in
          let n_cols := length headers in
          (* Extract formatting and position of the placeholder table *)
          paragraph0 ← match paragraphs (cell_frame anchor) !! 0 with
                       | Some p => Done p
                       | None => Raised IndexError
                       end;
          let font_size := size (para_font paragraph0) in
          let font_bold := bold (para_font paragraph0) in
          (* Remove the placeholder table *)
          let shapes1 := delete i (shapes slide) in
          (* Create a new table *)
          new_frame ← create_table n_rows n_cols (left frame) (top frame)
                        (width frame) (height frame) font_size font_bold;
          (* Insert headers *)
          new_table ← for_each (fun '(col_idx, header) => set_cell_text 0 col_idx header)
                        (enumerate 0 headers) (table new_frame);
          (* Insert data rows *)
          new_table ← for_each (fun '(row_idx, item) =>
                          for_each (fun '(col_idx, header) t =>
                              v ← item_get item header;
                              set_cell_text row_idx col_idx (py_str v) t)
                            (enumerate 0 headers))
                        (enumerate 1 items) new_table;
          (* Set font size for all cells *)
          let new_table := set_table_font_size new_table 11 in
          Done ({| shapes := shapes1 ++
                     [TableShape {| left := left new_frame; top := top new_frame;
                                    width := width new_frame; height := height new_frame;
                                    table := new_table |}] |}, Removed)
      | _ => Done (slide, InPlace)
      end
  | _ =>
      t ← set_cell_text 0 0 "n/a" (table frame);
      let t := set_table_font_size t 11 in
      Done ({| shapes := <[i := TableShape {| left := left frame; top := top frame;
                                              width := width frame; height := height frame;
                                              table := t |}]> (shapes slide) |}, InPlace)
  end.

(** The first loop of the resolver: the tokens of the keys of [content], in
    the order of [content.items()]. *)
Definition substitute_known (content : dict) (fulltext : string) : string :=
  foldl (fun fulltext '(placeholder_name, value) =>
           let placeholder_tag := "{{" +:+ placeholder_name +:+ "}}" in
           if PyStr.contains placeholder_tag fulltext
           then PyStr.replace fulltext placeholder_tag (py_str value)
           else fulltext)
        fulltext content.

(** One round of the [while] loop of the resolver, for placeholders not
    found in the content. *)
Definition replace_first_missing (fulltext : string) : string :=
  let start_idx := PyStr.find fulltext "{{" 0 in
  let end_idx := (PyStr.find fulltext "}}" (Z.to_nat start_idx) + 2)%Z in
  let placeholder_tag := PyStr.slice fulltext start_idx end_idx in
  PyStr.replace fulltext placeholder_tag "n/a".

(** The [while] loop itself. *)
Fixpoint substitute_missing (fuel : nat) (fulltext : string) : outcome string :=
  if PyStr.contains "{{" fulltext && PyStr.contains "}}" fulltext then
    match fuel with
    | O => OutOfFuel
    | S fuel' => substitute_missing fuel' (replace_first_missing fulltext)
    end
  else Done fulltext.

(** The resolved text of a paragraph whose runs concatenate to [fulltext]. *)
Definition resolve_text (content : dict) (fulltext : string) : outcome string :=
  let fulltext := substitute_known content fulltext in
  substitute_missing (S (String.length fulltext)) fulltext.

(** The body of the paragraph loop of [process_text_placeholders].  The
    text assigned to the first run goes through the run's text setter, which
    stores it escaped. *)
Definition process_paragraph (content : dict) (paragraph : Paragraph) : outcome Paragraph :=
  (* Concatenate all runs into a single string *)
  let fulltext := PyStr.join "" (run_text <$> runs paragraph) in
  fulltext ← resolve_text content fulltext;
  (* Clear all runs and reassign the updated text *)
  let cleared := (fun run => {| run_text := ""; run_font := run_font run |}) <$> runs paragraph in
  Done {| para_font := para_font paragraph;
          runs := match cleared with
                  | [] => []
                  | run0 :: rest =>
                      {| run_text := escape fulltext; run_font := run_font run0 |} :: rest
                  end |}.

(** [process_text_placeholders(slide, content)] *)
Definition process_text_placeholders (slide : Slide) (content : dict) : outcome Slide :=
  new_shapes ← map_outcome (fun shape =>
      match shape with
      | TextShape tf =>
          ps ← map_outcome (process_paragraph content) (paragraphs tf);
          Done (TextShape {| paragraphs := ps |})
      | _ => Done shape
      end) (shapes slide);
  Done {| shapes := new_shapes |}.

(** The table loop of [generate_ppt], [for shape in slide.shapes], from the
    shape at position [i] on.  The loop walks the slide's own shape tree:
    python-pptx iterates the children of the tree with lxml's [iterchildren],
    whose iterator holds the sibling that follows the shape it hands out,
    taken before the loop body runs, and goes on from that sibling in the
    tree as the body leaves it.  The tree is taken to end with its last
    shape; a child after it that is not a shape is not modelled. *)
Fixpoint table_loop (fuel : nat) (content : dict) (i : nat) (slide : Slide) : outcome Slide :=
  match shapes slide !! i with
  | None => Done slide
  | Some shape =>
      match fuel with
      | O => OutOfFuel
      | S fuel' =>
          let has_next := bool_decide (S i < length (shapes slide))%nat in
          '(slide', change) ← match shape with
                              | TableShape frame =>
                                  process_table_placeholder i frame content slide
                              | _ => Done (slide, InPlace)
                              end;
          if has_next
          then table_loop fuel' content
                 (match change with InPlace => S i | Removed => i end) slide'
          else Done slide'
      end
  end.

(** The same loop as the specification words it, for comparison: over a
    snapshot [list(slide.shapes)] taken before the first round.  [i] is where
    the head of the snapshot stands in the slide by now. *)
Fixpoint table_loop_snapshot (content : dict) (snapshot : list Shape) (i : nat)
    (slide : Slide) : outcome Slide :=
  match snapshot with
  | [] => Done slide
  | shape :: rest =>
      '(slide', change) ← match shape with
                          | TableShape frame =>
                              process_table_placeholder i frame content slide
                          | _ => Done (slide, InPlace)
                          end;
      table_loop_snapshot content rest
        (match change with InPlace => S i | Removed => i end) slide'
  end.

(** The content of one record (the head of the record loop of
    [generate_ppt]); [None] is the [continue] of the decoding handler, which
    catches [JSONDecodeError] and nothing else.  [json.loads] on a value that
    is not a [str] is a [TypeError], and so is assigning a key to a decoded
    value that is not a [dict]. *)
Definition record_content (jobid jobdate : string) (r : record) : outcome (option dict) :=
  let inject (content : dict) : dict :=
    dict_set "jobdate" (JStr jobdate) (dict_set "jobid" (JStr jobid) content) in
  match jeschro_content r with
  | Some (JStr text) =>
      match json_loads text with
      | inl (JDict entries) => Done (Some (inject entries))
      | inl _ => Raised TypeError
      | inr JSONDecodeError => Done None
      | inr e => Raised e
      end
  | Some _ => Raised TypeError
  | None => Done (Some (inject []))
  end.

(** The slide loop of [generate_ppt] for one content map. *)
Definition render_slides (fuel : nat) (content : dict) (prs : Presentation)
  : outcome Presentation :=
  new_slides ← map_outcome (fun slide =>
      (* Update text placeholders *)
      slide ← process_text_placeholders slide content;
      (* Process table placeholders *)
      table_loop fuel content 0 slide) (slides prs);
  Done {| slides := new_slides |}.

(** [generate_ppt], up to the point where the presentation is saved;
    [jobdate] is the formatted time of the call. *)
Definition generate_ppt (fuel : nat) (jobid jobdate : string) (records : list record)
    (prs : Presentation) : outcome Presentation :=
  for_each (fun r prs =>
      content ← record_content jobid jobdate r;
      match content with
      | None => Done prs
      | Some content => render_slides fuel content prs
      end) records prs.

End Script.

(** The shapes of a slide that hold no table ([not shape.has_table]), in
    z-order. *)
Definition non_tables (l : list Shape) : list Shape :=
  shape ← l; match shape with TableShape _ => [] | _ => [shape] end.

(** ** The Dataverse request *)

(** [s.rstrip(chars)]: the trailing characters that occur in [chars] go. *)
Fixpoint rstrip_chars (chars s : string) : string :=
  match s with
  | EmptyString => EmptyString
  | String c s' =>
      match rstrip_chars chars s' with
      | EmptyString =>
          if PyStr.contains (String c EmptyString) chars then EmptyString
          else String c EmptyString
      | r => String c r
      end
  end.

(** What [fetch_data] hands to [requests.get]. *)
Record Request : Type := {
  url : string;
  headers : list (string * string);
  params : list (string * string)
}.

(** [fetch_data], up to the call of [requests.get].  [None] stands for an
    argument left at its default; an empty list and an empty string count as
    false, like [None]. *)
Definition fetch_request (DATAVERSE_API_URL entity token : string)
    (select : option (list string)) (filter_expr : option string) : Request :=
  let headers := [("Authorization", "Bearer " +:+ token); ("Accept", "application/json")] in
  let params := [] in
  let params := match select with
                | None | Some [] => params
                | Some columns => params ++ [("$select", PyStr.join "," columns)]
                end in
  let params := match filter_expr with
                | None | Some EmptyString => params
                | Some expr => params ++ [("$filter", expr)]
                end in
  {| url := rstrip_chars "/" DATAVERSE_API_URL +:+ "/" +:+ entity;
     headers := headers;
     params := params |}.

(** ** Sample documents and records

    The concrete inputs named in the examples of the second half of the
    file. *)
Module Samples.

(** No sample holds a [float], [list] or [dict] that gets printed. *)
Definition repr (v : json) : string := "?".

Definition quote : string := String "034"%char EmptyString.

(** The text [{"jobid": 7}]. *)
Definition object_text : string := "{" +:+ quote +:+ "jobid" +:+ quote +:+ ": 7}".

(** The text [{"items": [{"a": 1, "b": 2}, {"a": 3, "b": 4}]}]. *)
Definition items_text : string :=
  "{" +:+ quote +:+ "items" +:+ quote +:+ ": [{" +:+ quote +:+ "a" +:+ quote +:+ ": 1, "
  +:+ quote +:+ "b" +:+ quote +:+ ": 2}, {" +:+ quote +:+ "a" +:+ quote +:+ ": 3, "
  +:+ quote +:+ "b" +:+ quote +:+ ": 4}]}".

(** The array [[{"a": 1, "b": 2}, {"a": 3, "b": 4}]]. *)
Definition two_records : list dict :=
  [[("a", JInt 1); ("b", JInt 2)]; [("a", JInt 3); ("b", JInt 4)]].

(** [json.loads] on the texts the samples use; [{] alone is not JSON. *)
Definition loads (text : string) : json + exn :=
  if decide (text = object_text) then inl (JDict [("jobid", JInt 7)])
  else if decide (text = items_text) then inl (JDict [("items", JList (JDict <$> two_records))])
  else if decide (text = "[1, 2]") then inl (JList [JInt 1; JInt 2])
  else inr JSONDecodeError.

Definition plain_run (text : string) : Run := {| run_text := text; run_font := no_font |}.

Definition heading_font : Font := {| size := Some (Pt 18); bold := Some true |}.

(** A cell whose one paragraph carries [font] and holds [text] in one run. *)
Definition cell_of (font : Font) (text : string) : Cell :=
  {| cell_frame := {| paragraphs := [{| para_font := font; runs := [plain_run text] |}] |} |}.

(** A one-cell placeholder table for the array [name]. *)
Definition placeholder (name : string) : GraphicFrame :=
  {| left := 100; top := 200; width := 3000; height := 400;
     table := {| rows := [{| cells := [cell_of heading_font ("{{TABLE:" +:+ name +:+ "}}")] |}];
                 style_id := None |} |}.

(** A placeholder with a second cell, whose run is set in 18 pt. *)
Definition placeholder_with_note (name : string) : GraphicFrame :=
  {| left := 100; top := 200; width := 3000; height := 400;
     table := {| rows := [{| cells := [cell_of heading_font ("{{TABLE:" +:+ name +:+ "}}");
                                       {| cell_frame := {| paragraphs :=
                                            [{| para_font := no_font;
                                                runs := [{| run_text := "note";
                                                            run_font := {| size := Some (Pt 18);
                                                                           bold := None |} |}] |}] |} |}] |}];
                 style_id := None |} |}.

(** An ordinary table of the template: no placeholder marker anywhere. *)
Definition ordinary_table : GraphicFrame :=
  {| left := 100; top := 900; width := 3000; height := 400;
     table := {| rows := [{| cells := [cell_of no_font "Name"; cell_of no_font "Qty"] |}];
                 style_id := None |} |}.

(** The array above under the key [items]. *)
Definition content : dict := [("items", JList (JDict <$> two_records))].

(** A slide with the placeholder for [items] followed by a picture. *)
Definition slide : Slide := {| shapes := [TableShape (placeholder "items"); OtherShape] |}.

(** A slide with a placeholder the content has no array for, a picture, and
    the placeholder for [items] as its last shape. *)
Definition closing_slide : Slide :=
  {| shapes := [TableShape (placeholder "prices"); OtherShape;
                TableShape (placeholder "items")] |}.

(** A slide holding only the two-cell placeholder, for an array the content
    does not have. *)
Definition note_slide : Slide := {| shapes := [TableShape (placeholder_with_note "prices")] |}.

(** A slide with the placeholder for [items] followed by the ordinary table. *)
Definition mixed_slide : Slide :=
  {| shapes := [TableShape (placeholder "items"); TableShape ordinary_table] |}.

(** A template of one slide, holding just the placeholder for [items]. *)
Definition template : Presentation :=
  {| slides := [{| shapes := [TableShape (placeholder "items")] |}] |}.

Definition items_record : record := {| jeschro_content := Some (JStr items_text) |}.

Definition object_record : record := {| jeschro_content := Some (JStr object_text) |}.

(** A record whose content is not JSON. *)
Definition broken_record : record := {| jeschro_content := Some (JStr "{") |}.

Definition jobdate : string := "2025-01-01 00:00:00".

End Samples.

(** Further sample documents. *)
Module Decks.

(** A title whose token for [jobid] is split over two runs, and which names
    a key the records do not have. *)
Definition title : Shape :=
  TextShape {| paragraphs :=
    [{| para_font := Samples.heading_font;
        runs := [Samples.plain_run "Report {{";
                 {| run_text := "jobid}} for {{customer}}";
                    run_font := {| size := None; bold := Some true |} |}] |}] |}.

(** A slide with the title, the ordinary table and a picture. *)
Definition title_slide : Slide :=
  {| shapes := [title; TableShape Samples.ordinary_table; OtherShape] |}.

(** A deck without tables. *)
Definition text_deck : Presentation :=
  {| slides := [{| shapes := [title; OtherShape] |}; {| shapes := [OtherShape] |}] |}.

(** A table of two rows and three columns. *)
Definition grid : Table :=
  {| rows := [{| cells := Samples.cell_of no_font <$> ["a"; "b"; "c"] |};
              {| cells := Samples.cell_of Samples.heading_font <$> ["d"; "e"; "f"] |}];
     style_id := None |}.

(** An array of one record whose first key is a marker for the array
    itself. *)
Definition returning_content : dict := [("x", JList [JDict [("{{TABLE:x}}", JInt 1)]])].

(** Two placeholders for that array. *)
Definition returning_slide : Slide :=
  {| shapes := [TableShape (Samples.placeholder "x"); TableShape (Samples.placeholder "x")] |}.

(** A record whose content is JSON, but not an object. *)
Definition array_record : record := {| jeschro_content := Some (JStr "[1, 2]") |}.

(** A record without the [jeschro_content] field. *)
Definition bare_record : record := {| jeschro_content := None |}.

(** A value with a carriage return in it, and a paragraph with a token for
    it. *)
Definition note_content : dict := [("note", JStr (String "a" (String "013" "b")))].

Definition note_paragraph : Paragraph :=
  {| para_font := no_font; runs := [Samples.plain_run "{{note}}"] |}.

(** A record whose [jeschro_content] column is empty: the service sends
    [null]. *)
Definition null_record : record := {| jeschro_content := Some JNull |}.

End Decks.

(** * Facts about the string functions *)
Module PyStrFacts.
Import PyStr.

Lemma append_cons (c : ascii) (s t : string) : String c s +:+ t = String c (s +:+ t).
Proof. reflexivity. Qed.

Lemma append_empty_l (t : string) : "" +:+ t = t.
Proof. reflexivity. Qed.

Lemma append_empty_r (s : string) : s +:+ "" = s.
Proof. induction s as [|c s IH]; [done | by rewrite append_cons, IH]. Qed.

Lemma append_assoc (a b c : string) : (a +:+ b) +:+ c = a +:+ b +:+ c.
Proof. induction a as [|x a IH]; [done | rewrite !append_cons; simpl; by rewrite IH]. Qed.

Lemma length_append (a b : string) :
  String.length (a +:+ b) = (String.length a + String.length b)%nat.
Proof. induction a as [|x a IH]; [done | rewrite !append_cons; simpl; by rewrite IH]. Qed.

Lemma prefix_cons (a b : ascii) (p s : string) :
  String.prefix (String a p) (String b s) = true <-> a = b /\ String.prefix p s = true.
Proof.
  simpl. destruct (ascii_dec a b) as [->|Hne]; [tauto|].
  split; [discriminate | intros [? _]; contradiction].
Qed.

Lemma prefix_neq (a b : ascii) (p s : string) :
  a <> b -> String.prefix (String a p) (String b s) = false.
Proof. intros Hne. simpl. by destruct (ascii_dec a b). Qed.

Lemma prefix_eq (a : ascii) (p s : string) :
  String.prefix (String a p) (String a s) = String.prefix p s.
Proof. simpl. by destruct (ascii_dec a a). Qed.

Lemma prefix_spec (p s : string) :
  String.prefix p s = true <-> exists r, s = p +:+ r.
Proof.
  revert s. induction p as [|a p IH]; intros s.
  - split; [intros _; by exists s | by destruct s].
  - destruct s as [|b s].
    + split; [discriminate | intros [r Hr]; discriminate].
    + rewrite prefix_cons, IH. split.
      * intros [-> [r ->]]. by exists r.
      * intros [r Hr]. rewrite append_cons in Hr. injection Hr as -> ->. eauto.
Qed.

Lemma prefix_length (p s : string) :
  String.prefix p s = true -> (String.length p <= String.length s)%nat.
Proof. rewrite prefix_spec. intros [r ->]. rewrite length_append. lia. Qed.

Lemma contains_cons (sub : string) (c : ascii) (s : string) :
  contains sub (String c s) = String.prefix sub (String c s) || contains sub s.
Proof. done. Qed.

Lemma contains_prefix (sub s : string) :
  String.prefix sub s = true -> contains sub s = true.
Proof. intros H. destruct s; cbn [contains]; by rewrite H. Qed.

Lemma contains_spec (sub s : string) :
  contains sub s = true <-> exists a b, s = a +:+ sub +:+ b.
Proof.
  split.
  - induction s as [|c s IH].
    + cbn [contains]. rewrite orb_false_r, prefix_spec. intros [r Hr]. by exists "", r.
    + rewrite contains_cons, orb_true_iff, prefix_spec. intros [[r Hr]|Hin].
      * by exists "", r.
      * destruct (IH Hin) as (a & b & ->). by exists (String c a), b.
  - intros (a & b & ->). induction a as [|c a IH].
    + rewrite append_empty_l. apply contains_prefix, prefix_spec. eauto.
    + rewrite append_cons, contains_cons, IH. apply orb_true_r.
Qed.

Lemma contains_drop (sub s : string) (n : nat) :
  contains sub (drop_chars n s) = true -> contains sub s = true.
Proof.
  revert s. induction n as [|n IH]; intros [|c s]; simpl; try done.
  intros H. rewrite (IH _ H). apply orb_true_r.
Qed.

(** A token contains both of its markers. *)
Lemma contains_token (name s : string) :
  contains ("{{" +:+ name +:+ "}}") s = true ->
  contains "{{" s = true /\ contains "}}" s = true.
Proof.
  rewrite !contains_spec. intros (a & b & ->). split.
  - exists a, (name +:+ "}}" +:+ b). by rewrite !append_assoc.
  - exists (a +:+ "{{" +:+ name), b. by rewrite !append_assoc.
Qed.

Lemma drop_chars_0 (s : string) : drop_chars 0 s = s.
Proof. by destruct s. Qed.

Lemma length_drop_chars (n : nat) (s : string) :
  String.length (drop_chars n s) = (String.length s - n)%nat.
Proof. revert s. induction n as [|n IH]; intros [|c s]; simpl; auto. Qed.

Lemma length_take_chars (n : nat) (s : string) :
  String.length (take_chars n s) = (n `min` String.length s)%nat.
Proof. revert s. induction n as [|n IH]; intros [|c s]; simpl; auto. Qed.

Lemma take_drop_chars (n : nat) (s : string) : take_chars n s +:+ drop_chars n s = s.
Proof.
  revert s. induction n as [|n IH]; intros [|c s]; simpl; try done.
  by rewrite append_cons, IH.
Qed.

Lemma prefix_take_chars (n : nat) (s : string) : String.prefix (take_chars n s) s = true.
Proof. apply prefix_spec. exists (drop_chars n s). by rewrite take_drop_chars. Qed.

(** *** [index_of] and [contains] *)

Lemma index_of_prefix (sub s : string) (p : nat) :
  index_of sub s = Some p ->
  (p <= String.length s)%nat /\ String.prefix sub (drop_chars p s) = true.
Proof.
  revert p. induction s as [|c s IH]; intros p; cbn [index_of].
  - destruct (String.prefix sub "") eqn:E; [|done]. intros [= <-]. split; [lia | done].
  - destruct (String.prefix sub (String c s)) eqn:E.
    + intros [= <-]. split; [lia | done].
    + destruct (index_of sub s) as [q|]; [|done]. intros [= <-].
      destruct (IH q eq_refl) as [Hle Hpre]. split; [simpl; lia | done].
Qed.

Lemma index_of_contains (sub s : string) :
  contains sub s = true <-> is_Some (index_of sub s).
Proof.
  induction s as [|c s IH]; cbn [contains index_of].
  - rewrite orb_false_r.
    destruct (String.prefix sub ""); split; eauto; try done; by intros [? [=]].
  - destruct (String.prefix sub (String c s)); [split; eauto|].
    rewrite orb_false_l, IH.
    destruct (index_of sub s); split; eauto; by intros [? [=]].
Qed.

Lemma index_of_none (sub s : string) :
  index_of sub s = None -> contains sub s = false.
Proof.
  intros H. destruct (contains sub s) eqn:E; [|done].
  apply index_of_contains in E as [p Hp]. congruence.
Qed.

(** *** Lengths under [replace] *)

Lemma replace_scan_length_le (old new : string) (k : nat) (s : string) :
  (String.length new <= String.length old)%nat ->
  (String.length (replace_scan old new k s) + k `min` String.length s
     <= String.length s)%nat.
Proof.
  intros Hle. revert k. induction s as [|c s IH]; intros k; [simpl; lia|].
  destruct k as [|k]; cbn [replace_scan].
  - destruct (String.prefix old (String c s)) eqn:E.
    + apply prefix_length in E. specialize (IH (String.length old - 1)%nat).
      rewrite length_append. simpl in *. lia.
    + specialize (IH 0%nat). simpl in *. lia.
  - specialize (IH k). simpl. lia.
Qed.

Lemma replace_scan_length_lt (old new s : string) :
  (String.length new < String.length old)%nat ->
  contains old s = true ->
  (String.length (replace_scan old new 0 s) < String.length s)%nat.
Proof.
  intros Hlt. induction s as [|c s IH]; cbn [contains replace_scan].
  - rewrite orb_false_r. intros E%prefix_length. simpl in E. lia.
  - destruct (String.prefix old (String c s)) eqn:E.
    + intros _. apply prefix_length in E.
      pose proof (replace_scan_length_le old new (String.length old - 1) s) as H.
      rewrite length_append. simpl in *. lia.
    + rewrite orb_false_l. intros Hin%IH. simpl. lia.
Qed.

Lemma replace_length_lt (s old new : string) :
  (String.length new < String.length old)%nat ->
  contains old s = true ->
  (String.length (replace s old new) < String.length s)%nat.
Proof.
  destruct old as [|c old]; [simpl; lia|]. apply replace_scan_length_lt.
Qed.

(** *** Replacing the empty string *)

Lemma follow_each_no_open (s : string) : contains "{{" (follow_each "n/a" s) = false.
Proof.
  induction s as [|c s IH]; [done|].
  cbn [follow_each]. rewrite !append_cons, append_empty_l.
  rewrite !contains_cons, IH.
  rewrite (prefix_neq "{" "n"), (prefix_neq "{" "/"), (prefix_neq "{" "a") by done.
  destruct (ascii_dec "{" c) as [<-|Hne].
  - by rewrite prefix_eq, prefix_neq.
  - by rewrite prefix_neq.
Qed.

Lemma replace_empty_no_open (s : string) : contains "{{" (replace s "" "n/a") = false.
Proof.
  cbn [replace]. rewrite !append_cons, append_empty_l.
  rewrite !contains_cons, follow_each_no_open.
  rewrite (prefix_neq "{" "n"), (prefix_neq "{" "/"), (prefix_neq "{" "a") by done.
  done.
Qed.

(** *** [find] and slices at positions that [find] returned *)

Lemma find_index_of (s sub : string) (p : nat) :
  (p <= String.length s)%nat ->
  find s sub p = match index_of sub (drop_chars p s) with
                 | Some q => Z.of_nat (p + q)
                 | None => (-1)%Z
                 end.
Proof. intros Hp. unfold find. destruct (decide _); [lia | done]. Qed.

Lemma slice_between (s : string) (lo hi : nat) :
  (lo <= hi <= String.length s)%nat ->
  slice s (Z.of_nat lo) (Z.of_nat hi) = take_chars (hi - lo) (drop_chars lo s).
Proof.
  intros H. unfold slice, slice_bound.
  destruct (Z.ltb_spec (Z.of_nat lo) 0); [lia|].
  destruct (Z.ltb_spec (Z.of_nat hi) 0); [lia|].
  replace (Z.to_nat (_ `min` (0 `max` Z.of_nat lo))) with lo by lia.
  by replace (Z.to_nat (_ `min` (0 `max` Z.of_nat hi))) with hi by lia.
Qed.

Lemma slice_backwards (s : string) (lo : nat) :
  (1 <= lo)%nat -> slice s (Z.of_nat lo) 1 = "".
Proof.
  intros H. unfold slice, slice_bound.
  destruct (Z.ltb_spec (Z.of_nat lo) 0); [lia|]. change (1 <? 0)%Z with false. cbv iota.
  set (len := String.length s).
  assert ((Z.to_nat (Z.of_nat len `min` (0 `max` 1))
           - Z.to_nat (Z.of_nat len `min` (0 `max` Z.of_nat lo)))%nat = 0%nat) as ->
    by lia.
  by destruct (drop_chars _ _).
Qed.

(** A close marker found from an open marker on lies at least two
    characters further. *)
Lemma index_of_close_after_open (s : string) (q : nat) :
  String.prefix "{{" s = true -> index_of "}}" s = Some q -> (2 <= q)%nat.
Proof.
  destruct s as [|c [|d s]]; [done | |].
  { intros H%prefix_length. simpl in H. lia. }
  intros [<- [<- _]%prefix_cons]%prefix_cons.
  cbn [index_of]. rewrite !(prefix_neq "}" "{") by done.
  destruct (index_of "}}" s); simpl; [|done]. intros [= <-]. lia.
Qed.

End PyStrFacts.

(** * The text resolver *)
Module ResolverFacts.
Import PyStr PyStrFacts.

(** A round of the fallback loop either shortens the text or leaves it
    without an open marker. *)
Lemma replace_first_missing_progress (s : string) :
  contains "{{" s = true -> contains "}}" s = true ->
  (String.length (replace_first_missing s) < String.length s)%nat \/
  contains "{{" (replace_first_missing s) = false.
Proof.
  intros [p Hp]%index_of_contains Hclose. unfold replace_first_missing.
  destruct (index_of_prefix _ _ _ Hp) as [Hple Hopen].
  rewrite (find_index_of s "{{" 0), drop_chars_0, Hp by lia. simpl (0 + p)%nat.
  rewrite Nat2Z.id, (find_index_of s "}}" p) by done.
  destruct (index_of "}}" (drop_chars p s)) as [q|] eqn:Hq.
  - left.
    destruct (index_of_prefix _ _ _ Hq) as [Hqle Hq2%prefix_length].
    pose proof (index_of_close_after_open _ _ Hopen Hq) as Hfar.
    rewrite !length_drop_chars in *. simpl in Hq2.
    replace (Z.of_nat (p + q) + 2)%Z with (Z.of_nat (p + q + 2)) by lia.
    rewrite slice_between by lia.
    replace (p + q + 2 - p)%nat with (q + 2)%nat by lia.
    apply replace_length_lt.
    + rewrite length_take_chars, length_drop_chars. simpl. lia.
    + apply (contains_drop _ _ p), contains_prefix, prefix_take_chars.
  - right.
    assert (1 <= p)%nat as Hp1.
    { destruct p; [|lia]. rewrite drop_chars_0 in Hq.
      apply index_of_none in Hq. congruence. }
    change (-1 + 2)%Z with 1%Z. rewrite slice_backwards by done.
    apply replace_empty_no_open.
Qed.

(** Where no close marker follows the first open marker, a round of the
    fallback loop replaces the empty string. *)
Lemma replace_first_missing_unmatched (s : string) :
  contains "{{" s = true -> contains "}}" s = true ->
  find s "}}" (Z.to_nat (find s "{{" 0)) = (-1)%Z ->
  replace_first_missing s = replace s "" "n/a".
Proof.
  intros [p Hp]%index_of_contains Hclose. unfold replace_first_missing.
  destruct (index_of_prefix _ _ _ Hp) as [Hple _].
  rewrite (find_index_of s "{{" 0), drop_chars_0, Hp by lia. simpl (0 + p)%nat.
  rewrite Nat2Z.id, (find_index_of s "}}" p) by done.
  destruct (index_of "}}" (drop_chars p s)) as [q|] eqn:Hq; [lia|]. intros _.
  assert (1 <= p)%nat as Hp1.
  { destruct p; [|lia]. rewrite drop_chars_0 in Hq.
    apply index_of_none in Hq. congruence. }
  change (-1 + 2)%Z with 1%Z. by rewrite slice_backwards.
Qed.

(** The fallback loop stops at once on a text that lacks a marker. *)
Lemma substitute_missing_stable (fuel : nat) (s : string) :
  contains "{{" s && contains "}}" s = false -> substitute_missing fuel s = Done s.
Proof. intros H. destruct fuel; simpl; by rewrite H. Qed.

(** The fallback loop returns, whatever text it starts from. *)
Lemma substitute_missing_terminates (fuel : nat) (s : string) :
  (String.length s < fuel)%nat -> exists t, substitute_missing fuel s = Done t.
Proof.
  revert s. induction fuel as [|fuel IH]; intros s Hlen; [lia|].
  cbn [substitute_missing].
  destruct (contains "{{" s) eqn:Ho; [|by eexists].
  destruct (contains "}}" s) eqn:Hc; [|by eexists]. cbn [andb].
  destruct (replace_first_missing_progress s Ho Hc) as [Hlt|Hno].
  - apply IH. lia.
  - rewrite substitute_missing_stable; [by eexists | by rewrite Hno].
Qed.

(** What the fallback loop returns lacks a marker. *)
Lemma substitute_missing_done (fuel : nat) (s t : string) :
  substitute_missing fuel s = Done t -> contains "{{" t && contains "}}" t = false.
Proof.
  revert s. induction fuel as [|fuel IH]; intros s; cbn [substitute_missing];
    destruct (contains "{{" s && contains "}}" s) eqn:E; try done.
  - by intros [= <-].
  - apply IH.
  - by intros [= <-].
Qed.

Section WithRepr.
Variable py_repr : json -> string.

(** No key of the content has its token in a text that lacks a marker. *)
Lemma substitute_known_stable (content : dict) (s : string) :
  contains "{{" s && contains "}}" s = false -> substitute_known py_repr content s = s.
Proof.
  intros H. unfold substitute_known.
  induction content as [|[name value] content IH]; [done|].
  cbn [foldl].
  destruct (contains ("{{" +:+ name +:+ "}}") s) eqn:E; [|done].
  apply contains_token in E as [E1 E2]. by rewrite E1, E2 in H.
Qed.

Lemma resolve_text_terminates (content : dict) (s : string) :
  exists t, resolve_text py_repr content s = Done t.
Proof. apply substitute_missing_terminates. lia. Qed.

Lemma resolve_text_done (content : dict) (s t : string) :
  resolve_text py_repr content s = Done t -> contains "{{" t && contains "}}" t = false.
Proof. apply substitute_missing_done. Qed.

(** Resolved text resolves to itself. *)
Lemma resolve_text_fixed (content : dict) (s t : string) :
  resolve_text py_repr content s = Done t -> resolve_text py_repr content t = Done t.
Proof.
  intros H%resolve_text_done. unfold resolve_text.
  rewrite substitute_known_stable by done. by apply substitute_missing_stable.
Qed.

End WithRepr.
End ResolverFacts.

(** * Escaped text *)
Module EscapeFacts.
Import PyStr PyStrFacts.

Lemma hex_digit_plain (n : nat) : is_control (hex_digit n) = false.
Proof. do 15 (destruct n as [|n]; [done|]). done. Qed.

Lemma hex_digit_no_brace (n : nat) (b : ascii) :
  b = "{"%char \/ b = "}"%char -> hex_digit n <> b.
Proof. intros [-> | ->]; do 15 (destruct n as [|n]; [done|]); done. Qed.

Lemma control_no_brace (c b : ascii) :
  b = "{"%char \/ b = "}"%char -> is_control c = true -> c <> b.
Proof. by intros [-> | ->] Hc ->. Qed.

Lemma escape_control (c : ascii) (s : string) :
  is_control c = true ->
  escape (String c s)
  = String "_" (String "x"
      (String (hex_digit (nat_of_ascii c / 4096))
         (String (hex_digit (nat_of_ascii c / 256 mod 16))
            (String (hex_digit (nat_of_ascii c / 16 mod 16))
               (String (hex_digit (nat_of_ascii c mod 16)) (String "_" (escape s))))))).
Proof.
  intros Hc. cbn [escape]. rewrite Hc. unfold hex4.
  by rewrite !append_cons, !append_empty_l.
Qed.

Lemma escape_other (c : ascii) (s : string) :
  is_control c = false -> escape (String c s) = String c (escape s).
Proof. intros Hc. cbn [escape]. by rewrite Hc. Qed.

Lemma escape_plain (s : string) : plain s = true -> escape s = s.
Proof.
  induction s as [|c s IH]; [done|]. cbn [plain].
  intros [Hc Hs]%andb_prop. apply negb_true_iff in Hc.
  by rewrite escape_other, IH.
Qed.

Lemma plain_escape (s : string) : plain (escape s) = true.
Proof.
  induction s as [|c s IH]; [done|]. destruct (is_control c) eqn:Hc.
  - rewrite escape_control by done. cbn [plain]. by rewrite !hex_digit_plain, IH.
  - rewrite escape_other by done. cbn [plain]. by rewrite Hc, IH.
Qed.

(** Escaping what is escaped already changes nothing. *)
Lemma escape_escape (s : string) : escape (escape s) = escape s.
Proof. apply escape_plain, plain_escape. Qed.

Lemma escape_app (a b : string) : escape (a +:+ b) = escape a +:+ escape b.
Proof.
  induction a as [|c a IH]; [by rewrite !append_empty_l|].
  rewrite append_cons. destruct (is_control c) eqn:Hc.
  - rewrite !escape_control by done. by rewrite IH, !append_cons.
  - rewrite !escape_other by done. by rewrite IH, append_cons.
Qed.

(** Escaping neither makes nor breaks a pair of braces. *)
Lemma contains_pair_skip (b c : ascii) (s : string) :
  c <> b -> contains (String b (String b "")) (String c s) = contains (String b (String b "")) s.
Proof. intros Hc. rewrite contains_cons, prefix_neq; [done|]. by intros ->. Qed.

Lemma escape_head (b : ascii) (s : string) :
  b = "{"%char \/ b = "}"%char ->
  String.prefix (String b "") (escape s) = String.prefix (String b "") s.
Proof.
  intros Hb. destruct s as [|c s]; [done|]. destruct (is_control c) eqn:Hc.
  - rewrite escape_control by done. rewrite !prefix_neq; [done| |].
    + intros ->. by apply (control_no_brace c c Hb).
    + by destruct Hb as [-> | ->].
  - rewrite escape_other by done. destruct (decide (b = c)) as [->|Hne].
    + rewrite !prefix_eq. destruct (escape s); by destruct s.
    + by rewrite !prefix_neq.
Qed.

Lemma contains_pair_escape (b : ascii) (s : string) :
  b = "{"%char \/ b = "}"%char ->
  contains (String b (String b "")) (escape s) = contains (String b (String b "")) s.
Proof.
  intros Hb. induction s as [|c s IH]; [done|]. destruct (is_control c) eqn:Hc.
  - rewrite escape_control by done.
    assert ("_"%char <> b) as Hu by by destruct Hb as [-> | ->].
    assert ("x"%char <> b) as Hx by by destruct Hb as [-> | ->].
    assert (c <> b) as Hcb by by apply control_no_brace.
    rewrite !contains_pair_skip by first [done | by apply hex_digit_no_brace].
    exact IH.
  - rewrite escape_other by done. rewrite !contains_cons, IH. f_equal.
    destruct (decide (b = c)) as [->|Hne].
    + rewrite !prefix_eq. by apply escape_head.
    + by rewrite !prefix_neq.
Qed.

Lemma markers_escape (s : string) :
  contains "{{" (escape s) && contains "}}" (escape s) = contains "{{" s && contains "}}" s.
Proof.
  rewrite (contains_pair_escape "{"), (contains_pair_escape "}"); [done|by right|by left].
Qed.

End EscapeFacts.

(** * Cells and tables *)
Module TableFacts.
Import PyStr PyStrFacts EscapeFacts.

Lemma join_cons (sep x : string) (xs : list string) :
  xs <> [] -> join sep (x :: xs) = x +:+ sep +:+ join sep xs.
Proof. by destruct xs. Qed.

Lemma join_empty_cons (x : string) (xs : list string) :
  join "" (x :: xs) = x +:+ join "" xs.
Proof.
  destruct xs; [by rewrite append_empty_r|]. by rewrite join_cons.
Qed.

Lemma split_nonempty (sep : ascii) (s : string) : split sep s <> [].
Proof.
  induction s as [|c s IH]; [done|]. cbn [split].
  destruct (decide (c = sep)); [done|]. by destruct (split sep s).
Qed.

(** Joining the lines of a text gives the text back. *)
Lemma join_split (sep : ascii) (s : string) :
  join (String sep "") (split sep s) = s.
Proof.
  induction s as [|c s IH]; [done|]. cbn [split].
  pose proof (split_nonempty sep s) as Hne.
  destruct (decide (c = sep)) as [->|_].
  - by rewrite join_cons, IH.
  - destruct (split sep s) as [|h t]; [done|].
    destruct t as [|h' t].
    + cbn in IH |- *. by rewrite IH.
    + rewrite join_cons in IH |- * by done. by rewrite append_cons, IH.
Qed.

Lemma join_app_head (sep x h : string) (t : list string) :
  join sep ((x +:+ h) :: t) = x +:+ join sep (h :: t).
Proof.
  destruct t as [|h' t]; [done|]. rewrite !join_cons by done. by rewrite append_assoc.
Qed.

(** Escaping line by line is escaping the text: a line feed is stored as it
    is. *)
Lemma join_escape_split (s : string) :
  join (String newline "") (escape <$> split newline s) = escape s.
Proof.
  induction s as [|c s IH]; [done|]. cbn [split].
  pose proof (split_nonempty newline s) as Hne.
  destruct (decide (c = newline)) as [->|_].
  - rewrite fmap_cons, join_cons, IH by (by destruct (split newline s)). done.
  - destruct (split newline s) as [|h t]; [done|].
    rewrite fmap_cons in IH |- *.
    change (String c h) with (String c "" +:+ h).
    rewrite escape_app, join_app_head, IH, <- escape_app. done.
Qed.

Lemma paragraph_text_new (line : string) :
  paragraph_text (new_paragraph line) = escape line.
Proof.
  destruct line as [|c line]; [done|]. unfold paragraph_text, new_paragraph. cbn [runs].
  rewrite list_fmap_singleton. done.
Qed.

(** Reading a text frame gives back the text it was set to, escaped. *)
Lemma frame_text_set (text : string) : frame_text (set_frame_text text) = escape text.
Proof.
  unfold frame_text, set_frame_text. cbn [paragraphs].
  rewrite <- list_fmap_compose.
  rewrite (list_fmap_ext _ escape (split newline text)).
  - apply join_escape_split.
  - intros _ line _. apply paragraph_text_new.
Qed.

Lemma cell_text_text_cell_escaped (text : string) :
  cell_text (text_cell text) = escape text.
Proof. apply frame_text_set. Qed.

(** A cell reads as the [plain] text written to it. *)
Lemma cell_text_text_cell (text : string) :
  plain text = true -> cell_text (text_cell text) = text.
Proof. intros Hplain. by rewrite cell_text_text_cell_escaped, escape_plain. Qed.

(** A loop over the runs that keeps their text keeps the text of the cell. *)
Lemma cell_text_each_run (f : Run -> Run) (c : Cell) :
  (forall run, run_text (f run) = run_text run) ->
  cell_text (cell_each_run f c) = cell_text c.
Proof.
  intros Hf. unfold cell_text, frame_text, cell_each_run. cbn [cell_frame paragraphs].
  f_equal. rewrite <- list_fmap_compose. apply list_fmap_ext. intros _ p _.
  unfold paragraph_text, paragraph_each_run, compose. cbn [runs].
  f_equal. rewrite <- list_fmap_compose. apply list_fmap_ext. intros _ run _. apply Hf.
Qed.

Lemma cell_text_with_size (n : Z) (c : Cell) :
  cell_text (cell_each_run (with_size n) c) = cell_text c.
Proof. by apply cell_text_each_run. Qed.

(** The texts of a row of cells just written, after the size of their runs
    was set. *)
Lemma row_texts_written {A : Type} (n : Z) (g : A -> string) (xs : list A) :
  Forall (fun x => plain (g x) = true) xs ->
  cell_text <$> (cell_each_run (with_size n) <$> ((fun x => text_cell (g x)) <$> xs))
  = g <$> xs.
Proof.
  intros Hplain. rewrite <- !list_fmap_compose. apply Forall_fmap_ext_1.
  eapply Forall_impl; [exact Hplain|]. intros x Hx.
  unfold compose. by rewrite cell_text_with_size, cell_text_text_cell.
Qed.

(** *** Runs of a table *)

Lemma iter_cells_each_run (f : Run -> Run) (t : Table) :
  iter_cells (table_each_run f t) = cell_each_run f <$> iter_cells t.
Proof.
  unfold iter_cells, table_each_run. cbn [rows].
  induction (rows t) as [|row l IH]; [done|].
  rewrite fmap_cons, !bind_cons, fmap_app, IH. done.
Qed.

Lemma table_runs_each_run (f : Run -> Run) (t : Table) :
  table_runs (table_each_run f t) = f <$> table_runs t.
Proof.
  unfold table_runs. rewrite iter_cells_each_run.
  induction (iter_cells t) as [|cell l IH]; [done|].
  rewrite fmap_cons, !bind_cons, fmap_app, IH. f_equal.
  unfold cell_each_run. cbn [cell_frame paragraphs].
  induction (paragraphs (cell_frame cell)) as [|p ps IHp]; [done|].
  rewrite fmap_cons, !bind_cons, fmap_app, IHp. done.
Qed.

(** After [set_table_font_size], every run of the table has that size. *)
Lemma set_table_font_size_runs (t : Table) (n : Z) :
  Forall (fun run => size (run_font run) = Some (Pt n)) (table_runs (set_table_font_size t n)).
Proof.
  unfold set_table_font_size. rewrite table_runs_each_run, Forall_fmap.
  by apply Forall_true.
Qed.

(** *** Cells by position *)

Lemma table_cell_Done (t : Table) (r c : nat) (cell : Cell) :
  table_cell t r c = Done cell <->
  exists row, rows t !! r = Some row /\ cells row !! c = Some cell.
Proof.
  unfold table_cell. destruct (rows t !! r) as [row|].
  - destruct (cells row !! c) as [cell'|] eqn:E.
    + split; [intros [= <-]; eauto | intros (? & [= <-] & ?); congruence].
    + split; [done | intros (? & [= <-] & ?); congruence].
  - split; [done | by intros (? & ? & ?)].
Qed.

Lemma table_cell_each_run (f : Run -> Run) (t : Table) (r c : nat) (cell : Cell) :
  table_cell t r c = Done cell ->
  table_cell (table_each_run f t) r c = Done (cell_each_run f cell).
Proof.
  rewrite !table_cell_Done. intros (row & Hr & Hc).
  exists {| cells := cell_each_run f <$> cells row |}. cbn [table_each_run rows cells].
  by rewrite !list_lookup_fmap, Hr, Hc.
Qed.

Lemma set_cell_text_Done (r c : nat) (text : string) (t : Table) (row : Row) :
  rows t !! r = Some row -> (c < length (cells row))%nat ->
  set_cell_text r c text t =
    Done {| rows := <[r := {| cells := <[c := text_cell text]> (cells row) |}]> (rows t);
            style_id := style_id t |}.
Proof.
  intros Hr Hc. unfold set_cell_text, table_cell. rewrite Hr.
  destruct (lookup_lt_is_Some_2 _ _ Hc) as [cell ->]. cbn.
  do 2 f_equal. apply list_eq. intros j.
  destruct (decide (r = j)) as [<-|Hne].
  - rewrite list_lookup_alter_eq, list_lookup_insert_eq, Hr; [done|].
    by eapply lookup_lt_Some.
  - by rewrite list_lookup_alter_ne, list_lookup_insert_ne.
Qed.

(** *** The writing loops *)

Lemma enumerate_cons {A : Type} (k : nat) (x : A) (xs : list A) :
  enumerate k (x :: xs) = (k, x) :: enumerate (S k) xs.
Proof. done. Qed.

Lemma splice_insert {A : Type} (l m : list A) (k n : nat) (v : A) :
  (k < length l)%nat ->
  take (S k) (<[k:=v]> l) ++ m ++ drop (S k + n) (<[k:=v]> l)
  = take k l ++ (v :: m) ++ drop (k + S n) l.
Proof.
  intros Hk.
  rewrite (take_S_r _ _ v) by by apply list_lookup_insert_eq.
  rewrite take_insert_ge, drop_insert_lt by lia.
  replace (S k + n)%nat with (k + S n)%nat by lia.
  by rewrite <- app_assoc.
Qed.

(** Writing the cells of row [r] from column [k] on. *)
Lemma for_each_write_cells {A : Type} (body : nat * A -> Table -> outcome Table)
    (f : A -> string) (r : nat) (xs : list A) (k : nat) (t : Table) (row : Row) :
  (forall c x t', body (c, x) t' = set_cell_text r c (f x) t') ->
  rows t !! r = Some row ->
  (k + length xs <= length (cells row))%nat ->
  for_each body (enumerate k xs) t =
    Done {| rows := <[r := {| cells := take k (cells row) ++ (text_cell ∘ f <$> xs)
                                        ++ drop (k + length xs) (cells row) |}]> (rows t);
            style_id := style_id t |}.
Proof.
  intros Hbody. revert k t row. induction xs as [|x xs IH]; intros k t row Hr Hlen.
  - cbn. rewrite Nat.add_0_r, take_drop. destruct row, t. cbn in *.
    by rewrite list_insert_id.
  - rewrite enumerate_cons. cbn [for_each]. rewrite Hbody.
    cbn [length] in Hlen.
    rewrite (set_cell_text_Done _ _ _ _ row) by (done || lia). cbn [mbind outcome_bind].
    erewrite IH; cycle 1.
    + cbn [rows]. apply list_lookup_insert_eq. by eapply lookup_lt_Some.
    + cbn [cells]. rewrite length_insert. lia.
    + cbn [rows cells style_id]. rewrite list_insert_insert_eq.
      rewrite fmap_cons, splice_insert by lia. done.
Qed.

End TableFacts.

(** * Table placeholders *)
Module PlaceholderFacts.
Import TableFacts.

Section WithParameters.
Variable py_repr : json -> string.
Variable PPTX_TABLE_STYLE_ID : option string.

(** The row written for one record of the array. *)
Local Abbreviation record_row headers :=
  (fun d : dict =>
     {| cells := (fun h => text_cell (py_str py_repr (default (JStr "") (dict_get h d))))
                   <$> headers |}).

(** The table [add_table] makes is blank, so the formatting loop of
    [create_table] finds no run to format. *)
Lemma create_table_Done (n_rows n_cols : nat) (l t w h : Z)
    (font_size : option Z) (font_bold : option bool) :
  n_rows <> 0%nat -> n_cols <> 0%nat ->
  create_table PPTX_TABLE_STYLE_ID n_rows n_cols l t w h font_size font_bold =
    Done {| left := l; top := t; width := w; height := h;
            table := {| rows := replicate n_rows {| cells := replicate n_cols empty_cell |};
                        style_id := PPTX_TABLE_STYLE_ID |} |}.
Proof.
  intros Hr Hc. unfold create_table, add_table.
  destruct (decide _) as [[?|?]|_]; [done..|].
  cbn [mbind outcome_bind table left top width height].
  unfold table_each_run. cbn [rows style_id]. do 3 f_equal.
  etrans; [apply fmap_replicate|]. cbn [cells]. do 2 f_equal.
  apply fmap_replicate.
Qed.

(** The data loop, from row [k] on, over records that are all [dict]s. *)
Lemma for_each_write_rows (headers : list string) (records : list dict) (k : nat)
    (t : Table) :
  (k + length records <= length (rows t))%nat ->
  Forall (fun row => length (cells row) = length headers) (rows t) ->
  for_each (fun '(row_idx, item) =>
              for_each (fun '(col_idx, header) t =>
                          v ← item_get item header;
                          set_cell_text row_idx col_idx (py_str py_repr v) t)
                (enumerate 0 headers))
    (enumerate k (JDict <$> records)) t
  = Done {| rows := take k (rows t) ++ (record_row headers <$> records)
                      ++ drop (k + length records) (rows t);
            style_id := style_id t |}.
Proof.
  revert k t. induction records as [|d records IH]; intros k t Hlen Hcols.
  - cbn. rewrite Nat.add_0_r, take_drop. by destruct t.
  - rewrite fmap_cons, enumerate_cons. cbn [for_each length] in *.
    destruct (lookup_lt_is_Some_2 (rows t) k) as [row Hrow]; [lia|].
    pose proof (Forall_lookup_1 _ _ _ _ Hcols Hrow) as Hrowlen. cbn beta in Hrowlen.
    erewrite (for_each_write_cells _
                (fun h => py_str py_repr (default (JStr "") (dict_get h d))) k headers 0 t row);
      [|done|done|lia].
    cbn [mbind outcome_bind].
    rewrite IH; cbn [rows style_id].
    + rewrite take_0, app_nil_l, Nat.add_0_l, drop_ge, app_nil_r by lia.
      rewrite fmap_cons, splice_insert by (apply lookup_lt_Some in Hrow; lia). done.
    + rewrite length_insert. lia.
    + apply Forall_insert; [done|]. cbn [cells].
      rewrite take_0, app_nil_l, Nat.add_0_l, drop_ge, app_nil_r by lia.
      by rewrite length_fmap.
Qed.

(** What expanding a placeholder bound to a non-empty array of records
    leaves on the slide. *)
Lemma process_table_placeholder_expands (i : nat) (frame : GraphicFrame) (content : dict)
    (slide : Slide) (anchor : Cell) (first : dict) (records : list dict) :
  table_cell (table frame) 0 0 = Done anchor ->
  paragraphs (cell_frame anchor) <> [] ->
  dict_get (placeholder_name_of anchor) content = Some (JList (JDict <$> first :: records)) ->
  first <> [] ->
  process_table_placeholder py_repr PPTX_TABLE_STYLE_ID i frame content slide =
    Done ({| shapes := delete i (shapes slide) ++
               [TableShape
                  {| left := left frame; top := top frame; width := width frame;
                     height := height frame;
                     table := set_table_font_size
                                {| rows := {| cells := text_cell <$> dict_keys first |}
                                           :: (record_row (dict_keys first) <$> first :: records);
                                   style_id := PPTX_TABLE_STYLE_ID |} 11 |}] |},
          Removed).
Proof.
  intros Hanchor Hpara Hget Hfirst. unfold process_table_placeholder.
  rewrite Hanchor. cbn [mbind outcome_bind]. rewrite Hget.
  cbn [default from_option]. unfold id at 1. rewrite fmap_cons. cbv iota beta.
  destruct (paragraphs (cell_frame anchor)) as [|p0 ps]; [done|]. cbn [lookup list_lookup].
  cbn [mbind outcome_bind].
  rewrite create_table_Done; cycle 1.
  { rewrite Nat.add_1_r. done. }
  { unfold dict_keys. rewrite length_fmap. by destruct first. }
  cbn [mbind outcome_bind table left top width height].
  rewrite Nat.add_1_r. cbn [replicate].
  erewrite (for_each_write_cells _ id 0 (dict_keys first) 0); cycle 1.
  { done. }
  { done. }
  { cbn [cells]. rewrite length_replicate. lia. }
  cbn [mbind outcome_bind rows style_id cells].
  rewrite take_0, app_nil_l, drop_ge, app_nil_r by (rewrite length_replicate; lia).
  cbn [insert list_insert].
  rewrite <- fmap_cons.
  rewrite for_each_write_rows; cycle 1.
  { cbn [rows length]. rewrite length_replicate, length_fmap. cbn [length]. lia. }
  { cbn [rows]. constructor.
    - cbn [cells]. by rewrite length_fmap.
    - apply Forall_replicate. cbn [cells]. by rewrite length_replicate. }
  cbn [mbind outcome_bind rows style_id take].
  rewrite drop_ge
    by (cbn [length]; rewrite length_replicate, length_fmap; cbn [length]; lia).
  rewrite app_nil_r. reflexivity.
Qed.

(** The frame of a placeholder marked as having no data: the anchor cell
    reads [n/a], and every run of the table is set to 11 pt. *)
Local Abbreviation no_data_frame frame :=
  {| left := left frame; top := top frame; width := width frame; height := height frame;
     table := set_table_font_size
                {| rows := alter (fun row => {| cells := <[0%nat := text_cell "n/a"]> (cells row) |})
                            0%nat (rows (table frame));
                   style_id := style_id (table frame) |} 11 |}.

(** What [process_table_placeholder] does to a table whose name is not bound
    to a non-empty list. *)
Lemma process_table_placeholder_no_data (i : nat) (frame : GraphicFrame) (content : dict)
    (slide : Slide) (anchor : Cell) :
  table_cell (table frame) 0 0 = Done anchor ->
  (forall first rest,
     dict_get (placeholder_name_of anchor) content <> Some (JList (first :: rest))) ->
  process_table_placeholder py_repr PPTX_TABLE_STYLE_ID i frame content slide =
    Done ({| shapes := <[i := TableShape (no_data_frame frame)]> (shapes slide) |}, InPlace).
Proof.
  intros Hanchor Hunbound. unfold process_table_placeholder.
  rewrite Hanchor. cbn [mbind outcome_bind].
  assert (set_cell_text 0 0 "n/a" (table frame) =
          Done {| rows := alter (fun row => {| cells := <[0%nat := text_cell "n/a"]> (cells row) |})
                            0%nat (rows (table frame));
                  style_id := style_id (table frame) |}) as Hset.
  { unfold set_cell_text. by rewrite Hanchor. }
  destruct (dict_get (placeholder_name_of anchor) content) as [v|] eqn:Hget;
    cbn [default from_option]; unfold id.
  - destruct v as [| | | | |[|first rest]|]; try (by rewrite Hset).
    by destruct (Hunbound first rest).
  - by rewrite Hset.
Qed.

(** The two ways [process_table_placeholder] can change the slide: it
    rewrites the visited frame where it stands, or it takes the frame out and
    puts a new one last. *)
Lemma process_table_placeholder_effect (i : nat) (frame : GraphicFrame) (content : dict)
    (slide slide1 : Slide) (change : tree_change) :
  shapes slide !! i = Some (TableShape frame) ->
  process_table_placeholder py_repr PPTX_TABLE_STYLE_ID i frame content slide
    = Done (slide1, change) ->
  exists anchor, table_cell (table frame) 0 0 = Done anchor /\
    ((change = InPlace /\
      (forall entries rest, dict_get (placeholder_name_of anchor) content
                            <> Some (JList (JDict entries :: rest))) /\
      exists frame1, shapes slide1 = <[i := TableShape frame1]> (shapes slide) /\
        ((forall first rest, dict_get (placeholder_name_of anchor) content
                             <> Some (JList (first :: rest))) ->
         frame1 = no_data_frame frame)) \/
     (change = Removed /\
      (exists entries rest, dict_get (placeholder_name_of anchor) content
                            = Some (JList (JDict entries :: rest))) /\
      exists new_frame, shapes slide1 = delete i (shapes slide) ++ [TableShape new_frame])).
Proof.
  intros Hi Hrun.
  destruct (table_cell (table frame) 0 0) as [anchor| |] eqn:Hanchor;
    [|by unfold process_table_placeholder in Hrun; rewrite Hanchor in Hrun..].
  exists anchor. split; [done|].
  assert (forall v, dict_get (placeholder_name_of anchor) content = v ->
            (forall item0 rest, v <> Some (JList (item0 :: rest))) ->
            change = InPlace /\ shapes slide1 = <[i := TableShape (no_data_frame frame)]> (shapes slide))
    as Hno_data.
  { intros v <- Hv.
    rewrite (process_table_placeholder_no_data _ _ _ _ anchor) in Hrun by done.
    by injection Hrun as <- <-. }
  destruct (dict_get (placeholder_name_of anchor) content) as [v|] eqn:Hget.
  - destruct v as [| | | | |[|item0 rest]|];
      try (destruct (Hno_data _ eq_refl) as [-> ->]; [done|];
           left; split_and!; [done..|]; eauto).
    unfold process_table_placeholder in Hrun. rewrite Hanchor in Hrun.
    cbn [mbind outcome_bind] in Hrun. rewrite Hget in Hrun.
    cbn [default from_option] in Hrun. unfold id in Hrun.
    destruct item0;
      try (injection Hrun as <- <-; left; split_and!; [done..|];
           exists frame; split;
             [by rewrite list_insert_id | intros Hu; by destruct (Hu _ _ eq_refl)]).
    right. unfold mbind, outcome_bind in Hrun. repeat case_match; simplify_eq/=.
    split_and!; eauto.
  - destruct (Hno_data _ eq_refl) as [-> ->]; [done|].
    left. split_and!; [done..|]. eauto.
Qed.

(** *** The table loop *)

(** One round of the table loop at the shape [cur] that follows [done]. *)
Lemma table_loop_round (fuel : nat) (content : dict) (done : list Shape) (cur : Shape)
    (rest : list Shape) :
  table_loop py_repr PPTX_TABLE_STYLE_ID (S fuel) content (length done)
    {| shapes := done ++ cur :: rest |}
  = '(slide1, change) ← match cur with
                        | TableShape frame =>
                            process_table_placeholder py_repr PPTX_TABLE_STYLE_ID
                              (length done) frame content {| shapes := done ++ cur :: rest |}
                        | _ => Done ({| shapes := done ++ cur :: rest |}, InPlace)
                        end;
    match rest with
    | [] => Done slide1
    | _ :: _ => table_loop py_repr PPTX_TABLE_STYLE_ID fuel content
                  (match change with InPlace => S (length done) | Removed => length done end)
                  slide1
    end.
Proof.
  cbn [table_loop shapes]. rewrite list_lookup_middle by done.
  rewrite length_app. cbn [length].
  destruct rest; case_bool_decide; try done; cbn [length] in *; lia.
Qed.

Lemma table_loop_end (fuel : nat) (content : dict) (done : list Shape) :
  table_loop py_repr PPTX_TABLE_STYLE_ID fuel content (length done) {| shapes := done |}
  = Done {| shapes := done |}.
Proof. destruct fuel; cbn; by rewrite lookup_ge_None_2. Qed.

(** A pass of the table loop keeps the shapes it has gone past, and marks
    every table ahead of it whose name is not bound to a non-empty list. *)
Lemma table_loop_visits (fuel : nat) (content : dict) (done todo : list Shape)
    (slide' : Slide) :
  table_loop py_repr PPTX_TABLE_STYLE_ID fuel content (length done)
    {| shapes := done ++ todo |} = Done slide' ->
  exists todo', shapes slide' = done ++ todo' /\
    forall frame anchor,
      TableShape frame ∈ todo ->
      table_cell (table frame) 0 0 = Done anchor ->
      (forall first rest,
         dict_get (placeholder_name_of anchor) content <> Some (JList (first :: rest))) ->
      TableShape (no_data_frame frame) ∈ todo'.
Proof.
  revert done todo slide'. induction fuel as [|fuel IH]; intros done [|cur rest] slide' Hrun.
  - rewrite app_nil_r, table_loop_end in Hrun. injection Hrun as <-.
    exists []. split; [by rewrite app_nil_r | by intros ?? ?%elem_of_nil].
  - cbn in Hrun. by rewrite list_lookup_middle in Hrun.
  - rewrite app_nil_r, table_loop_end in Hrun. injection Hrun as <-.
    exists []. split; [by rewrite app_nil_r | by intros ?? ?%elem_of_nil].
  - rewrite table_loop_round in Hrun.
    assert (forall shape1 slide2,
              match rest with
              | [] => Done {| shapes := done ++ shape1 :: rest |}
              | _ :: _ => table_loop py_repr PPTX_TABLE_STYLE_ID fuel content
                            (S (length done)) {| shapes := done ++ shape1 :: rest |}
              end = Done slide2 ->
              exists todo2, shapes slide2 = done ++ shape1 :: todo2 /\
                forall frame anchor,
                  TableShape frame ∈ rest ->
                  table_cell (table frame) 0 0 = Done anchor ->
                  (forall first rest,
                     dict_get (placeholder_name_of anchor) content
                     <> Some (JList (first :: rest))) ->
                  TableShape (no_data_frame frame) ∈ todo2) as Hkept.
    { intros shape1 slide2 Hrest. destruct rest as [|next rest].
      - injection Hrest as <-. exists []. split; [done | by intros ?? ?%elem_of_nil].
      - replace {| shapes := done ++ shape1 :: next :: rest |}
          with {| shapes := (done ++ [shape1]) ++ next :: rest |} in Hrest
          by (by rewrite <- app_assoc).
        replace (S (length done)) with (length (done ++ [shape1])) in Hrest
          by (rewrite length_app; cbn; lia).
        apply IH in Hrest as (todo2 & Hshapes & Hmarked).
        exists todo2. by rewrite Hshapes, <- app_assoc. }
    destruct cur as [tf|frame0|].
    + cbn [mbind outcome_bind] in Hrun. apply Hkept in Hrun as (todo2 & -> & Hmarked).
      exists (TextShape tf :: todo2). split; [done|].
      intros frame anchor [?|Hin]%elem_of_cons ??; [done|].
      apply elem_of_cons. right. eauto.
    + destruct (process_table_placeholder _ _ _ _ _ _) as [[slide1 change]| |] eqn:Hp;
        cbn [mbind outcome_bind] in Hrun; [|done..].
      apply process_table_placeholder_effect in Hp
        as (anchor0 & Hanchor0 & [(-> & _ & frame1 & Hshapes & Hframe1)
                                 |(-> & (entries & tail & Hbound) & new_frame & Hshapes)]);
        [| |by cbn [shapes]; rewrite list_lookup_middle]; cbn [shapes] in Hshapes.
      * rewrite insert_app_r_alt, Nat.sub_diag in Hshapes by done.
        cbn [insert list_insert] in Hshapes.
        destruct slide1 as [shapes1]. cbn [shapes] in Hshapes. subst shapes1.
        apply Hkept in Hrun as (todo2 & -> & Hmarked).
        exists (TableShape frame1 :: todo2). split; [done|].
        intros frame anchor [[= <-]|Hin]%elem_of_cons Hanchor Hunbound.
        -- rewrite Hanchor0 in Hanchor. injection Hanchor as <-.
           rewrite (Hframe1 Hunbound). apply elem_of_cons. by left.
        -- apply elem_of_cons. right. eauto.
      * rewrite delete_middle, <- app_assoc in Hshapes.
        destruct slide1 as [shapes1]. cbn [shapes] in Hshapes. subst shapes1.
        assert (forall frame anchor,
                  TableShape frame = TableShape frame0 ->
                  table_cell (table frame) 0 0 = Done anchor ->
                  ~ (forall first rest,
                       dict_get (placeholder_name_of anchor) content
                       <> Some (JList (first :: rest)))) as Hcur.
        { intros frame anchor [= ->] Hanchor Hunbound.
          rewrite Hanchor0 in Hanchor. injection Hanchor as <-.
          by destruct (Hunbound _ _ Hbound). }
        destruct rest as [|next rest].
        -- injection Hrun as <-. cbn [shapes]. eexists. split; [done|].
           intros frame anchor [?|?%elem_of_nil]%elem_of_cons Hanchor Hunbound; [|done].
           by destruct (Hcur _ _ ltac:(done) Hanchor).
        -- apply IH in Hrun as (todo' & Hshapes & Hmarked).
           exists todo'. split; [done|].
           intros frame anchor [?|Hin]%elem_of_cons Hanchor Hunbound.
           ++ by destruct (Hcur _ _ ltac:(done) Hanchor).
           ++ apply (Hmarked _ anchor); [|done..]. apply elem_of_app. by left.
    + cbn [mbind outcome_bind] in Hrun. apply Hkept in Hrun as (todo2 & -> & Hmarked).
      exists (OtherShape :: todo2). split; [done|].
      intros frame anchor [?|Hin]%elem_of_cons ??; [done|].
      apply elem_of_cons. right. eauto.
Qed.

(** Where no table is expanded, except perhaps one that stands last, the
    loop over the slide's own shapes and the loop over a snapshot of them do
    the same. *)
Lemma table_loop_snapshot_agrees (fuel : nat) (content : dict) (done todo : list Shape) :
  (forall j frame anchor entries rest,
     todo !! j = Some (TableShape frame) ->
     (S j < length todo)%nat ->
     table_cell (table frame) 0 0 = Done anchor ->
     dict_get (placeholder_name_of anchor) content <> Some (JList (JDict entries :: rest))) ->
  (length todo <= fuel)%nat ->
  table_loop py_repr PPTX_TABLE_STYLE_ID fuel content (length done)
    {| shapes := done ++ todo |}
  = table_loop_snapshot py_repr PPTX_TABLE_STYLE_ID content todo (length done)
      {| shapes := done ++ todo |}.
Proof.
  revert done fuel. induction todo as [|cur rest IH]; intros done fuel Hkeep Hfuel.
  - by rewrite app_nil_r, table_loop_end.
  - destruct fuel as [|fuel]; [cbn in Hfuel; lia|].
    rewrite table_loop_round. cbn [table_loop_snapshot]. cbn [length] in Hfuel.
    destruct rest as [|next rest].
    { destruct (match cur with TableShape _ => _ | _ => _ end) as [[slide1 change]| |]; done. }
    assert (forall shape1,
              table_loop py_repr PPTX_TABLE_STYLE_ID fuel content
                (S (length done)) {| shapes := done ++ shape1 :: next :: rest |}
              = table_loop_snapshot py_repr PPTX_TABLE_STYLE_ID content (next :: rest)
                  (S (length done)) {| shapes := done ++ shape1 :: next :: rest |}) as Hnext.
    { intros shape1.
      replace {| shapes := done ++ shape1 :: next :: rest |}
        with {| shapes := (done ++ [shape1]) ++ next :: rest |}
        by (by rewrite <- app_assoc).
      replace (S (length done)) with (length (done ++ [shape1]))
        by (rewrite length_app; cbn; lia).
      apply IH; [|cbn [length] in *; lia].
      intros j frame anchor entries tail Hj Hlast.
      apply (Hkeep (S j)); [done | cbn [length] in *; lia]. }
    destruct cur as [tf|frame0|]; [apply Hnext| |apply Hnext].
    destruct (process_table_placeholder _ _ _ _ _ _) as [[slide1 change]| |] eqn:Hp;
      cbn [mbind outcome_bind]; [|done..].
    apply process_table_placeholder_effect in Hp
      as (anchor0 & Hanchor0 & [(-> & _ & frame1 & Hshapes & _)
                               |(-> & (entries & tail & Hbound) & _)]);
      [| |by cbn [shapes]; rewrite list_lookup_middle].
    + cbn [shapes] in Hshapes.
      rewrite insert_app_r_alt, Nat.sub_diag in Hshapes by done.
      cbn [insert list_insert] in Hshapes.
      destruct slide1 as [shapes1]. cbn [shapes] in Hshapes. subst shapes1.
      apply Hnext.
    + destruct (Hkeep 0%nat frame0 anchor0 entries tail); [done | cbn; lia | done..].
Qed.

(** A table that was expanded left the slide for a new table standing last,
    at the same place on the slide, all of whose runs are set to 11 pt. *)
Lemma process_table_placeholder_removed (i : nat) (frame : GraphicFrame) (content : dict)
    (slide slide1 : Slide) :
  process_table_placeholder py_repr PPTX_TABLE_STYLE_ID i frame content slide
    = Done (slide1, Removed) ->
  exists filled,
    shapes slide1 = delete i (shapes slide) ++
      [TableShape {| left := left frame; top := top frame; width := width frame;
                     height := height frame; table := set_table_font_size filled 11 |}].
Proof.
  unfold process_table_placeholder, create_table, add_table. intros Hrun.
  unfold mbind, outcome_bind in Hrun. repeat case_match; simplify_eq/=. eauto.
Qed.

End WithParameters.
End PlaceholderFacts.

(** * Paragraphs, records and the batch *)
Module RenderFacts.
Import PyStr PyStrFacts ResolverFacts EscapeFacts TableFacts.

Lemma dict_get_set_eq (key : string) (value : json) (d : dict) :
  dict_get key (dict_set key value d) = Some value.
Proof.
  induction d as [|[k v] d IH]; cbn.
  - by rewrite decide_True.
  - destruct (decide (k = key)) as [->|Hne]; cbn.
    + by rewrite decide_True.
    + by rewrite decide_False.
Qed.

Lemma dict_get_set_ne (key key' : string) (value : json) (d : dict) :
  key <> key' -> dict_get key' (dict_set key value d) = dict_get key' d.
Proof.
  intros Hne. induction d as [|[k v] d IH]; cbn.
  - by rewrite decide_False.
  - destruct (decide (k = key)) as [->|Hk]; cbn.
    + by rewrite !decide_False.
    + by rewrite IH.
Qed.

Lemma for_each_app {A S : Type} (body : A -> S -> outcome S) (xs ys : list A) (s : S) :
  for_each body (xs ++ ys) s = s' ← for_each body xs s; for_each body ys s'.
Proof.
  revert s. induction xs as [|x xs IH]; intros s; [done|].
  cbn [app for_each]. destruct (body x s); cbn [mbind outcome_bind]; [apply IH|done..].
Qed.

Lemma cell_lookup_other (t : Table) (r c r0 c0 : nat) (x : Cell) :
  (r, c) <> (r0, c0) ->
  table_cell {| rows := alter (fun row => {| cells := <[c0 := x]> (cells row) |}) r0 (rows t);
                style_id := style_id t |} r c
  = table_cell t r c.
Proof.
  intros Hne. unfold table_cell. cbn [rows].
  destruct (decide (r0 = r)) as [->|Hr].
  - rewrite list_lookup_alter_eq. destruct (rows t !! r) as [row|]; [|done].
    cbn [fmap option_fmap option_map cells].
    rewrite list_lookup_insert_ne; [done | congruence].
  - by rewrite list_lookup_alter_ne.
Qed.

Lemma cell_lookup_same (t : Table) (r c : nat) (x old : Cell) :
  table_cell t r c = Done old ->
  table_cell {| rows := alter (fun row => {| cells := <[c := x]> (cells row) |}) r (rows t);
                style_id := style_id t |} r c
  = Done x.
Proof.
  intros (row & Hr & Hc)%table_cell_Done. unfold table_cell. cbn [rows].
  rewrite list_lookup_alter_eq, Hr. cbn [fmap option_fmap option_map cells].
  rewrite list_lookup_insert_eq; [done | by eapply lookup_lt_Some].
Qed.

Section WithRepr.
Variable py_repr : json -> string.

Local Abbreviation cleared :=
  (fun run : Run => {| run_text := ""; run_font := run_font run |}).

Lemma join_cleared (rs : list Run) : join "" (run_text <$> (cleared <$> rs)) = "".
Proof.
  induction rs as [|run rs IH]; [done|].
  rewrite !fmap_cons, join_empty_cons, IH. done.
Qed.

(** What [process_paragraph] returns, in terms of the resolved text. *)
Lemma process_paragraph_Done (content : dict) (p : Paragraph) :
  exists t,
    resolve_text py_repr content (join "" (run_text <$> runs p)) = Done t /\
    process_paragraph py_repr content p =
      Done {| para_font := para_font p;
              runs := match runs p with
                      | [] => []
                      | run0 :: rest =>
                          {| run_text := escape t; run_font := run_font run0 |}
                          :: (cleared <$> rest)
                      end |}.
Proof.
  destruct (resolve_text_terminates py_repr content (join "" (run_text <$> runs p)))
    as [t Ht].
  exists t. split; [done|]. unfold process_paragraph. rewrite Ht.
  cbn [mbind outcome_bind]. by destruct (runs p).
Qed.

(** A text without a pair of markers, escaped, is resolved to itself under
    every content. *)
Lemma resolve_text_escaped (content : dict) (t : string) :
  contains "{{" t && contains "}}" t = false ->
  resolve_text py_repr content (escape t) = Done (escape t).
Proof.
  intros Ht. rewrite <- markers_escape in Ht. unfold resolve_text.
  rewrite substitute_known_stable by done. by apply substitute_missing_stable.
Qed.

End WithRepr.

(** The content map of a record, when one is built. *)
Lemma record_content_Some (json_loads : string -> json + exn) (jobid jobdate : string)
    (r : record) (content : dict) :
  record_content json_loads jobid jobdate r = Done (Some content) ->
  exists entries,
    content = dict_set "jobdate" (JStr jobdate) (dict_set "jobid" (JStr jobid) entries) /\
    match jeschro_content r with
    | Some field => exists text, field = JStr text /\ json_loads text = inl (JDict entries)
    | None => entries = []
    end.
Proof.
  unfold record_content. cbv zeta. intros Hrun.
  destruct (jeschro_content r) as [[| | | |text| |]|]; try done.
  - destruct (json_loads text) as [[| | | | | |entries]|[]] eqn:Hloads; try done.
    injection Hrun as <-. exists entries. eauto.
  - injection Hrun as <-. by exists [].
Qed.

End RenderFacts.

(** * Properties of the renderer *)

Import PyStrFacts ResolverFacts EscapeFacts TableFacts PlaceholderFacts RenderFacts.

(** C1, as the code has it.  When a placeholder is expanded, the new table
    stands last on the slide at the placeholder's position and size, and once
    all its header and data cells have been written every run of every cell
    is set to the fixed size of 11 pt; the font size and bold flag captured
    from the placeholder's anchor cell do not reach the runs. *)
Theorem new_table_runs_get_fixed_size (py_repr : json -> string)
    (PPTX_TABLE_STYLE_ID : option string) (i : nat) (frame : GraphicFrame)
    (content : dict) (slide slide' : Slide) :
  process_table_placeholder py_repr PPTX_TABLE_STYLE_ID i frame content slide
    = Done (slide', Removed) ->
  exists new_table,
    shapes slide' = delete i (shapes slide) ++
      [TableShape {| left := left frame; top := top frame; width := width frame;
                     height := height frame; table := new_table |}] /\
    Forall (fun run => size (run_font run) = Some (Pt 11)) (table_runs new_table).
Proof.
  intros (filled & Hshapes)%process_table_placeholder_removed.
  eexists. split; [exact Hshapes|]. apply set_table_font_size_runs.
Qed.

(** C2, as the code has it.  The table loop walks the slide's own shape
    collection, not a snapshot of it; the two walks give the same result on
    every slide where no table is expanded into a new table. *)
Theorem table_loop_agrees_with_snapshot_without_expansion (py_repr : json -> string)
    (PPTX_TABLE_STYLE_ID : option string) (fuel : nat) (content : dict) (slide : Slide) :
  (forall frame anchor entries rest,
     TableShape frame ∈ shapes slide ->
     table_cell (table frame) 0 0 = Done anchor ->
     dict_get (placeholder_name_of anchor) content <> Some (JList (JDict entries :: rest))) ->
  (length (shapes slide) <= fuel)%nat ->
  table_loop py_repr PPTX_TABLE_STYLE_ID fuel content 0 slide
  = table_loop_snapshot py_repr PPTX_TABLE_STYLE_ID content (shapes slide) 0 slide.
Proof.
  intros Hkeep Hfuel. destruct slide as [l].
  apply (table_loop_snapshot_agrees _ _ _ _ []); [|done].
  intros j frame anchor entries rest Hj _. apply Hkeep. by eapply list_elem_of_lookup_2.
Qed.

(** C3, where the code departs from it.  The fallback loop returns on every
    text ([resolve_text_terminates]), but an open marker with no close marker
    after it is left alone only when the text has no close marker at all:
    when one occurs earlier in the text, [find] answers [-1], the slice is
    empty, and the loop replaces the empty string, which puts [n/a] around
    every character of the paragraph. *)
Theorem fallback_mangles_unmatched_open_marker (py_repr : json -> string) (s : string) :
  PyStr.contains "{{" s = true ->
  PyStr.contains "}}" s = true ->
  PyStr.find s "}}" (Z.to_nat (PyStr.find s "{{" 0)) = (-1)%Z ->
  resolve_text py_repr [] s = Done (PyStr.replace s "" "n/a").
Proof.
  intros Hopen Hclose Hfind. unfold resolve_text. cbn [substitute_known foldl substitute_missing].
  rewrite Hopen, Hclose. cbn [andb].
  rewrite replace_first_missing_unmatched by done.
  apply substitute_missing_stable. by rewrite replace_empty_no_open.
Qed.

(** C4, as the code has it.  For a table placeholder whose looked-up value
    is absent, not a list, or an empty list, the table stays where it is in
    the slide and no shape is added; its anchor cell reads [n/a], every other
    cell keeps its text and its place, and the fixed size of 11 pt is set on
    every run of every cell of the table, not only the anchor's. *)
Theorem no_data_placeholder_kept_and_restyled (py_repr : json -> string)
    (PPTX_TABLE_STYLE_ID : option string) (i : nat) (frame : GraphicFrame)
    (content : dict) (slide : Slide) (anchor : Cell) :
  table_cell (table frame) 0 0 = Done anchor ->
  (forall first rest,
     dict_get (placeholder_name_of anchor) content <> Some (JList (first :: rest))) ->
  exists t',
    process_table_placeholder py_repr PPTX_TABLE_STYLE_ID i frame content slide
      = Done ({| shapes := <[i := TableShape {| left := left frame; top := top frame;
                                                width := width frame; height := height frame;
                                                table := t' |}]> (shapes slide) |},
              InPlace) /\
    (exists anchor', table_cell t' 0 0 = Done anchor' /\ cell_text anchor' = "n/a") /\
    (forall r c cell,
       (r, c) <> (0, 0)%nat ->
       table_cell (table frame) r c = Done cell ->
       table_cell t' r c = Done (cell_each_run (with_size 11) cell) /\
       cell_text (cell_each_run (with_size 11) cell) = cell_text cell) /\
    (fun row => length (cells row)) <$> rows t'
      = (fun row => length (cells row)) <$> rows (table frame) /\
    style_id t' = style_id (table frame) /\
    Forall (fun run => size (run_font run) = Some (Pt 11)) (table_runs t').
Proof.
  intros Hanchor Hunbound. eexists. split.
  { by apply (process_table_placeholder_no_data _ _ _ _ _ _ anchor). }
  split_and!.
  - eexists. split.
    + apply table_cell_each_run. by apply (cell_lookup_same _ _ _ _ anchor).
    + by rewrite cell_text_with_size, cell_text_text_cell.
  - intros r c cell Hne Hcell. split; [|apply cell_text_with_size].
    apply table_cell_each_run. by rewrite cell_lookup_other.
  - cbn [set_table_font_size table_each_run rows].
    rewrite <- list_fmap_compose. apply list_eq. intros j.
    rewrite !list_lookup_fmap.
    destruct (decide (j = 0%nat)) as [->|Hj].
    + rewrite list_lookup_alter_eq. destruct (rows (table frame) !! 0%nat); [|done].
      cbn. by rewrite length_fmap, length_insert.
    + rewrite list_lookup_alter_ne by done. destruct (rows (table frame) !! j); [|done].
      cbn. by rewrite length_fmap.
  - done.
  - apply set_table_font_size_runs.
Qed.

(** C5, as the code has it.  For a table placeholder bound to a non-empty
    array all of whose elements are records, the first with at least one key,
    where the keys of the first element and the texts to be shown hold no
    control character (the library would store one escaped), the replacement
    table has [len(array) + 1] rows and one column per key of the first
    element; row 0 holds these keys in order, the data rows follow the order
    of the array, each data cell reads [str] of the element's value at the
    column's key, and the empty string where the element lacks the key. *)
Theorem expanded_table_contents (py_repr : json -> string)
    (PPTX_TABLE_STYLE_ID : option string) (i : nat) (frame : GraphicFrame)
    (content : dict) (slide : Slide) (anchor : Cell) (first : dict) (records : list dict) :
  table_cell (table frame) 0 0 = Done anchor ->
  paragraphs (cell_frame anchor) <> [] ->
  dict_get (placeholder_name_of anchor) content = Some (JList (JDict <$> first :: records)) ->
  first <> [] ->
  Forall (fun header => plain header = true) (dict_keys first) ->
  Forall (fun d =>
            Forall (fun header =>
                      plain (py_str py_repr (default (JStr "") (dict_get header d))) = true)
              (dict_keys first)) (first :: records) ->
  exists new_table,
    process_table_placeholder py_repr PPTX_TABLE_STYLE_ID i frame content slide
      = Done ({| shapes := delete i (shapes slide) ++
                   [TableShape {| left := left frame; top := top frame;
                                  width := width frame; height := height frame;
                                  table := new_table |}] |}, Removed) /\
    length (rows new_table) = (length (first :: records) + 1)%nat /\
    Forall (fun row => length (cells row) = length (dict_keys first)) (rows new_table) /\
    (fun row => cell_text <$> cells row) <$> rows new_table
      = dict_keys first
        :: ((fun d => (fun h => py_str py_repr (default (JStr "") (dict_get h d)))
                        <$> dict_keys first) <$> first :: records).
Proof.
  intros Hanchor Hpara Hget Hfirst Hheaders Hvalues. eexists. split.
  { by apply (process_table_placeholder_expands _ _ _ _ _ _ anchor). }
  cbn [set_table_font_size table_each_run rows]. split_and!.
  - rewrite length_fmap. cbn [length]. rewrite length_fmap. cbn [length]. lia.
  - apply Forall_fmap, Forall_cons. split.
    + cbn. by rewrite !length_fmap.
    + apply Forall_fmap, Forall_true. intros d. cbn. by rewrite !length_fmap.
  - rewrite fmap_cons, fmap_cons. cbn [cells]. f_equal.
    + rewrite (row_texts_written 11 id) by done. apply list_fmap_id.
    + rewrite <- !list_fmap_compose. apply Forall_fmap_ext_1.
      eapply Forall_impl; [exact Hvalues|]. intros d Hd.
      unfold compose. cbn [cells].
      by apply (row_texts_written 11
                  (fun h => py_str py_repr (default (JStr "") (dict_get h d)))).
Qed.

(** C6.  Resolving a paragraph a second time changes nothing, for every
    content map and every paragraph (whether or not all its tokens are
    known): the text left by the first pass lacks an open or a close marker,
    so no token is left for the second. *)
Theorem process_paragraph_idempotent (py_repr : json -> string) (content : dict)
    (p : Paragraph) :
  exists p',
    process_paragraph py_repr content p = Done p' /\
    process_paragraph py_repr content p' = Done p' /\
    PyStr.contains "{{" (paragraph_text p') && PyStr.contains "}}" (paragraph_text p') = false.
Proof.
  destruct (process_paragraph_Done py_repr content p) as (t & Ht & Hp).
  eexists. split; [exact Hp|].
  destruct (process_paragraph_Done py_repr content
              {| para_font := para_font p;
                 runs := match runs p with
                         | [] => []
                         | run0 :: rest =>
                             {| run_text := escape t; run_font := run_font run0 |}
                             :: ((fun run => {| run_text := ""; run_font := run_font run |})
                                   <$> rest)
                         end |}) as (t' & Ht' & Hp').
  cbn [runs para_font] in Ht', Hp'. destruct (runs p) as [|run0 rest].
  - split; [exact Hp' | done].
  - apply resolve_text_done in Ht.
    rewrite fmap_cons, join_empty_cons, join_cleared, append_empty_r in Ht'.
    cbn [run_text] in Ht'. rewrite (resolve_text_escaped _ _ _ Ht) in Ht'.
    injection Ht' as <-. split.
    + rewrite Hp', escape_escape. cbn [run_font]. do 3 f_equal.
      rewrite <- list_fmap_compose. by apply list_fmap_ext.
    + unfold paragraph_text. cbn [runs].
      rewrite fmap_cons, join_empty_cons, join_cleared, append_empty_r.
      cbn [run_text]. by rewrite markers_escape.
Qed.

(** C7.  Whatever content map is built for a record binds [jobid] and
    [jobdate] to the job identifier and the generation timestamp, also when
    the record's own content has keys of these names. *)
Theorem record_content_injects_job_keys (json_loads : string -> json + exn)
    (jobid jobdate : string) (r : record) (content : dict) :
  record_content json_loads jobid jobdate r = Done (Some content) ->
  dict_get "jobid" content = Some (JStr jobid) /\
  dict_get "jobdate" content = Some (JStr jobdate).
Proof.
  intros (entries & -> & _)%record_content_Some.
  split.
  - by rewrite dict_get_set_ne, dict_get_set_eq.
  - by rewrite dict_get_set_eq.
Qed.

(** C8, as the code has it.  A record whose [jeschro_content] is a string
    that [json.loads] rejects with [JSONDecodeError], the one exception the
    handler catches, is skipped: the batch gives what it gives without that
    record, so the record changes no slide, raises nothing, and the records
    after it are processed. *)
Theorem undecodable_record_skipped (py_repr : json -> string)
    (json_loads : string -> json + exn) (PPTX_TABLE_STYLE_ID : option string)
    (fuel : nat) (jobid jobdate : string) (before after : list record) (r : record)
    (text : string) (prs : Presentation) :
  jeschro_content r = Some (JStr text) ->
  json_loads text = inr JSONDecodeError ->
  generate_ppt py_repr json_loads PPTX_TABLE_STYLE_ID fuel jobid jobdate
    (before ++ r :: after) prs
  = generate_ppt py_repr json_loads PPTX_TABLE_STYLE_ID fuel jobid jobdate
      (before ++ after) prs.
Proof.
  intros Hfield Hdecode. unfold generate_ppt. rewrite !for_each_app.
  destruct (for_each _ before prs) as [prs1| |]; cbn [mbind outcome_bind for_each]; [|done..].
  unfold record_content. by rewrite Hfield, Hdecode.
Qed.

(** C9, as the code has it.  Text resolution of a paragraph returns.  The
    resolved text holds no pair of markers any more, and is the paragraph's
    text itself when that held none.  With at least one run, the first run
    gets the resolved text as the run's text setter stores it, every control
    character escaped as [_xHHHH_] (so the resolved text itself when it has
    none), and every later run the empty text, each keeping its font; with no
    run, the paragraph is returned as it was. *)
Theorem process_paragraph_collapses_runs (py_repr : json -> string) (content : dict)
    (p : Paragraph) :
  exists t,
    resolve_text py_repr content (PyStr.join "" (run_text <$> runs p)) = Done t /\
    PyStr.contains "{{" t && PyStr.contains "}}" t = false /\
    (PyStr.contains "{{" (PyStr.join "" (run_text <$> runs p))
     && PyStr.contains "}}" (PyStr.join "" (run_text <$> runs p)) = false ->
     t = PyStr.join "" (run_text <$> runs p)) /\
    (plain t = true -> escape t = t) /\
    match runs p with
    | [] => process_paragraph py_repr content p = Done p
    | run0 :: rest =>
        process_paragraph py_repr content p =
          Done {| para_font := para_font p;
                  runs := {| run_text := escape t; run_font := run_font run0 |}
                          :: ((fun run => {| run_text := ""; run_font := run_font run |})
                                <$> rest) |}
    end.
Proof.
  destruct (process_paragraph_Done py_repr content p) as (t & Ht & Hp).
  exists t. split_and!.
  - done.
  - by apply resolve_text_done in Ht.
  - intros Hnone. unfold resolve_text in Ht.
    rewrite substitute_known_stable, substitute_missing_stable in Ht by done.
    by injection Ht.
  - apply escape_plain.
  - destruct p as [font [|run0 rest]]; exact Hp.
Qed.

(** C10.  In a pass of the table loop over a slide, every table shape is
    handed to [process_table_placeholder] whatever its anchor cell reads: the
    name is the anchor text without its first 8 and last 2 characters, and
    every table of the slide whose name is not bound to a non-empty list is
    left with [n/a] in its anchor cell. *)
Theorem unbound_tables_marked_no_data (py_repr : json -> string)
    (PPTX_TABLE_STYLE_ID : option string) (fuel : nat) (content : dict)
    (slide slide' : Slide) (frame : GraphicFrame) (anchor : Cell) :
  table_loop py_repr PPTX_TABLE_STYLE_ID fuel content 0 slide = Done slide' ->
  TableShape frame ∈ shapes slide ->
  table_cell (table frame) 0 0 = Done anchor ->
  (forall first rest,
     dict_get (PyStr.strip (PyStr.slice (cell_text anchor) 8 (-2))) content
     <> Some (JList (first :: rest))) ->
  exists frame' anchor',
    TableShape frame' ∈ shapes slide' /\
    (left frame', top frame', width frame', height frame')
      = (left frame, top frame, width frame, height frame) /\
    table frame'
      = set_table_font_size
          {| rows := alter (fun row => {| cells := <[0%nat := text_cell "n/a"]> (cells row) |})
                       0%nat (rows (table frame));
             style_id := style_id (table frame) |} 11 /\
    table_cell (table frame') 0 0 = Done anchor' /\
    cell_text anchor' = "n/a".
Proof.
  intros Hrun Hin Hanchor Hunbound. destruct slide as [l].
  apply (table_loop_visits _ _ _ _ [] l) in Hrun as (todo' & Hshapes & Hmarked).
  specialize (Hmarked frame anchor Hin Hanchor Hunbound).
  eexists _, _. split_and!.
  - rewrite Hshapes. exact Hmarked.
  - done.
  - done.
  - apply table_cell_each_run. by apply (cell_lookup_same _ _ _ _ anchor).
  - by rewrite cell_text_with_size, cell_text_text_cell.
Qed.

(** * Examples and counterexamples *)

(** C1 fails as stated: the anchor of the sample placeholder is set in 18 pt
    bold, and the runs of the table that replaces it are 11 pt with no bold
    flag. *)
Lemma captured_font_not_applied :
  exists slide' new_frame anchor,
    process_table_placeholder Samples.repr None 0 (Samples.placeholder "items")
      Samples.content Samples.slide = Done (slide', Removed) /\
    shapes slide' = [OtherShape; TableShape new_frame] /\
    table_cell (table (Samples.placeholder "items")) 0 0 = Done anchor /\
    para_font <$> paragraphs (cell_frame anchor)
      = [{| size := Some (Pt 18); bold := Some true |}] /\
    run_font <$> table_runs (table new_frame)
      = replicate 6 {| size := Some (Pt 11); bold := None |}.
Proof. eexists _, _, _. split_and!; vm_compute; reflexivity. Qed.

Lemma new_table_runs_get_fixed_size_witness :
  exists slide',
    process_table_placeholder Samples.repr None 0 (Samples.placeholder "items")
      Samples.content Samples.slide = Done (slide', Removed) /\
    exists new_table,
      shapes slide' = delete 0%nat (shapes Samples.slide) ++
        [TableShape {| left := 100; top := 200; width := 3000; height := 400;
                       table := new_table |}] /\
      Forall (fun run => size (run_font run) = Some (Pt 11)) (table_runs new_table).
Proof.
  eexists. split; [vm_compute; reflexivity|].
  apply (new_table_runs_get_fixed_size Samples.repr None 0 (Samples.placeholder "items")
           Samples.content Samples.slide).
  vm_compute. reflexivity.
Defined.

(** C2 fails as stated: on the sample slide the placeholder is followed by
    another shape, so the walk over the slide's own shapes reaches the table
    it has just added and overwrites its first header with [n/a]; a walk over
    a snapshot would leave the header [a]. *)
Lemma table_loop_is_not_over_snapshot :
  exists live snap live_frame snap_frame live_anchor snap_anchor,
    table_loop Samples.repr None 3 Samples.content 0 Samples.slide = Done live /\
    table_loop_snapshot Samples.repr None Samples.content (shapes Samples.slide) 0
      Samples.slide = Done snap /\
    shapes live = [OtherShape; TableShape live_frame] /\
    shapes snap = [OtherShape; TableShape snap_frame] /\
    table_cell (table live_frame) 0 0 = Done live_anchor /\
    table_cell (table snap_frame) 0 0 = Done snap_anchor /\
    cell_text live_anchor = "n/a" /\
    cell_text snap_anchor = "a".
Proof. eexists _, _, _, _, _, _. split_and!; vm_compute; reflexivity. Qed.

Lemma table_loop_agrees_with_snapshot_without_expansion_witness :
  (forall frame anchor entries rest,
     TableShape frame ∈ shapes Samples.closing_slide ->
     table_cell (table frame) 0 0 = Done anchor ->
     dict_get (placeholder_name_of anchor) [("prices", JList [JInt 1])]
     <> Some (JList (JDict entries :: rest))) /\
  (length (shapes Samples.closing_slide) <= 3)%nat /\
  table_loop Samples.repr None 3 [("prices", JList [JInt 1])] 0 Samples.closing_slide
  = table_loop_snapshot Samples.repr None [("prices", JList [JInt 1])]
      (shapes Samples.closing_slide) 0 Samples.closing_slide.
Proof.
  assert (forall frame anchor entries rest,
            TableShape frame ∈ shapes Samples.closing_slide ->
            table_cell (table frame) 0 0 = Done anchor ->
            dict_get (placeholder_name_of anchor) [("prices", JList [JInt 1])]
            <> Some (JList (JDict entries :: rest))) as Hkeep.
  { intros frame anchor entries rest Hin Hanchor. cbn [shapes Samples.closing_slide] in Hin.
    repeat (apply elem_of_cons in Hin as [Hin|Hin]); [| |  |by apply elem_of_nil in Hin];
      simplify_eq; injection Hanchor as <-; vm_compute; discriminate. }
  split_and!; [exact Hkeep | cbn; lia |].
  apply (table_loop_agrees_with_snapshot_without_expansion Samples.repr None 3
           [("prices", JList [JInt 1])] Samples.closing_slide Hkeep).
  cbn. lia.
Defined.

Lemma fallback_mangles_unmatched_open_marker_witness :
  PyStr.contains "{{" "}}{{x" = true /\
  PyStr.contains "}}" "}}{{x" = true /\
  PyStr.find "}}{{x" "}}" (Z.to_nat (PyStr.find "}}{{x" "{{" 0)) = (-1)%Z /\
  resolve_text Samples.repr [] "}}{{x" = Done (PyStr.replace "}}{{x" "" "n/a") /\
  PyStr.replace "}}{{x" "" "n/a" = "n/a}n/a}n/a{n/a{n/axn/a".
Proof.
  split_and!; [reflexivity | reflexivity | reflexivity | | reflexivity].
  apply (fallback_mangles_unmatched_open_marker Samples.repr "}}{{x"); reflexivity.
Defined.

(** C4 fails as stated: the second cell of the sample placeholder has a run
    in 18 pt, which the no-data path turns into 11 pt. *)
Lemma no_data_restyles_other_cells :
  exists t' before after,
    process_table_placeholder Samples.repr None 0 (Samples.placeholder_with_note "prices")
      Samples.content Samples.note_slide
    = Done ({| shapes := [TableShape {| left := 100; top := 200; width := 3000;
                                       height := 400; table := t' |}] |}, InPlace) /\
    table_cell (table (Samples.placeholder_with_note "prices")) 0 1 = Done before /\
    table_cell t' 0 1 = Done after /\
    run_font <$> (paragraphs (cell_frame before) ≫= runs)
      = [{| size := Some (Pt 18); bold := None |}] /\
    run_font <$> (paragraphs (cell_frame after) ≫= runs)
      = [{| size := Some (Pt 11); bold := None |}].
Proof. eexists _, _, _. split_and!; vm_compute; reflexivity. Qed.

Lemma no_data_placeholder_kept_and_restyled_witness :
  exists anchor,
    table_cell (table (Samples.placeholder_with_note "prices")) 0 0 = Done anchor /\
    (forall first rest,
       dict_get (placeholder_name_of anchor) Samples.content <> Some (JList (first :: rest))) /\
    exists t',
      process_table_placeholder Samples.repr None 0 (Samples.placeholder_with_note "prices")
        Samples.content Samples.note_slide
        = Done ({| shapes := <[0%nat := TableShape {| left := 100; top := 200; width := 3000;
                                                      height := 400; table := t' |}]>
                               (shapes Samples.note_slide) |},
                InPlace) /\
      (exists anchor', table_cell t' 0 0 = Done anchor' /\ cell_text anchor' = "n/a") /\
      (forall r c cell,
         (r, c) <> (0, 0)%nat ->
         table_cell (table (Samples.placeholder_with_note "prices")) r c = Done cell ->
         table_cell t' r c = Done (cell_each_run (with_size 11) cell) /\
         cell_text (cell_each_run (with_size 11) cell) = cell_text cell) /\
      (fun row => length (cells row)) <$> rows t'
        = (fun row => length (cells row))
            <$> rows (table (Samples.placeholder_with_note "prices")) /\
      style_id t' = style_id (table (Samples.placeholder_with_note "prices")) /\
      Forall (fun run => size (run_font run) = Some (Pt 11)) (table_runs t').
Proof.
  eexists.
  assert (table_cell (table (Samples.placeholder_with_note "prices")) 0 0
          = Done (Samples.cell_of Samples.heading_font "{{TABLE:prices}}")) as Hanchor
    by reflexivity.
  assert (forall first rest,
            dict_get (placeholder_name_of
                        (Samples.cell_of Samples.heading_font "{{TABLE:prices}}"))
              Samples.content <> Some (JList (first :: rest))) as Hunbound
    by (intros first rest; vm_compute; discriminate).
  split_and!; [exact Hanchor | exact Hunbound |].
  exact (no_data_placeholder_kept_and_restyled Samples.repr None 0
           (Samples.placeholder_with_note "prices") Samples.content Samples.note_slide
           _ Hanchor Hunbound).
Defined.

(** C5 fails as stated: the first element of the array is a record, but a
    later element that is not a record has no [get], and the call raises. *)
Lemma expansion_raises_on_later_non_record :
  process_table_placeholder Samples.repr None 0 (Samples.placeholder "items")
    [("items", JList [JDict [("a", JInt 1)]; JInt 5])] Samples.slide
  = Raised AttributeError.
Proof. vm_compute. reflexivity. Qed.

(** A first element without keys asks [add_table] for a table of no columns,
    which it cannot size. *)
Example expansion_raises_on_keyless_first :
  process_table_placeholder Samples.repr None 0 (Samples.placeholder "items")
    [("items", JList [JDict []])] Samples.slide
  = Raised ZeroDivisionError.
Proof. vm_compute. reflexivity. Qed.

Lemma expanded_table_contents_witness :
  exists anchor first records,
    table_cell (table (Samples.placeholder "items")) 0 0 = Done anchor /\
    paragraphs (cell_frame anchor) <> [] /\
    dict_get (placeholder_name_of anchor) Samples.content
      = Some (JList (JDict <$> first :: records)) /\
    first <> [] /\
    Forall (fun header => plain header = true) (dict_keys first) /\
    Forall (fun d =>
              Forall (fun header =>
                        plain (py_str Samples.repr (default (JStr "") (dict_get header d)))
                        = true)
                (dict_keys first)) (first :: records) /\
    exists new_table,
      process_table_placeholder Samples.repr None 0 (Samples.placeholder "items")
        Samples.content Samples.slide
        = Done ({| shapes := delete 0%nat (shapes Samples.slide) ++
                     [TableShape {| left := 100; top := 200; width := 3000; height := 400;
                                    table := new_table |}] |}, Removed) /\
      length (rows new_table) = (length (first :: records) + 1)%nat /\
      Forall (fun row => length (cells row) = length (dict_keys first)) (rows new_table) /\
      (fun row => cell_text <$> cells row) <$> rows new_table
        = dict_keys first
          :: ((fun d => (fun h => py_str Samples.repr (default (JStr "") (dict_get h d)))
                          <$> dict_keys first) <$> first :: records).
Proof.
  exists (Samples.cell_of Samples.heading_font "{{TABLE:items}}"),
         [("a", JInt 1); ("b", JInt 2)], [[("a", JInt 3); ("b", JInt 4)]].
  assert (table_cell (table (Samples.placeholder "items")) 0 0
          = Done (Samples.cell_of Samples.heading_font "{{TABLE:items}}")) as Hanchor
    by reflexivity.
  assert (paragraphs (cell_frame (Samples.cell_of Samples.heading_font "{{TABLE:items}}"))
          <> []) as Hpara by discriminate.
  assert (dict_get (placeholder_name_of
                      (Samples.cell_of Samples.heading_font "{{TABLE:items}}"))
            Samples.content
          = Some (JList (JDict <$> [("a", JInt 1); ("b", JInt 2)]
                                   :: [[("a", JInt 3); ("b", JInt 4)]]))) as Hget
    by (vm_compute; reflexivity).
  assert ([("a", JInt 1); ("b", JInt 2)] <> ([] : dict)) as Hfirst by discriminate.
  assert (Forall (fun header => plain header = true)
            (dict_keys [("a", JInt 1); ("b", JInt 2)])) as Hheaders
    by (repeat constructor).
  assert (Forall (fun d =>
                    Forall (fun header =>
                              plain (py_str Samples.repr
                                       (default (JStr "") (dict_get header d))) = true)
                      (dict_keys [("a", JInt 1); ("b", JInt 2)]))
            ([("a", JInt 1); ("b", JInt 2)] :: [[("a", JInt 3); ("b", JInt 4)]])) as Hvalues
    by (repeat constructor).
  split_and!;
    [exact Hanchor | exact Hpara | exact Hget | exact Hfirst | exact Hheaders
     | exact Hvalues |].
  exact (expanded_table_contents Samples.repr None 0 (Samples.placeholder "items")
           Samples.content Samples.slide _ _ _ Hanchor Hpara Hget Hfirst Hheaders Hvalues).
Defined.

(** The example of the specification: the array
    [[{"a": 1, "b": 2}, {"a": 3, "b": 4}]] gives a table of 3 rows and 2
    columns reading [a b], [1 2], [3 4]. *)
Example expanded_table_of_two_records :
  exists slide' new_frame,
    process_table_placeholder Samples.repr None 0 (Samples.placeholder "items")
      Samples.content Samples.slide = Done (slide', Removed) /\
    shapes slide' = [OtherShape; TableShape new_frame] /\
    (fun row => cell_text <$> cells row) <$> rows (table new_frame)
      = [["a"; "b"]; ["1"; "2"]; ["3"; "4"]].
Proof. eexists _, _. split_and!; vm_compute; reflexivity. Qed.

Lemma record_content_injects_job_keys_witness :
  record_content Samples.loads "J1" Samples.jobdate Samples.object_record
    = Done (Some [("jobid", JStr "J1"); ("jobdate", JStr Samples.jobdate)]) /\
  dict_get "jobid" [("jobid", JStr "J1"); ("jobdate", JStr Samples.jobdate)]
    = Some (JStr "J1") /\
  dict_get "jobdate" [("jobid", JStr "J1"); ("jobdate", JStr Samples.jobdate)]
    = Some (JStr Samples.jobdate).
Proof.
  assert (record_content Samples.loads "J1" Samples.jobdate Samples.object_record
          = Done (Some [("jobid", JStr "J1"); ("jobdate", JStr Samples.jobdate)]))
    as Hrun by (vm_compute; reflexivity).
  split; [exact Hrun|].
  exact (record_content_injects_job_keys Samples.loads "J1" Samples.jobdate
           Samples.object_record _ Hrun).
Defined.

(** C8 fails as stated: a record whose [jeschro_content] is [null] cannot be
    deserialized either, but [json.loads] raises [TypeError] for it, which the
    handler does not catch; the batch stops and the record after it is not
    rendered. *)
Lemma null_field_aborts_batch :
  generate_ppt Samples.repr Samples.loads None 4 "J1" Samples.jobdate
    [Decks.null_record; Samples.items_record] Samples.template
  = Raised TypeError.
Proof. reflexivity. Qed.

Lemma undecodable_record_skipped_witness :
  exists prs',
    jeschro_content Samples.broken_record = Some (JStr "{") /\
    Samples.loads "{" = inr JSONDecodeError /\
    generate_ppt Samples.repr Samples.loads None 4 "J1" Samples.jobdate
      ([] ++ Samples.broken_record :: [Samples.items_record]) Samples.template
    = generate_ppt Samples.repr Samples.loads None 4 "J1" Samples.jobdate
        ([] ++ [Samples.items_record]) Samples.template /\
    generate_ppt Samples.repr Samples.loads None 4 "J1" Samples.jobdate
      ([] ++ Samples.broken_record :: [Samples.items_record]) Samples.template
    = Done prs' /\
    length (rows (table (Samples.placeholder "items"))) = 1%nat /\
    exists frame', slides prs' = [{| shapes := [TableShape frame'] |}] /\
                   length (rows (table frame')) = 3%nat.
Proof.
  assert (jeschro_content Samples.broken_record = Some (JStr "{")) as Hfield by reflexivity.
  assert (Samples.loads "{" = inr JSONDecodeError) as Hdecode by reflexivity.
  eexists. split_and!; [exact Hfield | exact Hdecode | | vm_compute; reflexivity | reflexivity |].
  - exact (undecodable_record_skipped Samples.repr Samples.loads None 4 "J1"
             Samples.jobdate [] [Samples.items_record]
             Samples.broken_record "{" Samples.template Hfield Hdecode).
  - eexists. split; reflexivity.
Defined.

(** C9 fails as stated: the value bound to [note] holds a carriage return;
    the resolved text holds it too, but the first run gets the text with the
    carriage return escaped. *)
Lemma first_run_holds_escaped_text :
  exists p',
    resolve_text Samples.repr Decks.note_content
      (PyStr.join "" (run_text <$> runs Decks.note_paragraph))
    = Done (String "a" (String "013" "b")) /\
    process_paragraph Samples.repr Decks.note_content Decks.note_paragraph = Done p' /\
    run_text <$> runs p' = ["a_x000D_b"] /\
    "a_x000D_b" <> String "a" (String "013" "b").
Proof. eexists. split_and!; [vm_compute; reflexivity.. | discriminate]. Qed.

Lemma unbound_tables_marked_no_data_witness :
  exists slide' anchor,
    table_loop Samples.repr None 4 Samples.content 0 Samples.mixed_slide = Done slide' /\
    TableShape Samples.ordinary_table ∈ shapes Samples.mixed_slide /\
    table_cell (table Samples.ordinary_table) 0 0 = Done anchor /\
    (forall first rest,
       dict_get (PyStr.strip (PyStr.slice (cell_text anchor) 8 (-2))) Samples.content
       <> Some (JList (first :: rest))) /\
    exists frame' anchor',
      TableShape frame' ∈ shapes slide' /\
      (left frame', top frame', width frame', height frame')
        = (left Samples.ordinary_table, top Samples.ordinary_table,
           width Samples.ordinary_table, height Samples.ordinary_table) /\
      table frame'
        = set_table_font_size
            {| rows := alter (fun row => {| cells := <[0%nat := text_cell "n/a"]> (cells row) |})
                         0%nat (rows (table Samples.ordinary_table));
               style_id := style_id (table Samples.ordinary_table) |} 11 /\
      table_cell (table frame') 0 0 = Done anchor' /\
      cell_text anchor' = "n/a".
Proof.
  eexists _, _.
  assert (TableShape Samples.ordinary_table ∈ shapes Samples.mixed_slide) as Hin
    by (apply elem_of_cons; right; apply elem_of_cons; by left).
  assert (table_cell (table Samples.ordinary_table) 0 0
          = Done (Samples.cell_of no_font "Name")) as Hanchor by reflexivity.
  assert (forall first rest,
            dict_get (PyStr.strip (PyStr.slice (cell_text (Samples.cell_of no_font "Name"))
                                     8 (-2))) Samples.content
            <> Some (JList (first :: rest))) as Hunbound
    by (intros first rest; vm_compute; discriminate).
  split; [vm_compute; reflexivity|].
  split_and!; [exact Hin | exact Hanchor | exact Hunbound |].
  eapply (unbound_tables_marked_no_data Samples.repr None 4 Samples.content
            Samples.mixed_slide _ Samples.ordinary_table _ _ Hin Hanchor Hunbound).
  Unshelve. vm_compute. reflexivity.
Defined.

(** A table generated for one record is a table like any other for the
    next: rendering the same record twice leaves [n/a] where the first
    rendering had put the header [a]. *)
Example second_record_marks_generated_table :
  exists once twice frame1 frame2 anchor1 anchor2,
    generate_ppt Samples.repr Samples.loads None 4 "J1" Samples.jobdate
      [Samples.items_record] Samples.template = Done once /\
    generate_ppt Samples.repr Samples.loads None 4 "J1" Samples.jobdate
      [Samples.items_record; Samples.items_record] Samples.template = Done twice /\
    slides once = [{| shapes := [TableShape frame1] |}] /\
    slides twice = [{| shapes := [TableShape frame2] |}] /\
    table_cell (table frame1) 0 0 = Done anchor1 /\
    table_cell (table frame2) 0 0 = Done anchor2 /\
    cell_text anchor1 = "a" /\
    cell_text anchor2 = "n/a".
Proof. eexists _, _, _, _, _, _. split_and!; vm_compute; reflexivity. Qed.

(** * Further facts *)

(** ** Tokens in text without other braces *)
Module TokenFacts.
Import PyStr PyStrFacts ResolverFacts.

Lemma contains_char_cons (c d : ascii) (s : string) :
  contains (String c "") (String d s) = bool_decide (c = d) || contains (String c "") s.
Proof.
  rewrite contains_cons. case_bool_decide as H.
  - subst. rewrite prefix_eq. by destruct s.
  - by rewrite prefix_neq.
Qed.

Lemma contains_char_app (c : ascii) (a b : string) :
  contains (String c "") (a +:+ b) = contains (String c "") a || contains (String c "") b.
Proof.
  induction a as [|d a IH]; [done|].
  by rewrite append_cons, !contains_char_cons, IH, orb_assoc.
Qed.

Lemma contains_first_char (c : ascii) (t s : string) :
  contains (String c t) s = true -> contains (String c "") s = true.
Proof.
  rewrite !contains_spec. intros (x & y & ->). exists x, (t +:+ y).
  by rewrite !append_cons, append_empty_l.
Qed.

Lemma free_head (c d : ascii) (s : string) :
  contains (String c "") (String d s) = false -> c <> d /\ contains (String c "") s = false.
Proof.
  rewrite contains_char_cons, orb_false_iff. intros [H ?]. split; [|done].
  by apply bool_decide_eq_false in H.
Qed.

Lemma contains_skip_free (c : ascii) (t a r : string) :
  contains (String c "") a = false ->
  contains (String c t) (a +:+ r) = contains (String c t) r.
Proof.
  induction a as [|d a IH]; [done|]. intros [Hne Ha]%free_head.
  by rewrite (append_cons d a), contains_cons, prefix_neq, IH.
Qed.

Lemma index_of_free_prefix (c : ascii) (t a b : string) :
  contains (String c "") a = false ->
  index_of (String c t) (a +:+ String c t +:+ b) = Some (String.length a).
Proof.
  induction a as [|d a IH].
  - intros _. rewrite append_empty_l, append_cons. cbn [index_of].
    rewrite prefix_eq. replace (String.prefix t (t +:+ b)) with true; [done|].
    symmetry. apply prefix_spec. eauto.
  - intros [Hne Ha]%free_head. rewrite (append_cons d a). cbn [index_of].
    rewrite prefix_neq, IH by done. done.
Qed.

Lemma replace_scan_skip (old new x b : string) :
  replace_scan old new (String.length x) (x +:+ b) = replace_scan old new 0 b.
Proof.
  induction x as [|d x IH]; [done|]. by rewrite append_cons.
Qed.

Lemma replace_scan_absent (old new s : string) :
  contains old s = false -> replace_scan old new 0 s = s.
Proof.
  induction s as [|d s IH]; [done|].
  rewrite contains_cons, orb_false_iff. intros [Hp Hs].
  cbn [replace_scan]. by rewrite Hp, IH.
Qed.

Lemma replace_scan_at_first (c : ascii) (t new a b : string) :
  contains (String c "") a = false ->
  replace_scan (String c t) new 0 (a +:+ String c t +:+ b)
  = a +:+ new +:+ replace_scan (String c t) new 0 b.
Proof.
  induction a as [|d a IH].
  - intros _. rewrite !append_empty_l, append_cons. cbn [replace_scan].
    rewrite prefix_eq. replace (String.prefix t (t +:+ b)) with true
      by (symmetry; apply prefix_spec; eauto).
    cbn [String.length Nat.sub]. by rewrite ?Nat.sub_0_r, replace_scan_skip.
  - intros [Hne Ha]%free_head. rewrite !(append_cons d a). cbn [replace_scan].
    rewrite prefix_neq, IH by done. done.
Qed.

Lemma take_chars_app (x y : string) : take_chars (String.length x) (x +:+ y) = x.
Proof. induction x as [|d x IH]; [by destruct y|]. rewrite append_cons. cbn. by rewrite IH. Qed.

Lemma drop_chars_app (x y : string) : drop_chars (String.length x) (x +:+ y) = y.
Proof. induction x as [|d x IH]; [by destruct y|]. by rewrite append_cons. Qed.

(** With no brace in [name] and no close brace in [b], only the token of
    [name] starts [name}}b]. *)
Lemma token_tail_name (k name b : string) :
  contains "{" name = false -> contains "}" name = false -> contains "}" b = false ->
  String.prefix (k +:+ "}}") (name +:+ "}}" +:+ b) = true -> k = name.
Proof.
  intros _ Hname Hb. revert k. induction name as [|n name IH]; intros k.
  - rewrite append_empty_l. destruct k as [|c k]; [done|].
    rewrite !append_cons, append_empty_l. intros [-> Hk]%prefix_cons.
    destruct k as [|c' k].
    + rewrite append_empty_l in Hk. apply prefix_cons in Hk as [_ Hk].
      destruct b as [|d b]; [done|]. apply prefix_cons in Hk as [<- _].
      by rewrite contains_char_cons, bool_decide_true in Hb.
    + rewrite append_cons in Hk. apply prefix_cons in Hk as [-> Hk].
      apply prefix_spec in Hk as [r ->].
      rewrite !contains_char_app in Hb. cbn in Hb.
      by rewrite orb_true_r in Hb.
  - apply free_head in Hname as [Hn Hname]. rewrite append_cons.
    destruct k as [|c k].
    + rewrite append_empty_l. by intros [? _]%prefix_cons.
    + rewrite append_cons. intros [-> Hk]%prefix_cons. f_equal. by apply IH.
Qed.

(** In [a{{name}}b] with no other brace, the only token is the one of
    [name]. *)
Lemma token_occurs_only_for_its_name (a name b k : string) :
  contains "{" a = false ->
  contains "{" name = false -> contains "}" name = false ->
  contains "{" b = false -> contains "}" b = false ->
  contains ("{{" +:+ k +:+ "}}") (a +:+ "{{" +:+ name +:+ "}}" +:+ b) = true ->
  k = name.
Proof.
  intros Ha Hn1 Hn2 Hb1 Hb2.
  assert (contains "{" (name +:+ "}}" +:+ b) = false) as Hfree.
  { rewrite !contains_char_app, Hn1, Hb1. done. }
  remember (name +:+ "}}" +:+ b) as X eqn:HX.
  change ("{{" +:+ X) with (String "{" (String "{" X)).
  change ("{{" +:+ k +:+ "}}") with (String "{" (String "{" (k +:+ "}}"))).
  rewrite contains_skip_free by done.
  rewrite !contains_cons, !prefix_eq.
  assert (contains (String "{" (String "{" (k +:+ "}}"))) X = false) as ->.
  { apply not_true_is_false. intros Hin%contains_first_char. congruence. }
  assert (String.prefix (String "{" (k +:+ "}}")) X = false) as ->.
  { destruct X as [|x X']; [done|].
    apply free_head in Hfree as [Hx _]. by apply prefix_neq. }
  rewrite !orb_false_r. subst X. by apply token_tail_name.
Qed.

(** Replacing the token of [a{{name}}b]. *)
Lemma replace_token (a name b new : string) :
  contains "{" a = false -> contains "{" b = false ->
  replace (a +:+ "{{" +:+ name +:+ "}}" +:+ b) ("{{" +:+ name +:+ "}}") new
  = a +:+ new +:+ b.
Proof.
  intros Ha Hb.
  assert (a +:+ "{{" +:+ name +:+ "}}" +:+ b
          = a +:+ String "{" (String "{" (name +:+ "}}")) +:+ b) as ->.
  { f_equal. change (String "{" (String "{" (name +:+ "}}"))) with ("{{" +:+ name +:+ "}}").
    by rewrite !append_assoc. }
  change ("{{" +:+ name +:+ "}}") with (String "{" (String "{" (name +:+ "}}"))).
  cbn [replace].
  rewrite replace_scan_at_first, replace_scan_absent; [done| |done].
  apply not_true_is_false. intros Hin%contains_first_char. congruence.
Qed.

(** One round of the fallback loop on [a{{name}}b]. *)
Lemma replace_first_missing_token (a name b : string) :
  contains "{" a = false -> contains "}" name = false -> contains "{" b = false ->
  replace_first_missing (a +:+ "{{" +:+ name +:+ "}}" +:+ b) = a +:+ "n/a" +:+ b.
Proof.
  intros Ha Hn Hb. unfold replace_first_missing.
  set (s := a +:+ "{{" +:+ name +:+ "}}" +:+ b).
  assert (String.length s = (String.length a + (String.length name + 4) + String.length b)%nat)
    as Hlen.
  { unfold s. rewrite !length_append. cbn. lia. }
  assert (index_of "{{" s = Some (String.length a)) as Hopen.
  { apply (index_of_free_prefix "{" "{" a (name +:+ "}}" +:+ b) Ha). }
  assert (drop_chars (String.length a) s = ("{{" +:+ name) +:+ "}}" +:+ b) as Hdrop.
  { unfold s. by rewrite drop_chars_app, !append_assoc. }
  assert (index_of "}}" (drop_chars (String.length a) s) = Some (String.length name + 2)%nat)
    as Hclose.
  { rewrite Hdrop.
    rewrite (index_of_free_prefix "}" "}" ("{{" +:+ name) b).
    - rewrite length_append. cbn. f_equal. lia.
    - rewrite contains_char_app, Hn. done. }
  rewrite (find_index_of s "{{" 0), drop_chars_0, Hopen by lia. cbn [Nat.add].
  rewrite Nat2Z.id, (find_index_of s "}}" (String.length a)), Hclose by lia.
  replace (Z.of_nat (String.length a + (String.length name + 2)) + 2)%Z
    with (Z.of_nat (String.length a + (String.length name + 4))) by lia.
  rewrite slice_between by lia.
  replace (String.length a + (String.length name + 4) - String.length a)%nat
    with (String.length ("{{" +:+ name +:+ "}}"))
    by (rewrite !length_append; cbn; lia).
  assert (drop_chars (String.length a) s = ("{{" +:+ name +:+ "}}") +:+ b) as ->.
  { unfold s. by rewrite drop_chars_app, !append_assoc. }
  rewrite take_chars_app. by apply replace_token.
Qed.

Section WithRepr.
Variable py_repr : json -> string.

(** The substitution loop on [a{{name}}b]: the value of [name] stands for
    the token, and no other key applies. *)
Lemma substitute_known_token (content : dict) (a name b : string) :
  contains "{" a = false ->
  contains "{" name = false -> contains "}" name = false ->
  contains "{" b = false -> contains "}" b = false ->
  (forall v, dict_get name content = Some v -> contains "{" (py_str py_repr v) = false) ->
  substitute_known py_repr content (a +:+ "{{" +:+ name +:+ "}}" +:+ b)
  = match dict_get name content with
    | Some v => a +:+ py_str py_repr v +:+ b
    | None => a +:+ "{{" +:+ name +:+ "}}" +:+ b
    end.
Proof.
  intros Ha Hn1 Hn2 Hb1 Hb2. unfold substitute_known.
  induction content as [|[k w] content IH]; intros Hvalue; [done|].
  cbn [foldl dict_get]. destruct (decide (k = name)) as [->|Hne].
  - replace (contains ("{{" +:+ name +:+ "}}") (a +:+ "{{" +:+ name +:+ "}}" +:+ b))
      with true.
    2:{ symmetry. apply contains_spec. exists a, b. by rewrite !append_assoc. }
    assert (contains "{" (py_str py_repr w) = false) as Hw.
    { apply Hvalue. cbn [dict_get]. by rewrite decide_True. }
    assert (replace (a +:+ "{{" +:+ name +:+ "}}" +:+ b) ("{{" +:+ name +:+ "}}")
              (py_str py_repr w) = a +:+ py_str py_repr w +:+ b) as ->.
    { by apply replace_token. }
    apply (substitute_known_stable py_repr).
    replace (contains "{{" (a +:+ py_str py_repr w +:+ b)) with false; [done|].
    symmetry. apply not_true_is_false. intros Hin%contains_first_char.
    rewrite !contains_char_app, Ha, Hw, Hb1 in Hin. done.
  - replace (contains ("{{" +:+ k +:+ "}}") (a +:+ "{{" +:+ name +:+ "}}" +:+ b))
      with false.
    2:{ symmetry. apply not_true_is_false. intros Hin.
        by apply token_occurs_only_for_its_name in Hin. }
    apply IH. intros v Hv. apply Hvalue. cbn [dict_get]. by rewrite decide_False.
Qed.

End WithRepr.
End TokenFacts.

(** ** Text passes over slides *)
Module SlideFacts.
Import PyStr PyStrFacts ResolverFacts EscapeFacts TableFacts RenderFacts.

Lemma map_outcome_Forall2 {A B : Type} (f : A -> outcome B) (R : A -> B -> Prop)
    (l : list A) :
  (forall x, exists y, f x = Done y /\ R x y) ->
  exists l', map_outcome f l = Done l' /\ Forall2 R l l'.
Proof.
  intros Hf. induction l as [|x l (l' & Hl & HR)]; [by exists []|].
  destruct (Hf x) as (y & Hy & Hxy). exists (y :: l'). cbn [map_outcome].
  rewrite Hy, Hl. split; [done | by constructor].
Qed.

Lemma map_outcome_Done {A B : Type} (f : A -> outcome B) (R : A -> B -> Prop)
    (l : list A) (l' : list B) :
  (forall x y, f x = Done y -> R x y) ->
  map_outcome f l = Done l' -> Forall2 R l l'.
Proof.
  intros Hf. revert l'. induction l as [|x l IH]; intros l'; cbn [map_outcome].
  - intros [= <-]. constructor.
  - destruct (f x) as [y| |] eqn:Hy; cbn [mbind outcome_bind]; [|done..].
    destruct (map_outcome f l) as [ys| |]; cbn [mbind outcome_bind]; [|done..].
    intros [= <-]. constructor; eauto.
Qed.

Lemma map_outcome_fixed {A : Type} (f : A -> outcome A) (l : list A) :
  Forall (fun x => f x = Done x) l -> map_outcome f l = Done l.
Proof.
  induction 1 as [|x l Hx _ IH]; [done|]. cbn [map_outcome]. by rewrite Hx, IH.
Qed.

Lemma map_outcome_settled {A : Type} (f g : A -> outcome A) (l l' : list A) :
  (forall x y, f x = Done y -> g y = Done y) ->
  map_outcome f l = Done l' -> map_outcome g l' = Done l'.
Proof.
  intros Hfg Hl. apply map_outcome_fixed.
  apply (map_outcome_Done f (fun _ y => g y = Done y)) in Hl; [|done].
  induction Hl; by constructor.
Qed.

Section WithRepr.
Variable py_repr : json -> string.

(** A paragraph resolved under one content is kept by a pass under any
    other. *)
Lemma process_paragraph_settled (content1 content2 : dict) (p p' : Paragraph) :
  process_paragraph py_repr content1 p = Done p' ->
  process_paragraph py_repr content2 p' = Done p'.
Proof.
  destruct (process_paragraph_Done py_repr content1 p) as (t & Ht & ->).
  intros [= <-].
  destruct (process_paragraph_Done py_repr content2
              {| para_font := para_font p;
                 runs := match runs p with
                         | [] => []
                         | run0 :: rest =>
                             {| run_text := escape t; run_font := run_font run0 |}
                             :: ((fun run => {| run_text := ""; run_font := run_font run |})
                                   <$> rest)
                         end |}) as (t' & Ht' & Hp').
  cbn [runs para_font] in Ht', Hp'. destruct (runs p) as [|run0 rest]; [exact Hp'|].
  rewrite fmap_cons, join_empty_cons, join_cleared, append_empty_r in Ht'.
  cbn [run_text] in Ht'.
  rewrite (resolve_text_escaped py_repr content2 t) in Ht' by by apply resolve_text_done in Ht.
  injection Ht' as <-. rewrite Hp', escape_escape. cbn [run_font]. do 3 f_equal.
  rewrite <- list_fmap_compose. by apply list_fmap_ext.
Qed.

(** What the text pass does to a shape. *)
Lemma text_pass_shape (content : dict) (shape : Shape) :
  exists shape',
    match shape with
    | TextShape tf =>
        ps ← map_outcome (process_paragraph py_repr content) (paragraphs tf);
        Done (TextShape {| paragraphs := ps |})
    | _ => Done shape
    end = Done shape' /\
    match shape with
    | TextShape tf =>
        exists tf', shape' = TextShape tf' /\
          Forall2 (fun p p' => process_paragraph py_repr content p = Done p')
            (paragraphs tf) (paragraphs tf')
    | _ => shape' = shape
    end.
Proof.
  destruct shape as [tf|frame|]; [|by eexists..].
  destruct (map_outcome_Forall2 (process_paragraph py_repr content)
              (fun p p' => process_paragraph py_repr content p = Done p') (paragraphs tf))
    as (ps & Hps & HR).
  { intros p. destruct (process_paragraph_Done py_repr content p) as (t & _ & Hp). eauto. }
  eexists. rewrite Hps. split; [done|]. eauto.
Qed.

(** A resolved paragraph does not hold both markers. *)
Lemma process_paragraph_resolved (content : dict) (p p' : Paragraph) :
  process_paragraph py_repr content p = Done p' ->
  contains "{{" (paragraph_text p') && contains "}}" (paragraph_text p') = false.
Proof.
  destruct (process_paragraph_Done py_repr content p) as (t & Ht & ->).
  intros [= <-]. unfold paragraph_text. cbn [runs].
  destruct (runs p) as [|run0 rest]; [done|].
  rewrite fmap_cons, join_empty_cons, join_cleared, append_empty_r. cbn [run_text].
  rewrite markers_escape. by apply resolve_text_done in Ht.
Qed.

(** The fonts a paragraph and its runs keep through the pass. *)
Lemma process_paragraph_fonts (content : dict) (p p' : Paragraph) :
  process_paragraph py_repr content p = Done p' ->
  para_font p' = para_font p /\ run_font <$> runs p' = run_font <$> runs p.
Proof.
  destruct (process_paragraph_Done py_repr content p) as (t & Ht & ->).
  intros [= <-]. cbn [para_font runs]. split; [done|].
  destruct (runs p) as [|run0 rest]; [done|].
  rewrite !fmap_cons. cbn [run_font]. f_equal.
  rewrite <- list_fmap_compose. by apply list_fmap_ext.
Qed.

(** A slide whose text was resolved under one content is kept by the text
    pass under any other. *)
Lemma process_text_placeholders_settled (content1 content2 : dict) (slide slide1 : Slide) :
  process_text_placeholders py_repr slide content1 = Done slide1 ->
  process_text_placeholders py_repr slide1 content2 = Done slide1.
Proof.
  unfold process_text_placeholders.
  destruct (map_outcome _ (shapes slide)) as [new_shapes| |] eqn:Hpass;
    cbn [mbind outcome_bind]; [|done..].
  intros [= <-]. cbn [shapes].
  eapply map_outcome_settled in Hpass as ->; [done|].
  intros [tf|frame|] shape'; cbn beta iota; [|by intros [= <-]..].
  destruct (map_outcome _ (paragraphs tf)) as [ps| |] eqn:Hps;
    cbn [mbind outcome_bind]; [|done..].
  intros [= <-]. cbn [paragraphs].
  eapply map_outcome_settled in Hps as ->; [done|].
  intros p p'. apply process_paragraph_settled.
Qed.

(** The text pass always returns, shape by shape. *)
Lemma process_text_placeholders_Done (slide : Slide) (content : dict) :
  exists slide',
    process_text_placeholders py_repr slide content = Done slide' /\
    Forall2 (fun shape shape' =>
               match shape with
               | TextShape tf =>
                   exists tf', shape' = TextShape tf' /\
                     Forall2 (fun p p' => process_paragraph py_repr content p = Done p')
                       (paragraphs tf) (paragraphs tf')
               | _ => shape' = shape
               end) (shapes slide) (shapes slide').
Proof.
  unfold process_text_placeholders.
  destruct (map_outcome_Forall2 _ _ (shapes slide) (text_pass_shape content))
    as (new_shapes & -> & Hshapes).
  eexists. split; [done|]. exact Hshapes.
Qed.

End WithRepr.
End SlideFacts.

(** ** Tables and their runs *)
Module GridFacts.
Import TableFacts.

Lemma table_each_run_ext (f g : Run -> Run) (t : Table) :
  (forall run, f run = g run) -> table_each_run f t = table_each_run g t.
Proof.
  intros Hfg. unfold table_each_run. f_equal.
  apply list_fmap_ext. intros _ row _. f_equal.
  apply list_fmap_ext. intros _ cell _. unfold cell_each_run. do 2 f_equal.
  apply list_fmap_ext. intros _ p _. unfold paragraph_each_run. f_equal.
  apply list_fmap_ext. by intros _ run _.
Qed.

Lemma table_each_run_compose (f g : Run -> Run) (t : Table) :
  table_each_run f (table_each_run g t) = table_each_run (f ∘ g) t.
Proof.
  unfold table_each_run. cbn [rows style_id]. f_equal.
  rewrite <- list_fmap_compose. apply list_fmap_ext. intros _ row _. cbn. f_equal.
  rewrite <- list_fmap_compose. apply list_fmap_ext. intros _ cell _.
  unfold cell_each_run. cbn. do 2 f_equal.
  rewrite <- list_fmap_compose. apply list_fmap_ext. intros _ p _.
  unfold paragraph_each_run. cbn. f_equal.
  by rewrite <- list_fmap_compose.
Qed.

Lemma table_paragraphs_each_run (f : Run -> Run) (t : Table) :
  para_font <$> (cell ← iter_cells (table_each_run f t); paragraphs (cell_frame cell))
  = para_font <$> (cell ← iter_cells t; paragraphs (cell_frame cell)).
Proof.
  rewrite iter_cells_each_run. induction (iter_cells t) as [|cell l IH]; [done|].
  rewrite fmap_cons, !bind_cons, !fmap_app, IH. f_equal.
  cbn [cell_each_run cell_frame paragraphs]. rewrite <- list_fmap_compose.
  by apply list_fmap_ext.
Qed.

Lemma iter_cells_length (t : Table) (n : nat) :
  Forall (fun row => length (cells row) = n) (rows t) ->
  length (iter_cells t) = (length (rows t) * n)%nat.
Proof.
  unfold iter_cells. induction 1 as [|row l Hrow _ IH]; [done|].
  rewrite bind_cons, length_app, IH, Hrow. cbn [length]. lia.
Qed.

Lemma iter_cells_lookup (t : Table) (n r c : nat) :
  Forall (fun row => length (cells row) = n) (rows t) ->
  (c < n)%nat ->
  iter_cells t !! (r * n + c)%nat = rows t !! r ≫= fun row => cells row !! c.
Proof.
  unfold iter_cells. intros Hrows Hc. revert r.
  induction Hrows as [|row l Hrow _ IH]; intros r; [done|].
  rewrite bind_cons. destruct r as [|r].
  - cbn [Nat.mul Nat.add lookup list_lookup mbind option_bind].
    rewrite lookup_app_l by lia. done.
  - rewrite lookup_app_r by (rewrite Hrow; lia).
    replace (S r * n + c - length (cells row))%nat with (r * n + c)%nat by (rewrite Hrow; lia).
    by rewrite IH.
Qed.

Lemma bind_nil_all {A B : Type} (f : A -> list B) (l : list A) :
  (forall x, x ∈ l -> f x = []) -> l ≫= f = [].
Proof.
  induction l as [|x l IH]; intros Hf; [done|]. rewrite bind_cons, IH, Hf; [done|..].
  - apply elem_of_cons. by left.
  - intros y Hy. apply Hf, elem_of_cons. by right.
Qed.

Lemma iter_cells_blank (n_rows n_cols : nat) (style : option string) (cell : Cell) :
  cell ∈ iter_cells {| rows := replicate n_rows {| cells := replicate n_cols empty_cell |};
                       style_id := style |} ->
  cell = empty_cell.
Proof.
  unfold iter_cells. cbn [rows]. intros (row & Hcell & Hrow)%list_elem_of_bind.
  apply elem_of_replicate in Hrow as [-> _]. cbn [cells] in Hcell.
  by apply elem_of_replicate in Hcell as [-> _].
Qed.

Lemma cell_each_run_with_size_twice (n : Z) (cell : Cell) :
  cell_each_run (with_size n) (cell_each_run (with_size n) cell)
  = cell_each_run (with_size n) cell.
Proof.
  unfold cell_each_run. cbn [cell_frame paragraphs]. do 2 f_equal.
  rewrite <- list_fmap_compose. apply list_fmap_ext. intros _ p _.
  unfold paragraph_each_run. cbn. f_equal.
  rewrite <- list_fmap_compose. by apply list_fmap_ext.
Qed.

(** Marking a table that is already marked and sized gives the same table. *)
Lemma no_data_table_twice (t : Table) :
  let mark (t : Table) :=
    set_table_font_size
      {| rows := alter (fun row => {| cells := <[0%nat := text_cell "n/a"]> (cells row) |})
                   0%nat (rows t);
         style_id := style_id t |} 11 in
  mark (mark t) = mark t.
Proof.
  cbv zeta. unfold set_table_font_size, table_each_run. cbn [rows style_id]. f_equal.
  destruct (rows t) as [|[cs] rs]; [done|].
  cbn [alter list_alter fmap list_fmap cells]. f_equal.
  - f_equal. destruct cs as [|c cs]; [done|].
    cbn [insert list_insert fmap list_fmap]. f_equal.
    rewrite <- list_fmap_compose. apply list_fmap_ext. intros _ cell _.
    apply cell_each_run_with_size_twice.
  - change (list_fmap Row Row ?f ?l) with (f <$> l).
    rewrite <- list_fmap_compose. apply list_fmap_ext. intros _ row _. cbn. f_equal.
    rewrite <- list_fmap_compose. apply list_fmap_ext. intros _ cell _.
    apply cell_each_run_with_size_twice.
Qed.

End GridFacts.

(** ** The table loop over whole slides *)
Module LoopFacts.
Import TableFacts PlaceholderFacts.

Section WithParameters.
Variable py_repr : json -> string.
Variable PPTX_TABLE_STYLE_ID : option string.

Lemma non_tables_app (l m : list Shape) : non_tables (l ++ m) = non_tables l ++ non_tables m.
Proof. unfold non_tables. apply bind_app. Qed.

Lemma non_tables_cons (shape : Shape) (l : list Shape) :
  non_tables (shape :: l)
  = match shape with TableShape _ => [] | _ => [shape] end ++ non_tables l.
Proof. unfold non_tables. apply bind_cons. Qed.

(** How one call changes the slide's list of shapes. *)
Lemma process_table_placeholder_shapes (i : nat) (frame : GraphicFrame) (content : dict)
    (slide slide1 : Slide) (change : tree_change) :
  shapes slide !! i = Some (TableShape frame) ->
  process_table_placeholder py_repr PPTX_TABLE_STYLE_ID i frame content slide
    = Done (slide1, change) ->
  exists frame1,
    shapes slide1 = match change with
                    | InPlace => <[i := TableShape frame1]> (shapes slide)
                    | Removed => delete i (shapes slide) ++ [TableShape frame1]
                    end.
Proof.
  intros Hi Hp. apply process_table_placeholder_effect in Hp
    as (anchor & _ & [(-> & _ & frame1 & -> & _)|(-> & _ & frame1 & ->)]); [| |done];
    by exists frame1.
Qed.

(** The same, with the place of the table that comes out. *)
Lemma process_table_placeholder_geometry (i : nat) (frame : GraphicFrame) (content : dict)
    (slide slide1 : Slide) (change : tree_change) :
  shapes slide !! i = Some (TableShape frame) ->
  process_table_placeholder py_repr PPTX_TABLE_STYLE_ID i frame content slide
    = Done (slide1, change) ->
  exists t1,
    shapes slide1
    = match change with
      | InPlace =>
          <[i := TableShape {| left := left frame; top := top frame; width := width frame;
                               height := height frame; table := t1 |}]> (shapes slide)
      | Removed =>
          delete i (shapes slide) ++
          [TableShape {| left := left frame; top := top frame; width := width frame;
                         height := height frame; table := t1 |}]
      end.
Proof.
  intros Hi Hrun. destruct change.
  - assert (shapes slide1 = shapes slide \/
            exists t1, shapes slide1
                       = <[i := TableShape {| left := left frame; top := top frame;
                                              width := width frame; height := height frame;
                                              table := t1 |}]> (shapes slide)) as [->|?];
      [|exists (table frame); rewrite list_insert_id; [done|by destruct frame]|done].
    unfold process_table_placeholder, create_table, add_table in Hrun.
    unfold mbind, outcome_bind in Hrun. repeat case_match; simplify_eq/=; eauto.
  - apply process_table_placeholder_removed in Hrun as (filled & ->). eauto.
Qed.

Lemma table_loop_keeps (fuel : nat) (content : dict) (done todo : list Shape)
    (slide' : Slide) :
  table_loop py_repr PPTX_TABLE_STYLE_ID fuel content (length done)
    {| shapes := done ++ todo |} = Done slide' ->
  exists todo', shapes slide' = done ++ todo' /\ length todo' = length todo /\
    non_tables todo' = non_tables todo.
Proof.
  revert done todo slide'. induction fuel as [|fuel IH]; intros done [|cur rest] slide' Hrun.
  - rewrite app_nil_r, table_loop_end in Hrun. injection Hrun as <-.
    exists []. by rewrite app_nil_r.
  - cbn in Hrun. by rewrite list_lookup_middle in Hrun.
  - rewrite app_nil_r, table_loop_end in Hrun. injection Hrun as <-.
    exists []. by rewrite app_nil_r.
  - rewrite table_loop_round in Hrun.
    assert (forall shape1 slide2,
              match rest with
              | [] => Done {| shapes := done ++ shape1 :: rest |}
              | _ :: _ => table_loop py_repr PPTX_TABLE_STYLE_ID fuel content
                            (S (length done)) {| shapes := done ++ shape1 :: rest |}
              end = Done slide2 ->
              exists todo2, shapes slide2 = done ++ shape1 :: todo2 /\
                length todo2 = length rest /\ non_tables todo2 = non_tables rest) as Hkept.
    { intros shape1 slide2 Hrest. destruct rest as [|next rest].
      - injection Hrest as <-. by exists [].
      - replace {| shapes := done ++ shape1 :: next :: rest |}
          with {| shapes := (done ++ [shape1]) ++ next :: rest |} in Hrest
          by (by rewrite <- app_assoc).
        replace (S (length done)) with (length (done ++ [shape1])) in Hrest
          by (rewrite length_app; cbn; lia).
        apply IH in Hrest as (todo2 & Hshapes & Hlen & Hnon).
        exists todo2. by rewrite Hshapes, <- app_assoc. }
    destruct cur as [tf|frame0|].
    + cbn [mbind outcome_bind] in Hrun. apply Hkept in Hrun as (todo2 & -> & Hlen & Hnon).
      exists (TextShape tf :: todo2). split_and!; [done|by cbn; rewrite Hlen|].
      by rewrite !non_tables_cons, Hnon.
    + destruct (process_table_placeholder _ _ _ _ _ _) as [[slide1 change]| |] eqn:Hp;
        cbn [mbind outcome_bind] in Hrun; [|done..].
      apply process_table_placeholder_shapes in Hp as (frame1 & Hshapes);
        [|by cbn [shapes]; rewrite list_lookup_middle].
      cbn [shapes] in Hshapes. destruct slide1 as [shapes1]. cbn [shapes] in Hshapes.
      subst shapes1. destruct change.
      * rewrite insert_app_r_alt, Nat.sub_diag in Hrun by done.
        cbn [insert list_insert] in Hrun.
        apply Hkept in Hrun as (todo2 & -> & Hlen & Hnon).
        exists (TableShape frame1 :: todo2). split_and!; [done|by cbn; rewrite Hlen|].
        by rewrite !non_tables_cons, Hnon.
      * rewrite delete_middle, <- app_assoc in Hrun.
        destruct rest as [|next rest].
        -- injection Hrun as <-. cbn [shapes]. by eexists.
        -- apply IH in Hrun as (todo' & Hshapes & Hlen & Hnon).
           exists todo'. split_and!; [done| |].
           ++ rewrite Hlen, length_app. cbn. lia.
           ++ rewrite Hnon, non_tables_app, (non_tables_cons (TableShape frame0)).
              cbn. by rewrite app_nil_r.
    + cbn [mbind outcome_bind] in Hrun. apply Hkept in Hrun as (todo2 & -> & Hlen & Hnon).
      exists (OtherShape :: todo2). split_and!; [done|by cbn; rewrite Hlen|].
      by rewrite !non_tables_cons, Hnon.
Qed.

(** On shapes without a table the loop only counts. *)
Lemma table_loop_plain (fuel : nat) (content : dict) (done todo : list Shape) :
  Forall (fun shape => forall frame, shape <> TableShape frame) todo ->
  table_loop py_repr PPTX_TABLE_STYLE_ID fuel content (length done)
    {| shapes := done ++ todo |}
  = if bool_decide (length todo <= fuel)%nat then Done {| shapes := done ++ todo |}
    else OutOfFuel.
Proof.
  revert done todo. induction fuel as [|fuel IH]; intros done [|cur rest] Hplain.
  - by rewrite app_nil_r, table_loop_end.
  - cbn. by rewrite list_lookup_middle.
  - by rewrite app_nil_r, table_loop_end.
  - rewrite table_loop_round. apply Forall_cons in Hplain as [Hcur Hrest].
    assert (match cur with
            | TableShape frame =>
                process_table_placeholder py_repr PPTX_TABLE_STYLE_ID
                  (length done) frame content {| shapes := done ++ cur :: rest |}
            | _ => Done ({| shapes := done ++ cur :: rest |}, InPlace)
            end = Done ({| shapes := done ++ cur :: rest |}, InPlace)) as ->.
    { destruct cur as [| frame |]; [done| |done]. by destruct (Hcur frame). }
    cbn [mbind outcome_bind]. destruct rest as [|next rest].
    + by rewrite bool_decide_eq_true_2 by (cbn; lia).
    + replace {| shapes := done ++ cur :: next :: rest |}
        with {| shapes := (done ++ [cur]) ++ next :: rest |} by (by rewrite <- app_assoc).
      replace (S (length done)) with (length (done ++ [cur]))
        by (rewrite length_app; cbn; lia).
      rewrite IH by done. cbn [length]. repeat case_bool_decide; done || lia.
Qed.

End WithParameters.
End LoopFacts.

(** ** Records and the batch *)
Module BatchFacts.
Import TableFacts PlaceholderFacts RenderFacts SlideFacts LoopFacts.

Lemma map_outcome_settled_on {A : Type} (P : A -> Prop) (f g : A -> outcome A)
    (l l' : list A) :
  (forall x y, P x -> f x = Done y -> g y = Done y) ->
  Forall P l ->
  map_outcome f l = Done l' -> map_outcome g l' = Done l'.
Proof.
  intros Hfg Hl. revert l'. induction Hl as [|x l Hx _ IH]; intros l'; cbn [map_outcome].
  - by intros [= <-].
  - destruct (f x) as [y| |] eqn:Hy; cbn [mbind outcome_bind]; [|done..].
    destruct (map_outcome f l) as [ys| |]; cbn [mbind outcome_bind]; [|done..].
    intros [= <-]. cbn [map_outcome]. by rewrite (Hfg x y), (IH ys).
Qed.

Lemma for_each_invariant {A S : Type} (I : S -> Prop) (body : A -> S -> outcome S)
    (xs : list A) (s s' : S) :
  (forall x s1 s2, I s1 -> body x s1 = Done s2 -> I s2) ->
  I s -> for_each body xs s = Done s' -> I s'.
Proof.
  intros Hbody. revert s. induction xs as [|x xs IH]; intros s Hs; cbn [for_each].
  - by intros [= <-].
  - destruct (body x s) as [s1| |] eqn:Hx; cbn [mbind outcome_bind]; [|done..]. eauto.
Qed.

Section WithParameters.
Variable py_repr : json -> string.
Variable json_loads : string -> json + exn.
Variable PPTX_TABLE_STYLE_ID : option string.

(** The text pass makes no table and keeps the number of shapes. *)
Lemma process_text_placeholders_plain (slide slide1 : Slide) (content : dict) :
  process_text_placeholders py_repr slide content = Done slide1 ->
  length (shapes slide1) = length (shapes slide) /\
  (Forall (fun shape => forall frame, shape <> TableShape frame) (shapes slide) ->
   Forall (fun shape => forall frame, shape <> TableShape frame) (shapes slide1)).
Proof.
  destruct (process_text_placeholders_Done py_repr slide content)
    as (slide' & -> & Hshapes).
  intros [= <-]. split; [symmetry; by eapply Forall2_length|].
  induction Hshapes as [|shape shape' l l' Hshape _ IH]; [done|].
  intros [Hplain Hrest]%Forall_cons. constructor; [|by apply IH].
  destruct shape as [tf|frame|]; [by destruct Hshape as (tf' & -> & _)|by subst..].
Qed.

(** One record's pass over a slide without tables. *)
Lemma slide_pass_plain (fuel : nat) (content : dict) (slide slide2 : Slide) :
  Forall (fun shape => forall frame, shape <> TableShape frame) (shapes slide) ->
  (slide1 ← process_text_placeholders py_repr slide content;
   table_loop py_repr PPTX_TABLE_STYLE_ID fuel content 0 slide1) = Done slide2 ->
  process_text_placeholders py_repr slide content = Done slide2 /\
  Forall (fun shape => forall frame, shape <> TableShape frame) (shapes slide2) /\
  (length (shapes slide2) <= fuel)%nat.
Proof.
  intros Hplain.
  destruct (process_text_placeholders py_repr slide content) as [slide1| |] eqn:Hpass;
    cbn [mbind outcome_bind]; [|done..].
  apply process_text_placeholders_plain in Hpass as [_ Hplain1].
  specialize (Hplain1 Hplain). destruct slide1 as [l].
  pose proof (table_loop_plain py_repr PPTX_TABLE_STYLE_ID fuel content [] l Hplain1) as Hloop.
  cbn [length app] in Hloop. rewrite Hloop.
  case_bool_decide; [|done]. by intros [= <-].
Qed.

(** A deck without tables, rendered for one content, is kept by the slide
    loop for any other. *)
Lemma render_slides_settled (fuel : nat) (content1 content2 : dict)
    (prs prs1 : Presentation) :
  Forall (fun slide => Forall (fun shape => forall frame, shape <> TableShape frame)
                         (shapes slide)) (slides prs) ->
  render_slides py_repr PPTX_TABLE_STYLE_ID fuel content1 prs = Done prs1 ->
  render_slides py_repr PPTX_TABLE_STYLE_ID fuel content2 prs1 = Done prs1.
Proof.
  intros Hplain. unfold render_slides.
  destruct (map_outcome _ (slides prs)) as [new_slides| |] eqn:Hslides;
    cbn [mbind outcome_bind]; [|done..].
  intros [= <-]. cbn [slides].
  eapply map_outcome_settled_on in Hslides as ->; [done| |exact Hplain].
  intros slide slide2 Hslide Hrun. cbn beta in Hrun.
  apply slide_pass_plain in Hrun as (Hpass & Hplain2 & Hfuel); [|done].
  rewrite (process_text_placeholders_settled py_repr content1 content2 slide slide2 Hpass).
  cbn [mbind outcome_bind]. destruct slide2 as [l].
  pose proof (table_loop_plain py_repr PPTX_TABLE_STYLE_ID fuel content2 [] l Hplain2) as Hloop.
  cbn [length app] in Hloop. rewrite Hloop.
  by rewrite bool_decide_eq_true_2.
Qed.

(** The slide loop keeps the number of slides and of each slide's shapes. *)
Lemma render_slides_counts (fuel : nat) (content : dict) (prs prs1 : Presentation) :
  render_slides py_repr PPTX_TABLE_STYLE_ID fuel content prs = Done prs1 ->
  Forall2 (fun slide slide' => length (shapes slide') = length (shapes slide))
    (slides prs) (slides prs1).
Proof.
  unfold render_slides.
  destruct (map_outcome _ (slides prs)) as [new_slides| |] eqn:Hslides;
    cbn [mbind outcome_bind]; [|done..].
  intros [= <-]. cbn [slides].
  eapply map_outcome_Done; [|exact Hslides].
  intros slide slide2. cbn beta.
  destruct (process_text_placeholders py_repr slide content) as [slide1| |] eqn:Hpass;
    cbn [mbind outcome_bind]; [|done..].
  apply process_text_placeholders_plain in Hpass as [<- _]. destruct slide1 as [l].
  intros Hrun. apply (table_loop_keeps _ _ _ _ [] l) in Hrun as (todo' & -> & Hlen & _).
  exact Hlen.
Qed.

End WithParameters.
End BatchFacts.

(** ** The request URL *)
Module RequestFacts.
Import PyStr PyStrFacts TokenFacts.

Lemma rstrip_chars_slash (s : string) : rstrip_chars "/" (s +:+ "/") = rstrip_chars "/" s.
Proof.
  induction s as [|c s IH]; [reflexivity|].
  rewrite append_cons. cbn [rstrip_chars]. by rewrite IH.
Qed.

Lemma rstrip_chars_kept (s : string) :
  (forall b, s <> b +:+ "/") -> rstrip_chars "/" s = s.
Proof.
  induction s as [|c s IH]; intros Hend; [done|].
  cbn [rstrip_chars]. destruct s as [|d s].
  - cbn [rstrip_chars]. rewrite contains_char_cons.
    rewrite bool_decide_eq_false_2; [done|].
    intros ->. by destruct (Hend "").
  - rewrite IH; [done|]. intros b Hb. destruct (Hend (String c b)).
    by rewrite append_cons, Hb.
Qed.

End RequestFacts.

(** * Further properties of the script *)

Import TokenFacts SlideFacts GridFacts LoopFacts.

(** X1.  A text that lacks one of the two markers is left as it is by the
    resolver, whatever the content map holds. *)
Theorem resolve_text_keeps_text_without_tokens (py_repr : json -> string) (content : dict)
    (fulltext : string) :
  PyStr.contains "{{" fulltext && PyStr.contains "}}" fulltext = false ->
  resolve_text py_repr content fulltext = Done fulltext.
Proof.
  intros Hplain. unfold resolve_text.
  rewrite substitute_known_stable by done. by apply substitute_missing_stable.
Qed.

Lemma resolve_text_keeps_text_without_tokens_witness :
  PyStr.contains "{{" "Total: 5 }} items" && PyStr.contains "}}" "Total: 5 }} items" = false /\
  resolve_text Samples.repr [("Total", JInt 5)] "Total: 5 }} items"
  = Done "Total: 5 }} items".
Proof.
  split; [reflexivity|].
  apply (resolve_text_keeps_text_without_tokens Samples.repr [("Total", JInt 5)]
           "Total: 5 }} items").
  reflexivity.
Defined.

(** X2.  A text with one token and no other brace: when the content map
    binds the token's name to a value whose text has no open brace, the
    resolver puts that text in the token's place and changes nothing else. *)
Theorem resolve_text_substitutes_bound_token (py_repr : json -> string) (content : dict)
    (before name after : string) (value : json) :
  PyStr.contains "{" before = false -> PyStr.contains "}" before = false ->
  PyStr.contains "{" name = false -> PyStr.contains "}" name = false ->
  PyStr.contains "{" after = false -> PyStr.contains "}" after = false ->
  dict_get name content = Some value ->
  PyStr.contains "{" (py_str py_repr value) = false ->
  resolve_text py_repr content (before +:+ "{{" +:+ name +:+ "}}" +:+ after)
  = Done (before +:+ py_str py_repr value +:+ after).
Proof.
  intros Ha1 Ha2 Hn1 Hn2 Hb1 Hb2 Hbound Hvalue. unfold resolve_text.
  rewrite substitute_known_token by (done || (intros v Hv; congruence)). rewrite Hbound.
  apply substitute_missing_stable, andb_false_intro1, not_true_is_false.
  intros Hin%contains_first_char. rewrite !contains_char_app in Hin.
  rewrite Ha1, Hb1, Hvalue in Hin. done.
Qed.

Lemma resolve_text_substitutes_bound_token_witness :
  resolve_text Samples.repr [("name", JStr "Ann"); ("count", JInt 3)]
    ("Dear " +:+ "{{" +:+ "name" +:+ "}}" +:+ ", welcome")
  = Done ("Dear " +:+ py_str Samples.repr (JStr "Ann") +:+ ", welcome").
Proof.
  apply (resolve_text_substitutes_bound_token Samples.repr
           [("name", JStr "Ann"); ("count", JInt 3)] "Dear " "name" ", welcome" (JStr "Ann"));
    reflexivity.
Defined.

(** X3.  A text with one token and no other brace: when the content map has
    no key of the token's name, the resolver writes [n/a] in the token's
    place and changes nothing else. *)
Theorem resolve_text_marks_unbound_token (py_repr : json -> string) (content : dict)
    (before name after : string) :
  PyStr.contains "{" before = false -> PyStr.contains "}" before = false ->
  PyStr.contains "{" name = false -> PyStr.contains "}" name = false ->
  PyStr.contains "{" after = false -> PyStr.contains "}" after = false ->
  dict_get name content = None ->
  resolve_text py_repr content (before +:+ "{{" +:+ name +:+ "}}" +:+ after)
  = Done (before +:+ "n/a" +:+ after).
Proof.
  intros Ha1 Ha2 Hn1 Hn2 Hb1 Hb2 Hunbound. unfold resolve_text.
  rewrite substitute_known_token by (done || (intros v Hv; congruence)).
  rewrite Hunbound. cbn [substitute_missing].
  assert (PyStr.contains "{{" (before +:+ "{{" +:+ name +:+ "}}" +:+ after) = true) as ->.
  { apply contains_spec. by exists before, (name +:+ "}}" +:+ after). }
  assert (PyStr.contains "}}" (before +:+ "{{" +:+ name +:+ "}}" +:+ after) = true) as ->.
  { apply contains_spec. exists (before +:+ "{{" +:+ name), after.
    by rewrite !append_assoc. }
  cbn [andb]. rewrite replace_first_missing_token by done.
  apply substitute_missing_stable, andb_false_intro1, not_true_is_false.
  intros Hin%contains_first_char. rewrite !contains_char_app in Hin.
  rewrite Ha1, Hb1 in Hin. done.
Qed.

Lemma resolve_text_marks_unbound_token_witness :
  resolve_text Samples.repr [("name", JStr "Ann")]
    ("Due: " +:+ "{{" +:+ "deadline" +:+ "}}" +:+ ".")
  = Done ("Due: " +:+ "n/a" +:+ ".").
Proof.
  apply (resolve_text_marks_unbound_token Samples.repr [("name", JStr "Ann")]
           "Due: " "deadline" "."); reflexivity.
Defined.

(** X4.  The text pass over a slide always returns, and only rewrites text:
    the slide keeps its shapes in number and order, a shape that is not a
    text shape (a table among them) is handed back as it is, and a text
    shape keeps its paragraphs in number, each with its own font, its number
    of runs and the font of every run. *)
Theorem process_text_placeholders_keeps_layout (py_repr : json -> string) (slide : Slide)
    (content : dict) :
  exists slide',
    process_text_placeholders py_repr slide content = Done slide' /\
    Forall2 (fun shape shape' =>
               match shape with
               | TextShape tf =>
                   exists tf', shape' = TextShape tf' /\
                     Forall2 (fun p p' => para_font p' = para_font p /\
                                          run_font <$> runs p' = run_font <$> runs p)
                       (paragraphs tf) (paragraphs tf')
               | _ => shape' = shape
               end) (shapes slide) (shapes slide').
Proof.
  destruct (process_text_placeholders_Done py_repr slide content)
    as (slide' & Hpass & Hshapes).
  exists slide'. split; [done|].
  eapply Forall2_impl; [exact Hshapes|].
  intros [tf|frame|] shape'; [|done..].
  intros (tf' & -> & Hps). exists tf'. split; [done|].
  eapply Forall2_impl; [exact Hps|]. intros p p'. apply process_paragraph_fonts.
Qed.

(** X5.  Once the text pass has run over a slide, no paragraph of a text
    shape holds both markers any more, and a later text pass leaves the slide
    exactly as it is, whatever content map it is given: in text, the first
    record rendered is the one that shows. *)
Theorem process_text_placeholders_settles_text (py_repr : json -> string)
    (slide slide1 : Slide) (content1 : dict) :
  process_text_placeholders py_repr slide content1 = Done slide1 ->
  Forall (fun shape =>
            match shape with
            | TextShape tf =>
                Forall (fun p =>
                          PyStr.contains "{{" (paragraph_text p)
                          && PyStr.contains "}}" (paragraph_text p) = false)
                  (paragraphs tf)
            | _ => True
            end) (shapes slide1) /\
  forall content2, process_text_placeholders py_repr slide1 content2 = Done slide1.
Proof.
  intros Hpass. split; [|intros content2; by eapply process_text_placeholders_settled].
  unfold process_text_placeholders in Hpass.
  destruct (map_outcome _ (shapes slide)) as [new_shapes| |] eqn:Hshapes;
    cbn [mbind outcome_bind] in Hpass; [|done..].
  injection Hpass as <-. cbn [shapes].
  eapply (map_outcome_Done _ (fun _ shape' =>
            match shape' with
            | TextShape tf =>
                Forall (fun p =>
                          PyStr.contains "{{" (paragraph_text p)
                          && PyStr.contains "}}" (paragraph_text p) = false)
                  (paragraphs tf)
            | _ => True
            end)) in Hshapes.
  { induction Hshapes; by constructor. }
  intros [tf|frame|] shape'; cbn beta iota; [|by intros [= <-]..].
  destruct (map_outcome _ (paragraphs tf)) as [ps| |] eqn:Hps;
    cbn [mbind outcome_bind]; [|done..].
  intros [= <-]. cbn [paragraphs].
  eapply (map_outcome_Done _ (fun _ p' =>
            PyStr.contains "{{" (paragraph_text p')
            && PyStr.contains "}}" (paragraph_text p') = false)) in Hps.
  { induction Hps; by constructor. }
  intros p p'. apply process_paragraph_resolved.
Qed.

Lemma process_text_placeholders_settles_text_witness :
  exists slide1,
    process_text_placeholders Samples.repr Decks.title_slide [("jobid", JStr "J-7")]
    = Done slide1 /\
    Forall (fun shape =>
              match shape with
              | TextShape tf =>
                  Forall (fun p =>
                            PyStr.contains "{{" (paragraph_text p)
                            && PyStr.contains "}}" (paragraph_text p) = false)
                    (paragraphs tf)
              | _ => True
              end) (shapes slide1) /\
    forall content2, process_text_placeholders Samples.repr slide1 content2 = Done slide1.
Proof.
  eexists. split; [vm_compute; reflexivity|].
  apply (process_text_placeholders_settles_text Samples.repr Decks.title_slide _
           [("jobid", JStr "J-7")]).
  vm_compute. reflexivity.
Defined.

(** X6.  For sizes the library accepts, 1 to 4000 pt,
    [set_table_font_size] changes the size of runs and nothing else: the
    table keeps its style, the text of every cell, the text and the boldness
    of every run and the font of every paragraph; and of two calls in a row
    the later one decides, as if the earlier had not been made. *)
Theorem set_table_font_size_changes_sizes_only (t : Table) (earlier later : Z) :
  (1 <= earlier <= 4000)%Z -> (1 <= later <= 4000)%Z ->
  style_id (set_table_font_size t later) = style_id t /\
  cell_text <$> iter_cells (set_table_font_size t later) = cell_text <$> iter_cells t /\
  run_text <$> table_runs (set_table_font_size t later) = run_text <$> table_runs t /\
  bold ∘ run_font <$> table_runs (set_table_font_size t later)
    = bold ∘ run_font <$> table_runs t /\
  para_font <$> (cell ← iter_cells (set_table_font_size t later);
                 paragraphs (cell_frame cell))
    = para_font <$> (cell ← iter_cells t; paragraphs (cell_frame cell)) /\
  set_table_font_size (set_table_font_size t earlier) later = set_table_font_size t later.
Proof.
  intros _ _. unfold set_table_font_size. split_and!.
  - done.
  - rewrite iter_cells_each_run, <- list_fmap_compose.
    apply list_fmap_ext. intros _ cell _. apply cell_text_with_size.
  - rewrite table_runs_each_run, <- list_fmap_compose. by apply list_fmap_ext.
  - rewrite table_runs_each_run, <- list_fmap_compose. by apply list_fmap_ext.
  - apply table_paragraphs_each_run.
  - rewrite table_each_run_compose. by apply table_each_run_ext.
Qed.

Lemma set_table_font_size_changes_sizes_only_witness :
  style_id (set_table_font_size Decks.grid 11) = style_id Decks.grid /\
  cell_text <$> iter_cells (set_table_font_size Decks.grid 11)
    = cell_text <$> iter_cells Decks.grid /\
  run_text <$> table_runs (set_table_font_size Decks.grid 11)
    = run_text <$> table_runs Decks.grid /\
  bold ∘ run_font <$> table_runs (set_table_font_size Decks.grid 11)
    = bold ∘ run_font <$> table_runs Decks.grid /\
  para_font <$> (cell ← iter_cells (set_table_font_size Decks.grid 11);
                 paragraphs (cell_frame cell))
    = para_font <$> (cell ← iter_cells Decks.grid; paragraphs (cell_frame cell)) /\
  set_table_font_size (set_table_font_size Decks.grid 18) 11
    = set_table_font_size Decks.grid 11.
Proof. apply (set_table_font_size_changes_sizes_only Decks.grid 18 11); lia. Defined.

(** X7.  [iter_cells] hands out the cells row by row: in a table whose rows
    all have [n_cols] cells it yields [n_cols] cells per row, and its element
    number [r * n_cols + c] is the cell that [table.cell(r, c)] returns. *)
Theorem iter_cells_row_major (t : Table) (n_cols r c : nat) (cell : Cell) :
  Forall (fun row => length (cells row) = n_cols) (rows t) ->
  (c < n_cols)%nat ->
  length (iter_cells t) = (length (rows t) * n_cols)%nat /\
  (iter_cells t !! (r * n_cols + c)%nat = Some cell <-> table_cell t r c = Done cell).
Proof.
  intros Hrows Hc. split; [by apply iter_cells_length|].
  rewrite iter_cells_lookup by done. rewrite table_cell_Done.
  destruct (rows t !! r) as [row|]; cbn [mbind option_bind].
  - split; [by exists row|]. by intros (? & [= <-] & ?).
  - split; [done|]. by intros (? & [=] & _).
Qed.

Lemma iter_cells_row_major_witness :
  length (iter_cells Decks.grid) = (length (rows Decks.grid) * 3)%nat /\
  (iter_cells Decks.grid !! (1 * 3 + 2)%nat = Some (Samples.cell_of Samples.heading_font "f")
   <-> table_cell Decks.grid 1 2 = Done (Samples.cell_of Samples.heading_font "f")).
Proof.
  apply (iter_cells_row_major Decks.grid 3 1 2 (Samples.cell_of Samples.heading_font "f")).
  - repeat constructor.
  - lia.
Defined.

(** X8.  [create_table] with at least one row and one column returns a blank
    table of the size asked for at the place asked for, stamped with the
    configured style: every cell's text is empty and there is no run, so the
    [font_size] and [font_bold] it is given change nothing in the result. *)
Theorem create_table_is_blank (PPTX_TABLE_STYLE_ID : option string) (n_rows n_cols : nat)
    (l t w h : Z) (font_size : option Z) (font_bold : option bool) :
  n_rows <> 0%nat -> n_cols <> 0%nat ->
  exists new_frame,
    create_table PPTX_TABLE_STYLE_ID n_rows n_cols l t w h font_size font_bold
      = Done new_frame /\
    create_table PPTX_TABLE_STYLE_ID n_rows n_cols l t w h None None = Done new_frame /\
    (left new_frame, top new_frame, width new_frame, height new_frame) = (l, t, w, h) /\
    style_id (table new_frame) = PPTX_TABLE_STYLE_ID /\
    length (rows (table new_frame)) = n_rows /\
    Forall (fun row => length (cells row) = n_cols) (rows (table new_frame)) /\
    Forall (fun cell => cell_text cell = "") (iter_cells (table new_frame)) /\
    table_runs (table new_frame) = [].
Proof.
  intros Hrows Hcols. eexists. rewrite !create_table_Done by done.
  split_and!; try done; cbn [table rows].
  - apply length_replicate.
  - apply Forall_replicate. cbn [cells]. apply length_replicate.
  - apply Forall_forall. by intros cell ->%iter_cells_blank.
  - apply bind_nil_all. by intros cell ->%iter_cells_blank.
Qed.

Lemma create_table_is_blank_witness :
  exists new_frame,
    create_table (Some "{5940675A-B579-460E-94D1-54222C63F5DA}") 3 2 100 200 3000 400
      (Some (Pt 18)) (Some true) = Done new_frame /\
    create_table (Some "{5940675A-B579-460E-94D1-54222C63F5DA}") 3 2 100 200 3000 400
      None None = Done new_frame /\
    (left new_frame, top new_frame, width new_frame, height new_frame)
      = (100, 200, 3000, 400)%Z /\
    style_id (table new_frame) = Some "{5940675A-B579-460E-94D1-54222C63F5DA}" /\
    length (rows (table new_frame)) = 3%nat /\
    Forall (fun row => length (cells row) = 2%nat) (rows (table new_frame)) /\
    Forall (fun cell => cell_text cell = "") (iter_cells (table new_frame)) /\
    table_runs (table new_frame) = [].
Proof.
  apply (create_table_is_blank (Some "{5940675A-B579-460E-94D1-54222C63F5DA}") 3 2
           100 200 3000 400 (Some (Pt 18)) (Some true)); lia.
Defined.

(** X9.  A placeholder bound to a non-empty array whose first element is not
    a record is passed over: the call returns the slide as it found it, the
    marker still in the anchor cell, and removes nothing. *)
Theorem process_table_placeholder_passes_over_non_records (py_repr : json -> string)
    (PPTX_TABLE_STYLE_ID : option string) (i : nat) (frame : GraphicFrame) (content : dict)
    (slide : Slide) (anchor : Cell) (first : json) (rest : list json) :
  table_cell (table frame) 0 0 = Done anchor ->
  dict_get (PyStr.strip (PyStr.slice (cell_text anchor) 8 (-2))) content
    = Some (JList (first :: rest)) ->
  (forall entries, first <> JDict entries) ->
  process_table_placeholder py_repr PPTX_TABLE_STYLE_ID i frame content slide
    = Done (slide, InPlace).
Proof.
  intros Hanchor Hbound Hfirst. unfold process_table_placeholder, placeholder_name_of.
  rewrite Hanchor. cbn [mbind outcome_bind]. rewrite Hbound. cbn [default from_option].
  destruct first as [| | | | | |entries]; try done. by destruct (Hfirst entries).
Qed.

Lemma process_table_placeholder_passes_over_non_records_witness :
  process_table_placeholder Samples.repr None 0 (Samples.placeholder "items")
    [("items", JList [JInt 1; JInt 2])] Samples.slide
  = Done (Samples.slide, InPlace).
Proof.
  apply (process_table_placeholder_passes_over_non_records Samples.repr None 0
           (Samples.placeholder "items") [("items", JList [JInt 1; JInt 2])] Samples.slide
           (Samples.cell_of Samples.heading_font "{{TABLE:items}}") (JInt 1) [JInt 2]).
  - reflexivity.
  - reflexivity.
  - discriminate.
Defined.

(** X10.  One call of [process_table_placeholder] on the table at position
    [i] touches that one shape.  The slide keeps its number of shapes and the
    shapes below [i].  Either the table stays at [i], with its place and
    size, and every shape above is where it was; or the table leaves [i],
    every shape above moves down by one, and a table with the old one's place
    and size stands last. *)
Theorem process_table_placeholder_touches_one_shape (py_repr : json -> string)
    (PPTX_TABLE_STYLE_ID : option string) (i : nat) (frame : GraphicFrame) (content : dict)
    (slide slide1 : Slide) (change : tree_change) :
  shapes slide !! i = Some (TableShape frame) ->
  process_table_placeholder py_repr PPTX_TABLE_STYLE_ID i frame content slide
    = Done (slide1, change) ->
  length (shapes slide1) = length (shapes slide) /\
  (forall j, (j < i)%nat -> shapes slide1 !! j = shapes slide !! j) /\
  exists t1,
    let frame1 := {| left := left frame; top := top frame; width := width frame;
                     height := height frame; table := t1 |} in
    match change with
    | InPlace =>
        shapes slide1 !! i = Some (TableShape frame1) /\
        forall j, (i < j)%nat -> shapes slide1 !! j = shapes slide !! j
    | Removed =>
        last (shapes slide1) = Some (TableShape frame1) /\
        forall j, (i <= j)%nat -> (S j < length (shapes slide))%nat ->
                  shapes slide1 !! j = shapes slide !! S j
    end.
Proof.
  intros Hi Hrun. pose proof (lookup_lt_Some _ _ _ Hi) as Hlt.
  destruct (process_table_placeholder_geometry _ _ _ _ _ _ _ _ Hi Hrun) as (t1 & Hshapes).
  destruct change; rewrite Hshapes.
  - split_and!.
    + apply length_insert.
    + intros j Hj. apply list_lookup_insert_ne. lia.
    + exists t1. cbn zeta. split.
      * by apply list_lookup_insert_eq.
      * intros j Hj. apply list_lookup_insert_ne. lia.
  - split_and!.
    + rewrite length_app, length_delete by done. cbn [length]. lia.
    + intros j Hj. rewrite lookup_app_l by (rewrite length_delete by done; lia).
      by apply list_lookup_delete_lt.
    + exists t1. cbn zeta. split.
      * apply last_snoc.
      * intros j Hj Hlast. rewrite lookup_app_l by (rewrite length_delete by done; lia).
        by apply list_lookup_delete_ge.
Qed.

Lemma process_table_placeholder_touches_one_shape_witness :
  exists slide1 change t1,
    process_table_placeholder Samples.repr None 1 (Samples.placeholder "items")
      Samples.content
      {| shapes := [Decks.title; TableShape (Samples.placeholder "items"); OtherShape] |}
    = Done (slide1, change) /\
    change = Removed /\
    length (shapes slide1) = 3%nat /\
    shapes slide1 !! 0%nat = Some Decks.title /\
    shapes slide1 !! 1%nat = Some OtherShape /\
    last (shapes slide1)
    = Some (TableShape {| left := 100; top := 200; width := 3000; height := 400;
                          table := t1 |}).
Proof.
  eexists _, _.
  assert (process_table_placeholder Samples.repr None 1 (Samples.placeholder "items")
            Samples.content
            {| shapes := [Decks.title; TableShape (Samples.placeholder "items"); OtherShape] |}
          = Done (_, _)) as Hrun by (vm_compute; reflexivity).
  destruct (process_table_placeholder_touches_one_shape Samples.repr None 1
              (Samples.placeholder "items") Samples.content
              {| shapes := [Decks.title; TableShape (Samples.placeholder "items");
                            OtherShape] |} _ _ eq_refl Hrun)
    as (Hlength & Hbelow & t1 & Hlast & Habove).
  exists t1. split_and!.
  - exact Hrun.
  - reflexivity.
  - exact Hlength.
  - apply (Hbelow 0%nat). lia.
  - apply (Habove 1%nat); cbn; lia.
  - exact Hlast.
Defined.

(** X11.  The table loop over a slide never adds or drops a shape, and it
    keeps the shapes that hold no table as they are and in their order. *)
Theorem table_loop_keeps_other_shapes (py_repr : json -> string)
    (PPTX_TABLE_STYLE_ID : option string) (fuel : nat) (content : dict)
    (slide slide' : Slide) :
  table_loop py_repr PPTX_TABLE_STYLE_ID fuel content 0 slide = Done slide' ->
  length (shapes slide') = length (shapes slide) /\
  non_tables (shapes slide') = non_tables (shapes slide).
Proof.
  destruct slide as [l]. intros Hrun.
  apply (table_loop_keeps _ _ _ _ [] l) in Hrun as (todo' & -> & Hlength & Hkept).
  done.
Qed.

Lemma table_loop_keeps_other_shapes_witness :
  exists slide',
    table_loop Samples.repr None 4 Samples.content 0
      {| shapes := [TableShape (Samples.placeholder "items"); Decks.title; OtherShape] |}
    = Done slide' /\
    length (shapes slide') = 3%nat /\
    non_tables (shapes slide') = [Decks.title; OtherShape].
Proof.
  eexists. split; [vm_compute; reflexivity|].
  apply (table_loop_keeps_other_shapes Samples.repr None 4 Samples.content
           {| shapes := [TableShape (Samples.placeholder "items"); Decks.title;
                         OtherShape] |}).
  vm_compute. reflexivity.
Defined.

(** X12.  The table loop does not end on a slide of two or more tables that
    come back: when every shape is a placeholder for an array of records
    whose first key is itself a marker for that array (and holds no control
    character, so that the header cell reads as the key), each round takes
    the first table out, puts its expansion last, and finds the next round's
    table at the same position; no number of rounds is enough. *)
Theorem table_loop_never_ends_on_returning_tables (py_repr : json -> string)
    (PPTX_TABLE_STYLE_ID : option string) (content : dict) (name header : string)
    (others : list string) (first : dict) (records : list dict) (l : list Shape) :
  dict_get name content = Some (JList (JDict <$> first :: records)) ->
  dict_keys first = header :: others ->
  plain header = true ->
  PyStr.strip (PyStr.slice header 8 (-2)) = name ->
  Forall (fun shape =>
            exists frame anchor,
              shape = TableShape frame /\
              table_cell (table frame) 0 0 = Done anchor /\
              paragraphs (cell_frame anchor) <> [] /\
              PyStr.strip (PyStr.slice (cell_text anchor) 8 (-2)) = name) l ->
  (2 <= length l)%nat ->
  forall fuel,
    table_loop py_repr PPTX_TABLE_STYLE_ID fuel content 0 {| shapes := l |} = OutOfFuel.
Proof.
  intros Hbound Hkeys Hplain Hheader Htables Hlength fuel. revert l Htables Hlength.
  induction fuel as [|fuel IH]; intros [|cur [|next rest]] Htables Hlength;
    cbn [length] in Hlength; try lia; [done|].
  apply Forall_cons in Htables as [(frame & anchor & -> & Hanchor & Hparagraphs & Hname) Hrest].
  change (table_loop py_repr PPTX_TABLE_STYLE_ID (S fuel) content (length (@nil Shape))
            {| shapes := [] ++ TableShape frame :: next :: rest |} = OutOfFuel).
  rewrite table_loop_round.
  rewrite (process_table_placeholder_expands py_repr PPTX_TABLE_STYLE_ID _ frame content
             _ anchor first records Hanchor Hparagraphs);
    [| by unfold placeholder_name_of; rewrite Hname
     | by intros ->].
  cbn [mbind outcome_bind length delete list_delete app]. apply IH.
  - apply Forall_app. split; [done|]. apply Forall_singleton.
    eexists _, (cell_each_run (with_size 11) (text_cell header)). split_and!.
    + done.
    + cbn [table]. rewrite Hkeys. reflexivity.
    + cbn [cell_each_run cell_frame paragraphs text_cell set_frame_text].
      intros Hnone%fmap_nil_inv%fmap_nil_inv. by apply split_nonempty in Hnone.
    + by rewrite cell_text_with_size, cell_text_text_cell.
  - rewrite length_app. cbn. lia.
Qed.

Lemma table_loop_never_ends_on_returning_tables_witness :
  (2 <= length (shapes Decks.returning_slide))%nat /\
  forall fuel,
    table_loop Samples.repr None fuel Decks.returning_content 0 Decks.returning_slide
    = OutOfFuel.
Proof.
  split; [cbn; lia|].
  apply (table_loop_never_ends_on_returning_tables Samples.repr None Decks.returning_content
           "x" "{{TABLE:x}}" [] [("{{TABLE:x}}", JInt 1)] []
           (shapes Decks.returning_slide)).
  - reflexivity.
  - reflexivity.
  - reflexivity.
  - reflexivity.
  - repeat constructor;
      exists (Samples.placeholder "x"), (Samples.cell_of Samples.heading_font "{{TABLE:x}}");
      split_and!; reflexivity || discriminate.
  - cbn. lia.
Defined.

(** X13.  The [n/a] mark stays put.  When the name a table's anchor encodes
    is not bound to a non-empty array, the call marks the table; the marked
    table's anchor encodes the empty name, and a later call on it, under any
    content that does not bind the empty name to a non-empty array, returns
    the slide as the first call left it. *)
Theorem no_data_mark_is_stable (py_repr : json -> string)
    (PPTX_TABLE_STYLE_ID : option string) (i : nat) (frame : GraphicFrame)
    (content later_content : dict) (slide : Slide) (anchor : Cell) :
  shapes slide !! i = Some (TableShape frame) ->
  table_cell (table frame) 0 0 = Done anchor ->
  (forall first rest,
     dict_get (PyStr.strip (PyStr.slice (cell_text anchor) 8 (-2))) content
     <> Some (JList (first :: rest))) ->
  (forall first rest, dict_get "" later_content <> Some (JList (first :: rest))) ->
  exists slide1 frame1 anchor1,
    process_table_placeholder py_repr PPTX_TABLE_STYLE_ID i frame content slide
      = Done (slide1, InPlace) /\
    shapes slide1 !! i = Some (TableShape frame1) /\
    table_cell (table frame1) 0 0 = Done anchor1 /\
    PyStr.strip (PyStr.slice (cell_text anchor1) 8 (-2)) = "" /\
    process_table_placeholder py_repr PPTX_TABLE_STYLE_ID i frame1 later_content slide1
      = Done (slide1, InPlace).
Proof.
  intros Hi Hanchor Hunbound Hlater.
  pose proof (lookup_lt_Some _ _ _ Hi) as Hlt.
  set (frame1 :=
         {| left := left frame; top := top frame; width := width frame;
            height := height frame;
            table := set_table_font_size
                       {| rows := alter (fun row =>
                                           {| cells := <[0%nat := text_cell "n/a"]> (cells row) |})
                                    0%nat (rows (table frame));
                          style_id := style_id (table frame) |} 11 |}).
  assert (table_cell (table frame1) 0 0
          = Done (cell_each_run (with_size 11) (text_cell "n/a"))) as Hanchor1.
  { apply table_cell_each_run. by apply (cell_lookup_same _ _ _ _ anchor). }
  assert (cell_text (cell_each_run (with_size 11) (text_cell "n/a")) = "n/a") as Htext
    by by rewrite cell_text_with_size, cell_text_text_cell.
  exists {| shapes := <[i := TableShape frame1]> (shapes slide) |}, frame1,
    (cell_each_run (with_size 11) (text_cell "n/a")).
  split_and!.
  - by apply (process_table_placeholder_no_data _ _ _ _ _ _ anchor).
  - cbn [shapes]. by apply list_lookup_insert_eq.
  - exact Hanchor1.
  - rewrite Htext. reflexivity.
  - rewrite (process_table_placeholder_no_data _ _ _ frame1 _ _ _ Hanchor1)
      by (unfold placeholder_name_of; rewrite Htext; exact Hlater).
    cbn [shapes]. rewrite list_insert_insert_eq. do 5 f_equal.
    unfold frame1. cbn [left top width height table]. f_equal.
    apply (no_data_table_twice (table frame)).
Qed.

Lemma no_data_mark_is_stable_witness :
  exists slide1 frame1 anchor1,
    process_table_placeholder Samples.repr None 1 Samples.ordinary_table
      Samples.content Decks.title_slide = Done (slide1, InPlace) /\
    shapes slide1 !! 1%nat = Some (TableShape frame1) /\
    table_cell (table frame1) 0 0 = Done anchor1 /\
    PyStr.strip (PyStr.slice (cell_text anchor1) 8 (-2)) = "" /\
    process_table_placeholder Samples.repr None 1 frame1 [("jobid", JStr "J-7")] slide1
      = Done (slide1, InPlace).
Proof.
  apply (no_data_mark_is_stable Samples.repr None 1 Samples.ordinary_table
           Samples.content [("jobid", JStr "J-7")] Decks.title_slide
           (Samples.cell_of no_font "Name")).
  - reflexivity.
  - reflexivity.
  - intros first rest. vm_compute. discriminate.
  - intros first rest. vm_compute. discriminate.
Defined.

Import BatchFacts.

(** X14.  The content map built for a record holds the record's decoded
    object (the empty object for a record without the field): every key
    other than [jobid] and [jobdate] reads as in that object. *)
Theorem record_content_keeps_record_keys (json_loads : string -> json + exn)
    (jobid jobdate : string) (r : record) (content : dict) :
  record_content json_loads jobid jobdate r = Done (Some content) ->
  exists entries,
    match jeschro_content r with
    | Some field => exists text, field = JStr text /\ json_loads text = inl (JDict entries)
    | None => entries = []
    end /\
    forall key, key <> "jobid" -> key <> "jobdate" ->
                dict_get key content = dict_get key entries.
Proof.
  intros (entries & -> & Hentries)%record_content_Some.
  exists entries. split; [done|].
  intros key Hid Hdate. by rewrite !dict_get_set_ne.
Qed.

Lemma record_content_keeps_record_keys_witness :
  exists entries,
    (exists text, JStr Samples.items_text = JStr text /\
                  Samples.loads text = inl (JDict entries)) /\
    forall key, key <> "jobid" -> key <> "jobdate" ->
                dict_get key [("items", JList (JDict <$> Samples.two_records));
                              ("jobid", JStr "J-7"); ("jobdate", JStr Samples.jobdate)]
                = dict_get key entries.
Proof.
  apply (record_content_keeps_record_keys Samples.loads "J-7" Samples.jobdate
           Samples.items_record).
  reflexivity.
Defined.

(** X15.  A record whose [jeschro_content] decodes to JSON that is not an
    object stops the batch: writing [jobid] into the decoded value raises
    [TypeError], so the records after it are not rendered and no presentation
    comes out, whatever the records before it did. *)
Theorem non_object_record_aborts_batch (py_repr : json -> string)
    (json_loads : string -> json + exn) (PPTX_TABLE_STYLE_ID : option string)
    (fuel : nat) (jobid jobdate : string) (before after : list record) (r : record)
    (text : string) (value : json) (prs prs1 : Presentation) :
  jeschro_content r = Some (JStr text) ->
  json_loads text = inl value ->
  (forall entries, value <> JDict entries) ->
  generate_ppt py_repr json_loads PPTX_TABLE_STYLE_ID fuel jobid jobdate before prs
    = Done prs1 ->
  generate_ppt py_repr json_loads PPTX_TABLE_STYLE_ID fuel jobid jobdate
    (before ++ r :: after) prs
  = Raised TypeError.
Proof.
  intros Hfield Hdecode Hvalue Hbefore. unfold generate_ppt in *.
  rewrite for_each_app, Hbefore. cbn [mbind outcome_bind for_each].
  unfold record_content. rewrite Hfield, Hdecode.
  destruct value as [| | | | | |entries]; try done. by destruct (Hvalue entries).
Qed.

Lemma non_object_record_aborts_batch_witness :
  generate_ppt Samples.repr Samples.loads None 4 "J-7" Samples.jobdate
    ([Samples.broken_record] ++ Decks.array_record :: [Samples.items_record])
    Samples.template
  = Raised TypeError.
Proof.
  apply (non_object_record_aborts_batch Samples.repr Samples.loads None 4 "J-7"
           Samples.jobdate [Samples.broken_record] [Samples.items_record]
           Decks.array_record "[1, 2]" (JList [JInt 1; JInt 2]) Samples.template
           Samples.template).
  - reflexivity.
  - reflexivity.
  - discriminate.
  - reflexivity.
Defined.

(** X16.  A batch that runs to its end neither adds nor drops a slide, and
    leaves every slide with as many shapes as it had. *)
Theorem generate_ppt_keeps_slide_and_shape_counts (py_repr : json -> string)
    (json_loads : string -> json + exn) (PPTX_TABLE_STYLE_ID : option string)
    (fuel : nat) (jobid jobdate : string) (records : list record)
    (prs prs' : Presentation) :
  generate_ppt py_repr json_loads PPTX_TABLE_STYLE_ID fuel jobid jobdate records prs
    = Done prs' ->
  Forall2 (fun slide slide' => length (shapes slide') = length (shapes slide))
    (slides prs) (slides prs').
Proof.
  unfold generate_ppt.
  apply (for_each_invariant
           (fun prs1 => Forall2 (fun slide slide' =>
                                   length (shapes slide') = length (shapes slide))
                          (slides prs) (slides prs1))).
  - intros r prs1 prs2 Hsofar.
    destruct (record_content json_loads jobid jobdate r) as [[content|]| |];
      cbn [mbind outcome_bind]; [| |done..].
    + intros Hstep%render_slides_counts.
      eapply Forall2_trans; [|exact Hsofar|exact Hstep].
      intros slide1 slide2 slide3 H12 H23. by rewrite H23.
    + by intros [= <-].
  - apply Forall_Forall2_diag, Forall_true. done.
Qed.

Lemma generate_ppt_keeps_slide_and_shape_counts_witness :
  exists prs',
    generate_ppt Samples.repr Samples.loads None 4 "J-7" Samples.jobdate
      [Samples.items_record; Samples.object_record]
      {| slides := [Samples.slide; Decks.title_slide] |} = Done prs' /\
    Forall2 (fun slide slide' => length (shapes slide') = length (shapes slide))
      [Samples.slide; Decks.title_slide] (slides prs').
Proof.
  eexists. split; [vm_compute; reflexivity|].
  apply (generate_ppt_keeps_slide_and_shape_counts Samples.repr Samples.loads None 4 "J-7"
           Samples.jobdate [Samples.items_record; Samples.object_record]
           {| slides := [Samples.slide; Decks.title_slide] |}).
  vm_compute. reflexivity.
Defined.

(** X17.  In a deck without tables only the first record rendered shows.
    When the first record of a batch builds a content map and its pass runs
    to the end, the records after it, as long as none of them raises, leave
    the presentation exactly as the first left it. *)
Theorem later_records_leave_text_deck_alone (py_repr : json -> string)
    (json_loads : string -> json + exn) (PPTX_TABLE_STYLE_ID : option string)
    (fuel : nat) (jobid jobdate : string) (r : record) (later : list record)
    (content : dict) (prs prs1 : Presentation) :
  Forall (fun slide => Forall (fun shape => forall frame, shape <> TableShape frame)
                         (shapes slide)) (slides prs) ->
  record_content json_loads jobid jobdate r = Done (Some content) ->
  generate_ppt py_repr json_loads PPTX_TABLE_STYLE_ID fuel jobid jobdate [r] prs
    = Done prs1 ->
  Forall (fun r' => exists c, record_content json_loads jobid jobdate r' = Done c) later ->
  generate_ppt py_repr json_loads PPTX_TABLE_STYLE_ID fuel jobid jobdate (r :: later) prs
  = Done prs1.
Proof.
  intros Hplain Hcontent Hfirst Hlater. unfold generate_ppt in *.
  cbn [for_each] in *. rewrite Hcontent in *. cbn [mbind outcome_bind] in *.
  destruct (render_slides _ _ _ _ _) as [prs2| |] eqn:Hrender;
    cbn [mbind outcome_bind] in *; [|done..].
  injection Hfirst as ->.
  induction Hlater as [|r' later (c & Hc) _ IH]; [done|].
  cbn [for_each]. rewrite Hc. cbn [mbind outcome_bind].
  destruct c as [content2|]; [|exact IH].
  rewrite (render_slides_settled py_repr PPTX_TABLE_STYLE_ID fuel content content2 prs prs1)
    by done.
  exact IH.
Qed.

Lemma later_records_leave_text_deck_alone_witness :
  exists prs1,
    generate_ppt Samples.repr Samples.loads None 2 "J-7" Samples.jobdate
      [Decks.bare_record] Decks.text_deck = Done prs1 /\
    generate_ppt Samples.repr Samples.loads None 2 "J-7" Samples.jobdate
      (Decks.bare_record :: [Samples.object_record; Samples.broken_record;
                             Samples.items_record]) Decks.text_deck
    = Done prs1.
Proof.
  eexists.
  assert (generate_ppt Samples.repr Samples.loads None 2 "J-7" Samples.jobdate
            [Decks.bare_record] Decks.text_deck = Done _) as Hfirst
    by (vm_compute; reflexivity).
  split; [exact Hfirst|].
  apply (later_records_leave_text_deck_alone Samples.repr Samples.loads None 2 "J-7"
           Samples.jobdate Decks.bare_record
           [Samples.object_record; Samples.broken_record; Samples.items_record]
           [("jobid", JStr "J-7"); ("jobdate", JStr Samples.jobdate)]
           Decks.text_deck _).
  - repeat constructor; discriminate.
  - reflexivity.
  - exact Hfirst.
  - repeat constructor; eexists; reflexivity.
Defined.

Import RequestFacts.

(** X18.  The URL [fetch_data] asks for does not depend on slashes at the
    end of the configured [DATAVERSE_API_URL]: one more trailing slash gives
    the same URL, and a base that does not end in a slash is joined to the
    entity name by exactly one. *)
Theorem fetch_request_url_ignores_trailing_slashes (DATAVERSE_API_URL entity token : string)
    (select : option (list string)) (filter_expr : option string) :
  url (fetch_request (DATAVERSE_API_URL +:+ "/") entity token select filter_expr)
    = url (fetch_request DATAVERSE_API_URL entity token select filter_expr) /\
  ((forall base, DATAVERSE_API_URL <> base +:+ "/") ->
   url (fetch_request DATAVERSE_API_URL entity token select filter_expr)
     = DATAVERSE_API_URL +:+ "/" +:+ entity).
Proof.
  unfold fetch_request. cbn [url]. split.
  - by rewrite rstrip_chars_slash.
  - intros Hend. by rewrite rstrip_chars_kept.
Qed.

Example fetch_request_of_sample :
  fetch_request "https://org.example/api/data/v9.1//" "accounts" "token"
    (Some ["name"; "jeschro_content"]) (Some "jobid eq 7")
  = {| url := "https://org.example/api/data/v9.1/accounts";
       headers := [("Authorization", "Bearer token"); ("Accept", "application/json")];
       params := [("$select", "name,jeschro_content"); ("$filter", "jobid eq 7")] |}.
Proof. reflexivity. Qed.

(** X19.  Every content map built for a record prints the job identifier
    where the template says [{{jobid}}]: in a text with that one token and no
    other brace, the token is replaced by the identifier, whatever the record
    itself holds under [jobid]. *)
Theorem jobid_token_shows_job_identifier (py_repr : json -> string)
    (json_loads : string -> json + exn) (jobid jobdate : string) (r : record)
    (content : dict) (before after : string) :
  record_content json_loads jobid jobdate r = Done (Some content) ->
  PyStr.contains "{" before = false -> PyStr.contains "}" before = false ->
  PyStr.contains "{" after = false -> PyStr.contains "}" after = false ->
  PyStr.contains "{" jobid = false ->
  resolve_text py_repr content (before +:+ "{{" +:+ "jobid" +:+ "}}" +:+ after)
  = Done (before +:+ jobid +:+ after).
Proof.
  intros Hcontent Ha1 Ha2 Hb1 Hb2 Hjobid.
  assert (dict_get "jobid" content = Some (JStr jobid)) as Hbound.
  { apply record_content_Some in Hcontent as (entries & -> & _).
    by rewrite dict_get_set_ne, dict_get_set_eq. }
  unfold resolve_text.
  rewrite substitute_known_token;
    [|done..|by intros v Hv; rewrite Hbound in Hv; injection Hv as <-].
  rewrite Hbound.
  cbn [py_str].
  apply substitute_missing_stable, andb_false_intro1, not_true_is_false.
  intros Hin%contains_first_char. rewrite !contains_char_app in Hin.
  rewrite Ha1, Hb1, Hjobid in Hin. done.
Qed.

Lemma jobid_token_shows_job_identifier_witness :
  resolve_text Samples.repr [("jobid", JStr "J-7"); ("jobdate", JStr Samples.jobdate)]
    ("Job " +:+ "{{" +:+ "jobid" +:+ "}}" +:+ " is done")
  = Done ("Job " +:+ "J-7" +:+ " is done").
Proof.
  apply (jobid_token_shows_job_identifier Samples.repr Samples.loads "J-7" Samples.jobdate
           Samples.object_record
           [("jobid", JStr "J-7"); ("jobdate", JStr Samples.jobdate)] "Job " " is done");
    reflexivity.
Defined.
